(** * SSD Core Engine v5: the four-layer pressure/energy engine

    A shallow embedding of [src/ssd_core_engine_v5.py] (class
    [SSDCoreEngineV5], its state and parameter dataclasses and its helper
    methods) and of the hazard-rate computation of
    [WerewolfGameV3.check_probabilistic_jump] in
    [src/ssd_werewolf_game_v3.py], followed by the properties of the
    engine established against that embedding.

    Modelling conventions.
    - Python [float] values are modelled as exact real numbers ([R]):
      rounding, overflow and NaN are outside the model.
    - A numpy vector is a list of reals; only the operations the engine
      uses are modelled (scalar multiple, difference, Euclidean norm).
    - A Python dict whose key set is fixed by the code is a record with one
      field per key; a dict filled conditionally is an association list in
      insertion order.
    - [step] mutates the state object and the engine object in place; here
      it returns the pair of the updated engine and the updated state.  The
      states of the other agents are only read, and are taken to be objects
      distinct from the state being stepped, as in every caller. *)

From Stdlib Require Import Reals Lra Lia List String Bool Permutation ZArith.
Import ListNotations.
Open Scope R_scope.

(** ** Python built-ins used by the engine *)

Module Py.

(** [a < b] on floats, as a boolean. *)
Definition ltb (a b : R) : bool := if Rlt_dec a b then true else false.

(** [a > b]. *)
Definition gtb (a b : R) : bool := ltb b a.

(** [a >= b]. *)
Definition geb (a b : R) : bool := negb (ltb a b).

(** [max(a, b)]: the first argument unless the second is strictly
    greater. *)
Definition max (a b : R) : R := if ltb a b then b else a.

(** [min(a, b)]: the first argument unless the second is strictly
    smaller. *)
Definition min (a b : R) : R := if ltb b a then b else a.

(** The scan of [max(iterable, key=...)]: keep the current best and
    replace it only by a strictly larger key, so the first of several
    maximal items wins. *)
Fixpoint max_by_from {A : Type} (key : A -> R) (best : A) (l : list A) : A :=
  match l with
  | [] => best
  | x :: l' => max_by_from key (if ltb (key best) (key x) then x else best) l'
  end.

(** [max(iterable, key=...)]; [None] stands for the [ValueError] raised on
    an empty iterable. *)
Definition max_by {A : Type} (key : A -> R) (l : list A) : option A :=
  match l with
  | [] => None
  | x :: l' => Some (max_by_from key x l')
  end.

(** [k in d] for a dict with string keys. *)
Definition contains {A : Type} (k : string) (d : list (string * A)) : bool :=
  existsb (fun kv => String.eqb (fst kv) k) d.

End Py.

(** ** The numpy fragment *)

Module Np.

Definition ndarray : Type := list R.

(** [np.zeros(n)] *)
Definition zeros (n : nat) : ndarray := repeat 0 n.

(** [a.copy()] *)
Definition copy (a : ndarray) : ndarray := a.

(** [k * a] for a scalar [k]. *)
Definition scale (k : R) (a : ndarray) : ndarray := map (Rmult k) a.

(** [a - b] for arrays of one shape (the engine only subtracts a vector
    and a scalar multiple of itself). *)
Fixpoint sub (a b : ndarray) : ndarray :=
  match a, b with
  | x :: a', y :: b' => (x - y) :: sub a' b'
  | _, _ => []
  end.

Definition sum_sq (a : ndarray) : R :=
  fold_right (fun x acc => x * x + acc) 0 a.

(** [np.linalg.norm(a)] *)
Definition norm (a : ndarray) : R := sqrt (sum_sq a).

End Np.

(** ** Data model *)

(** [class SSDLayer(Enum)] *)
Inductive SSDLayer : Type := PHYSICAL | BASE | CORE | UPPER.

(** [@dataclass class StructuralPower] *)
Record StructuralPower : Type := Build_StructuralPower {
  layer_name : string;
  pressure : R;
  energy : R;
  kappa : R;
  R_value : R;
  total_power : R
}.

(** [@dataclass class SSDStateV5], fields in the order of the source. *)
Record SSDStateV5 : Type := Build_SSDStateV5 {
  E_direct : R;
  E_physical : R;
  E_base : R;
  E_core : R;
  E_upper : R;
  kappa_physical : R;
  kappa_base : R;
  kappa_core : R;
  kappa_upper : R;
  F_direct : Np.ndarray;
  p_physical : Np.ndarray;
  p_base : Np.ndarray;
  p_core : Np.ndarray;
  p_upper : Np.ndarray;
  j_direct : Np.ndarray;
  j_physical : Np.ndarray;
  j_base : Np.ndarray;
  j_core : Np.ndarray;
  j_upper : Np.ndarray;
  is_critical_physical : bool;
  is_critical_base : bool;
  is_critical_core : bool;
  is_critical_upper : bool;
  dominant_leap_layer : string;
  leap_type : string;
  structural_powers : list (string * R);
  E_physical_flow : R;
  E_base_flow : R;
  E_core_flow : R;
  E_upper_flow : R;
  E_direct_flow : R;
  conversion_physical2d : R;
  conversion_base2d : R;
  conversion_core2d : R;
  conversion_upper2d : R;
  conversion_d2physical : R;
  conversion_d2base : R;
  conversion_d2core : R;
  conversion_d2upper : R;
  transfer_upper2base : R;
  transfer_upper2core : R;
  transfer_base2upper : R;
  transfer_base2core : R;
  transfer_core2base : R;
  transfer_core2upper : R;
  transfer_physical2base : R;
  transfer_physical2upper : R;
  social_coupling_physical : R;
  social_coupling_base : R;
  social_coupling_core : R;
  social_coupling_upper : R;
  kappa_coupling_physical : R;
  kappa_coupling_base : R;
  kappa_coupling_core : R;
  kappa_coupling_upper : R
}.

Definition SSDStateV5_default : SSDStateV5 := {|
  E_direct := 0.0;
  E_physical := 0.0;
  E_base := 0.0;
  E_core := 0.0;
  E_upper := 0.0;
  kappa_physical := 1.0;
  kappa_base := 1.0;
  kappa_core := 1.0;
  kappa_upper := 1.0;
  F_direct := Np.zeros 3;
  p_physical := Np.zeros 3;
  p_base := Np.zeros 3;
  p_core := Np.zeros 3;
  p_upper := Np.zeros 3;
  j_direct := Np.zeros 3;
  j_physical := Np.zeros 3;
  j_base := Np.zeros 3;
  j_core := Np.zeros 3;
  j_upper := Np.zeros 3;
  is_critical_physical := false;
  is_critical_base := false;
  is_critical_core := false;
  is_critical_upper := false;
  dominant_leap_layer := "NONE"%string;
  leap_type := "NO_LEAP"%string;
  structural_powers := [];
  E_physical_flow := 0.0;
  E_base_flow := 0.0;
  E_core_flow := 0.0;
  E_upper_flow := 0.0;
  E_direct_flow := 0.0;
  conversion_physical2d := 0.0;
  conversion_base2d := 0.0;
  conversion_core2d := 0.0;
  conversion_upper2d := 0.0;
  conversion_d2physical := 0.0;
  conversion_d2base := 0.0;
  conversion_d2core := 0.0;
  conversion_d2upper := 0.0;
  transfer_upper2base := 0.0;
  transfer_upper2core := 0.0;
  transfer_base2upper := 0.0;
  transfer_base2core := 0.0;
  transfer_core2base := 0.0;
  transfer_core2upper := 0.0;
  transfer_physical2base := 0.0;
  transfer_physical2upper := 0.0;
  social_coupling_physical := 0.0;
  social_coupling_base := 0.0;
  social_coupling_core := 0.0;
  social_coupling_upper := 0.0;
  kappa_coupling_physical := 0.0;
  kappa_coupling_base := 0.0;
  kappa_coupling_core := 0.0;
  kappa_coupling_upper := 0.0
|}.

(** [@dataclass class SSDParametersV5], fields in the order of the source. *)
Record SSDParametersV5 : Type := Build_SSDParametersV5 {
  gamma_physical2d : R;
  gamma_d2physical : R;
  gamma_base2d : R;
  gamma_core2d : R;
  gamma_upper2d : R;
  gamma_d2base : R;
  gamma_d2core : R;
  gamma_d2upper : R;
  gamma_upper2base : R;
  gamma_upper2core : R;
  gamma_base2upper : R;
  gamma_base2core : R;
  gamma_core2base : R;
  gamma_core2upper : R;
  gamma_physical2base : R;
  gamma_physical2upper : R;
  Theta_physical : R;
  Theta_base : R;
  Theta_core : R;
  Theta_upper : R;
  beta_physical : R;
  beta_base : R;
  beta_core : R;
  beta_upper : R;
  eta_physical : R;
  eta_base : R;
  eta_core : R;
  eta_upper : R;
  alpha_d : R;
  alpha_physical : R;
  alpha_base : R;
  alpha_core : R;
  alpha_upper : R;
  rho_d : R;
  rho_physical : R;
  rho_base : R;
  rho_core : R;
  rho_upper : R;
  lambda_physical : R;
  lambda_base : R;
  lambda_core : R;
  lambda_upper : R;
  kappa_min_physical : R;
  kappa_min_base : R;
  kappa_min_core : R;
  kappa_min_upper : R;
  phase_transition_multiplier_physical : R;
  enable_phase_transition : bool;
  phase_transition_multiplier_base : R;
  phase_transition_multiplier_core : R;
  phase_transition_multiplier_upper : R;
  use_integrated_leap_detection : bool;
  dynamic_theta_sensitivity : R;
  enable_interlayer_transfer : bool;
  interlayer_transfer_strength : R;
  enable_social_coupling : bool;
  zeta_physical : R;
  zeta_base : R;
  zeta_core : R;
  zeta_upper : R;
  xi_physical : R;
  xi_base : R;
  xi_core : R;
  xi_upper : R;
  omega_physical : R;
  omega_base : R;
  omega_core : R;
  omega_upper : R;
  social_coupling_strength : R;
  cooperation_threshold : R;
  reservoir_capacity : R;
  use_direct_action : bool;
  use_indirect_action : bool
}.

Definition SSDParametersV5_default : SSDParametersV5 := {|
  gamma_physical2d := 0.15;
  gamma_d2physical := 0.01;
  gamma_base2d := 0.08;
  gamma_core2d := 0.05;
  gamma_upper2d := 0.03;
  gamma_d2base := 0.03;
  gamma_d2core := 0.02;
  gamma_d2upper := 0.04;
  gamma_upper2base := (-0.04);
  gamma_upper2core := 0.03;
  gamma_base2upper := 0.05;
  gamma_base2core := (-0.02);
  gamma_core2base := 0.04;
  gamma_core2upper := 0.02;
  gamma_physical2base := 0.06;
  gamma_physical2upper := 0.03;
  Theta_physical := 200.0;
  Theta_base := 150.0;
  Theta_core := 100.0;
  Theta_upper := 80.0;
  beta_physical := 0.001;
  beta_base := 0.005;
  beta_core := 0.01;
  beta_upper := 0.02;
  eta_physical := 0.9;
  eta_base := 0.8;
  eta_core := 0.5;
  eta_upper := 0.3;
  alpha_d := 1.0;
  alpha_physical := 1.0;
  alpha_base := 1.0;
  alpha_core := 1.0;
  alpha_upper := 1.0;
  rho_d := 0.1;
  rho_physical := 0.1;
  rho_base := 0.1;
  rho_core := 0.1;
  rho_upper := 0.1;
  lambda_physical := 0.05;
  lambda_base := 0.05;
  lambda_core := 0.05;
  lambda_upper := 0.05;
  kappa_min_physical := 0.9;
  kappa_min_base := 0.8;
  kappa_min_core := 0.5;
  kappa_min_upper := 0.3;
  phase_transition_multiplier_physical := 20.0;
  enable_phase_transition := true;
  phase_transition_multiplier_base := 15.0;
  phase_transition_multiplier_core := 10.0;
  phase_transition_multiplier_upper := 8.0;
  use_integrated_leap_detection := true;
  dynamic_theta_sensitivity := 0.3;
  enable_interlayer_transfer := true;
  interlayer_transfer_strength := 1.0;
  enable_social_coupling := true;
  zeta_physical := 0.02;
  zeta_base := 0.08;
  zeta_core := 0.05;
  zeta_upper := 0.03;
  xi_physical := 0.01;
  xi_base := 0.04;
  xi_core := 0.06;
  xi_upper := 0.05;
  omega_physical := (-0.01);
  omega_base := (-0.06);
  omega_core := (-0.03);
  omega_upper := (-0.02);
  social_coupling_strength := 1.0;
  cooperation_threshold := 0.5;
  reservoir_capacity := 1000.0;
  use_direct_action := true;
  use_indirect_action := true
|}.

(** The state object after assignments to its four inertia fields: [step]
    writes them several times and passes the object to its helper methods
    in between. *)
Definition with_kappa (state : SSDStateV5)
  (new_kappa_physical new_kappa_base new_kappa_core new_kappa_upper : R) : SSDStateV5 := {|
  E_direct := E_direct state;
  E_physical := E_physical state;
  E_base := E_base state;
  E_core := E_core state;
  E_upper := E_upper state;
  kappa_physical := new_kappa_physical;
  kappa_base := new_kappa_base;
  kappa_core := new_kappa_core;
  kappa_upper := new_kappa_upper;
  F_direct := F_direct state;
  p_physical := p_physical state;
  p_base := p_base state;
  p_core := p_core state;
  p_upper := p_upper state;
  j_direct := j_direct state;
  j_physical := j_physical state;
  j_base := j_base state;
  j_core := j_core state;
  j_upper := j_upper state;
  is_critical_physical := is_critical_physical state;
  is_critical_base := is_critical_base state;
  is_critical_core := is_critical_core state;
  is_critical_upper := is_critical_upper state;
  dominant_leap_layer := dominant_leap_layer state;
  leap_type := leap_type state;
  structural_powers := structural_powers state;
  E_physical_flow := E_physical_flow state;
  E_base_flow := E_base_flow state;
  E_core_flow := E_core_flow state;
  E_upper_flow := E_upper_flow state;
  E_direct_flow := E_direct_flow state;
  conversion_physical2d := conversion_physical2d state;
  conversion_base2d := conversion_base2d state;
  conversion_core2d := conversion_core2d state;
  conversion_upper2d := conversion_upper2d state;
  conversion_d2physical := conversion_d2physical state;
  conversion_d2base := conversion_d2base state;
  conversion_d2core := conversion_d2core state;
  conversion_d2upper := conversion_d2upper state;
  transfer_upper2base := transfer_upper2base state;
  transfer_upper2core := transfer_upper2core state;
  transfer_base2upper := transfer_base2upper state;
  transfer_base2core := transfer_base2core state;
  transfer_core2base := transfer_core2base state;
  transfer_core2upper := transfer_core2upper state;
  transfer_physical2base := transfer_physical2base state;
  transfer_physical2upper := transfer_physical2upper state;
  social_coupling_physical := social_coupling_physical state;
  social_coupling_base := social_coupling_base state;
  social_coupling_core := social_coupling_core state;
  social_coupling_upper := social_coupling_upper state;
  kappa_coupling_physical := kappa_coupling_physical state;
  kappa_coupling_base := kappa_coupling_base state;
  kappa_coupling_core := kappa_coupling_core state;
  kappa_coupling_upper := kappa_coupling_upper state
|}.

(** Lines 384-385 of [step]: [if F_direct is not None: state.F_direct =
    F_direct.copy()]; otherwise the field keeps its previous value. *)
Definition store_F_direct (state : SSDStateV5) (F : option Np.ndarray) : Np.ndarray :=
  match F with
  | Some F' => Np.copy F'
  | None => F_direct state
  end.

(** [class SSDCoreEngineV5]: the attributes created by [__init__]. *)
Record SSDCoreEngineV5 : Type := Build_SSDCoreEngineV5 {
  params : SSDParametersV5;
  total_conversion_physical2d : R;
  total_conversion_base2d : R;
  total_conversion_core2d : R;
  total_conversion_upper2d : R;
  total_conversion_d2physical : R;
  total_conversion_d2base : R;
  total_conversion_d2core : R;
  total_conversion_d2upper : R;
  total_decay_physical : R;
  total_decay_base : R;
  total_decay_core : R;
  total_decay_upper : R;
  time : R
}.

(** [SSDCoreEngineV5.__init__] *)
Definition __init__ (params : option SSDParametersV5) : SSDCoreEngineV5 := {|
  params := match params with Some p => p | None => SSDParametersV5_default end;
  total_conversion_physical2d := 0.0;
  total_conversion_base2d := 0.0;
  total_conversion_core2d := 0.0;
  total_conversion_upper2d := 0.0;
  total_conversion_d2physical := 0.0;
  total_conversion_d2base := 0.0;
  total_conversion_d2core := 0.0;
  total_conversion_d2upper := 0.0;
  total_decay_physical := 0.0;
  total_decay_base := 0.0;
  total_decay_core := 0.0;
  total_decay_upper := 0.0;
  time := 0.0
|}.

(** *** Interlayer transfer *)

(** The dict returned by [_compute_interlayer_transfers]; its eight keys are
    fixed. *)
Record Transfers : Type := Build_Transfers {
  upper2base : R;
  upper2core : R;
  base2upper : R;
  base2core : R;
  core2base : R;
  core2upper : R;
  physical2base : R;
  physical2upper : R
}.

(** The literal of lines 510-515, used when interlayer transfer is off. *)
Definition no_transfers : Transfers := {|
  upper2base := 0.0; upper2core := 0.0;
  base2upper := 0.0; base2core := 0.0;
  core2base := 0.0; core2upper := 0.0;
  physical2base := 0.0; physical2upper := 0.0
|}.

Definition _compute_interlayer_transfers (self : SSDCoreEngineV5) (state : SSDStateV5)
  : Transfers :=
  let strength := interlayer_transfer_strength (params self) in
  {| upper2base := gamma_upper2base (params self) * E_upper state * strength;
     upper2core := gamma_upper2core (params self) * E_upper state * strength;
     base2upper := gamma_base2upper (params self) * E_base state * strength;
     base2core := gamma_base2core (params self) * E_base state * strength;
     core2base := gamma_core2base (params self) * E_core state * strength;
     core2upper := gamma_core2upper (params self) * E_core state * strength;
     physical2base := gamma_physical2base (params self) * E_physical state * strength;
     physical2upper := gamma_physical2upper (params self) * E_physical state * strength |}.

(** *** Social coupling *)

(** The dict returned by [_compute_social_coupling]; its eight keys are
    fixed. *)
Record Coupling : Type := Build_Coupling {
  physical_energy : R;
  base_energy : R;
  core_energy : R;
  upper_energy : R;
  physical_kappa : R;
  base_kappa : R;
  core_kappa : R;
  upper_kappa : R
}.

Definition no_coupling : Coupling := {|
  physical_energy := 0.0; base_energy := 0.0;
  core_energy := 0.0; upper_energy := 0.0;
  physical_kappa := 0.0; base_kappa := 0.0;
  core_kappa := 0.0; upper_kappa := 0.0
|}.

(** [coupling[key] += x], one definition per key. *)
Definition add_physical_energy (x : R) (c : Coupling) : Coupling :=
  {| physical_energy := physical_energy c + x; base_energy := base_energy c;
     core_energy := core_energy c; upper_energy := upper_energy c;
     physical_kappa := physical_kappa c; base_kappa := base_kappa c;
     core_kappa := core_kappa c; upper_kappa := upper_kappa c |}.

Definition add_base_energy (x : R) (c : Coupling) : Coupling :=
  {| physical_energy := physical_energy c; base_energy := base_energy c + x;
     core_energy := core_energy c; upper_energy := upper_energy c;
     physical_kappa := physical_kappa c; base_kappa := base_kappa c;
     core_kappa := core_kappa c; upper_kappa := upper_kappa c |}.

Definition add_core_energy (x : R) (c : Coupling) : Coupling :=
  {| physical_energy := physical_energy c; base_energy := base_energy c;
     core_energy := core_energy c + x; upper_energy := upper_energy c;
     physical_kappa := physical_kappa c; base_kappa := base_kappa c;
     core_kappa := core_kappa c; upper_kappa := upper_kappa c |}.

Definition add_upper_energy (x : R) (c : Coupling) : Coupling :=
  {| physical_energy := physical_energy c; base_energy := base_energy c;
     core_energy := core_energy c; upper_energy := upper_energy c + x;
     physical_kappa := physical_kappa c; base_kappa := base_kappa c;
     core_kappa := core_kappa c; upper_kappa := upper_kappa c |}.

Definition add_physical_kappa (x : R) (c : Coupling) : Coupling :=
  {| physical_energy := physical_energy c; base_energy := base_energy c;
     core_energy := core_energy c; upper_energy := upper_energy c;
     physical_kappa := physical_kappa c + x; base_kappa := base_kappa c;
     core_kappa := core_kappa c; upper_kappa := upper_kappa c |}.

Definition add_base_kappa (x : R) (c : Coupling) : Coupling :=
  {| physical_energy := physical_energy c; base_energy := base_energy c;
     core_energy := core_energy c; upper_energy := upper_energy c;
     physical_kappa := physical_kappa c; base_kappa := base_kappa c + x;
     core_kappa := core_kappa c; upper_kappa := upper_kappa c |}.

Definition add_core_kappa (x : R) (c : Coupling) : Coupling :=
  {| physical_energy := physical_energy c; base_energy := base_energy c;
     core_energy := core_energy c; upper_energy := upper_energy c;
     physical_kappa := physical_kappa c; base_kappa := base_kappa c;
     core_kappa := core_kappa c + x; upper_kappa := upper_kappa c |}.

Definition add_upper_kappa (x : R) (c : Coupling) : Coupling :=
  {| physical_energy := physical_energy c; base_energy := base_energy c;
     core_energy := core_energy c; upper_energy := upper_energy c;
     physical_kappa := physical_kappa c; base_kappa := base_kappa c;
     core_kappa := core_kappa c; upper_kappa := upper_kappa c + x |}.

(** The local [mode] of the coupling loop. *)
Inductive Mode : Type := cooperation | competition.

(** The part of the loop body after the mode has been chosen (lines
    778-832): the four per-layer blocks, in source order. *)
Definition couple_layers (self : SSDCoreEngineV5) (state other : SSDStateV5)
  (mode : Mode) (relation_factor strength : R) (coupling : Coupling) : Coupling :=
  let coupling :=
    match mode with
    | cooperation =>
        let delta_E := (E_physical other - E_physical state) * zeta_physical (params self) in
        let coupling := add_physical_energy (delta_E * relation_factor * strength) coupling in
        let delta_kappa :=
          (kappa_physical other - kappa_physical state) * xi_physical (params self) in
        add_physical_kappa (delta_kappa * relation_factor * strength) coupling
    | competition =>
        add_physical_energy
          (omega_physical (params self) * E_physical other * relation_factor * strength)
          coupling
    end in
  let coupling :=
    match mode with
    | cooperation =>
        let delta_E := (E_base other - E_base state) * zeta_base (params self) in
        let coupling := add_base_energy (delta_E * relation_factor * strength) coupling in
        let delta_kappa := (kappa_base other - kappa_base state) * xi_base (params self) in
        add_base_kappa (delta_kappa * relation_factor * strength) coupling
    | competition =>
        add_base_energy
          (omega_base (params self) * E_base other * relation_factor * strength) coupling
    end in
  let coupling :=
    match mode with
    | cooperation =>
        let delta_E := (E_core other - E_core state) * zeta_core (params self) in
        let coupling := add_core_energy (delta_E * relation_factor * strength) coupling in
        let delta_kappa := (kappa_core other - kappa_core state) * xi_core (params self) in
        add_core_kappa (delta_kappa * relation_factor * strength) coupling
    | competition =>
        add_core_energy
          (omega_core (params self) * E_core other * relation_factor * strength) coupling
    end in
  match mode with
  | cooperation =>
      let delta_E := (E_upper other - E_upper state) * zeta_upper (params self) in
      let coupling := add_upper_energy (delta_E * relation_factor * strength) coupling in
      let delta_kappa := (kappa_upper other - kappa_upper state) * xi_upper (params self) in
      add_upper_kappa (delta_kappa * relation_factor * strength) coupling
  | competition =>
      add_upper_energy
        (omega_upper (params self) * E_upper other * relation_factor * strength) coupling
  end.

(** One iteration of the loop of [_compute_social_coupling] (lines
    764-832) on the pair [(other, relation)]; the neutral branch is the
    [continue]. *)
Definition couple_one (self : SSDCoreEngineV5) (state : SSDStateV5)
  (coupling : Coupling) (pair : SSDStateV5 * R) : Coupling :=
  let strength := social_coupling_strength (params self) in
  let coop_threshold := cooperation_threshold (params self) in
  let (other, relation) := pair in
  if Py.gtb relation coop_threshold then
    couple_layers self state other cooperation relation strength coupling
  else if Py.ltb relation (- coop_threshold) then
    couple_layers self state other competition (Rabs relation) strength coupling
  else
    coupling.

(** [_compute_social_coupling]: [zip] pairs the two lists and stops at the
    shorter one. *)
Definition _compute_social_coupling (self : SSDCoreEngineV5) (state : SSDStateV5)
  (other_states : list SSDStateV5) (relationships : list R) : Coupling :=
  if negb (enable_social_coupling (params self))
     || Nat.eqb (List.length other_states) 0
  then no_coupling
  else fold_left (couple_one self state) (combine other_states relationships) no_coupling.

(** *** Structural power and leap detection *)

(** The local dict [R_values] of [_calculate_structural_powers] and
    [_integrated_leap_detection], keyed by the layer names. *)
Definition R_values (layer : SSDLayer) : R :=
  match layer with
  | PHYSICAL => 1000.0
  | BASE => 100.0
  | CORE => 10.0
  | UPPER => 1.0
  end.

(** The dict returned by [_calculate_structural_powers]: always the four
    keys ['PHYSICAL'], ['BASE'], ['CORE'], ['UPPER']. *)
Module Powers.
Record t : Type := Build_t {
  PHYSICAL : StructuralPower;
  BASE : StructuralPower;
  CORE : StructuralPower;
  UPPER : StructuralPower
}.
End Powers.

Definition _calculate_structural_powers (self : SSDCoreEngineV5) (state : SSDStateV5)
  (p_physical p_base p_core p_upper : Np.ndarray) : Powers.t :=
  let p_phys_norm := Np.norm p_physical in
  let power_physical :=
    p_phys_norm * E_physical state * kappa_physical state * R_values PHYSICAL in
  let p_base_norm := Np.norm p_base in
  let power_base := p_base_norm * E_base state * kappa_base state * R_values BASE in
  let p_core_norm := Np.norm p_core in
  let power_core := p_core_norm * E_core state * kappa_core state * R_values CORE in
  let p_upper_norm := Np.norm p_upper in
  let power_upper := p_upper_norm * E_upper state * kappa_upper state * R_values UPPER in
  {| Powers.PHYSICAL :=
       {| layer_name := "PHYSICAL"; pressure := p_phys_norm; energy := E_physical state;
          kappa := kappa_physical state; R_value := R_values PHYSICAL;
          total_power := power_physical |};
     Powers.BASE :=
       {| layer_name := "BASE"; pressure := p_base_norm; energy := E_base state;
          kappa := kappa_base state; R_value := R_values BASE;
          total_power := power_base |};
     Powers.CORE :=
       {| layer_name := "CORE"; pressure := p_core_norm; energy := E_core state;
          kappa := kappa_core state; R_value := R_values CORE;
          total_power := power_core |};
     Powers.UPPER :=
       {| layer_name := "UPPER"; pressure := p_upper_norm; energy := E_upper state;
          kappa := kappa_upper state; R_value := R_values UPPER;
          total_power := power_upper |} |}.

(** [_compute_dynamic_theta].  The last argument is called [R] in the
    source.  The quotient is the real one; a vanishing denominator
    ([kappa * R = -1]) is outside the model. *)
Definition _compute_dynamic_theta (self : SSDCoreEngineV5) (layer_name : string)
  (base_theta structural_power kappa : R) : R -> R := fun R =>
  let resistance := kappa * R in
  let influence_factor := structural_power / (resistance + 1.0) in
  let sensitivity := dynamic_theta_sensitivity (params self) in
  let dynamic_theta := base_theta * (1.0 - sensitivity * Py.min 1.0 influence_factor) in
  let min_theta := base_theta * 0.3 in
  Py.max min_theta dynamic_theta.

(** The dict [result] of [_integrated_leap_detection]; the same six values
    are what [_legacy_phase_transition] writes into the state. *)
Module LeapResult.
Record t : Type := Build_t {
  is_critical_physical : bool;
  is_critical_base : bool;
  is_critical_core : bool;
  is_critical_upper : bool;
  dominant_layer : string;
  leap_type : string
}.
End LeapResult.

(** Lines 959-1005: the dict [critical_layers], filled in the order
    PHYSICAL, BASE, CORE, UPPER with the structural power of every layer
    whose energy is below its dynamic threshold. *)
Definition critical_layers_of (self : SSDCoreEngineV5) (state : SSDStateV5)
  (structural_powers : Powers.t) : list (string * R) :=
  let theta_physical_dynamic :=
    _compute_dynamic_theta self "PHYSICAL" (Theta_physical (params self))
      (total_power (Powers.PHYSICAL structural_powers)) (kappa_physical state)
      (R_values PHYSICAL) in
  let theta_base_dynamic :=
    _compute_dynamic_theta self "BASE" (Theta_base (params self))
      (total_power (Powers.BASE structural_powers)) (kappa_base state)
      (R_values BASE) in
  let theta_core_dynamic :=
    _compute_dynamic_theta self "CORE" (Theta_core (params self))
      (total_power (Powers.CORE structural_powers)) (kappa_core state)
      (R_values CORE) in
  let theta_upper_dynamic :=
    _compute_dynamic_theta self "UPPER" (Theta_upper (params self))
      (total_power (Powers.UPPER structural_powers)) (kappa_upper state)
      (R_values UPPER) in
  let critical_layers : list (string * R) := [] in
  let critical_layers :=
    if Py.ltb (E_physical state) theta_physical_dynamic
    then critical_layers ++ [("PHYSICAL"%string, total_power (Powers.PHYSICAL structural_powers))]
    else critical_layers in
  let critical_layers :=
    if Py.ltb (E_base state) theta_base_dynamic
    then critical_layers ++ [("BASE"%string, total_power (Powers.BASE structural_powers))]
    else critical_layers in
  let critical_layers :=
    if Py.ltb (E_core state) theta_core_dynamic
    then critical_layers ++ [("CORE"%string, total_power (Powers.CORE structural_powers))]
    else critical_layers in
  let critical_layers :=
    if Py.ltb (E_upper state) theta_upper_dynamic
    then critical_layers ++ [("UPPER"%string, total_power (Powers.UPPER structural_powers))]
    else critical_layers in
  critical_layers.

(** [_integrated_leap_detection]; [if critical_layers:] holds exactly when
    the [max] over its items is defined. *)
Definition _integrated_leap_detection (self : SSDCoreEngineV5) (state : SSDStateV5)
  (structural_powers : Powers.t) : LeapResult.t :=
  let critical_layers := critical_layers_of self state structural_powers in
  let result := {|
    LeapResult.is_critical_physical := false;
    LeapResult.is_critical_base := false;
    LeapResult.is_critical_core := false;
    LeapResult.is_critical_upper := false;
    LeapResult.dominant_layer := "NONE";
    LeapResult.leap_type := "NO_LEAP" |} in
  match Py.max_by snd critical_layers with
  | Some item =>
      let dominant_layer := fst item in
      {| LeapResult.is_critical_physical := Py.contains "PHYSICAL" critical_layers;
         LeapResult.is_critical_base := Py.contains "BASE" critical_layers;
         LeapResult.is_critical_core := Py.contains "CORE" critical_layers;
         LeapResult.is_critical_upper := Py.contains "UPPER" critical_layers;
         LeapResult.dominant_layer := dominant_layer;
         LeapResult.leap_type := String.append "LEAP_" dominant_layer |}
  | None => result
  end.

Definition _compute_dynamic_gamma (self : SSDCoreEngineV5) (leap_result : LeapResult.t)
  (state : SSDStateV5) : R * R * R * R :=
  let gamma_physical := gamma_physical2d (params self) in
  let gamma_base := gamma_base2d (params self) in
  let gamma_core := gamma_core2d (params self) in
  let gamma_upper := gamma_upper2d (params self) in
  if String.eqb (LeapResult.leap_type leap_result) "NO_LEAP" then
    (gamma_physical, gamma_base, gamma_core, gamma_upper)
  else
    let dominant_layer := LeapResult.dominant_layer leap_result in
    let gamma_physical :=
      if String.eqb dominant_layer "PHYSICAL" && LeapResult.is_critical_physical leap_result
      then gamma_physical * phase_transition_multiplier_physical (params self)
      else gamma_physical in
    let gamma_base :=
      if String.eqb dominant_layer "BASE" && LeapResult.is_critical_base leap_result
      then gamma_base * phase_transition_multiplier_base (params self)
      else gamma_base in
    let gamma_core :=
      if String.eqb dominant_layer "CORE" && LeapResult.is_critical_core leap_result
      then gamma_core * phase_transition_multiplier_core (params self)
      else gamma_core in
    let gamma_upper :=
      if String.eqb dominant_layer "UPPER" && LeapResult.is_critical_upper leap_result
      then gamma_upper * phase_transition_multiplier_upper (params self)
      else gamma_upper in
    let gamma_physical :=
      if LeapResult.is_critical_physical leap_result
         && negb (String.eqb dominant_layer "PHYSICAL")
      then gamma_physical * (1.0 + phase_transition_multiplier_physical (params self) * 0.5)
      else gamma_physical in
    let gamma_base :=
      if LeapResult.is_critical_base leap_result
         && negb (String.eqb dominant_layer "BASE")
      then gamma_base * (1.0 + phase_transition_multiplier_base (params self) * 0.5)
      else gamma_base in
    let gamma_core :=
      if LeapResult.is_critical_core leap_result
         && negb (String.eqb dominant_layer "CORE")
      then gamma_core * (1.0 + phase_transition_multiplier_core (params self) * 0.5)
      else gamma_core in
    let gamma_upper :=
      if LeapResult.is_critical_upper leap_result
         && negb (String.eqb dominant_layer "UPPER")
      then gamma_upper * (1.0 + phase_transition_multiplier_upper (params self) * 0.5)
      else gamma_upper in
    (gamma_physical, gamma_base, gamma_core, gamma_upper).

(** [_legacy_phase_transition]: returns the four conversion rates together
    with the six values it assigns to the state ([is_critical_*],
    [dominant_leap_layer], [leap_type]). *)
Definition _legacy_phase_transition (self : SSDCoreEngineV5) (state : SSDStateV5)
  : (R * R * R * R) * LeapResult.t :=
  let gamma_physical2d := gamma_physical2d (params self) in
  let gamma_base2d := gamma_base2d (params self) in
  let gamma_core2d := gamma_core2d (params self) in
  let gamma_upper2d := gamma_upper2d (params self) in
  if enable_phase_transition (params self) then
    let (gamma_physical2d, is_critical_physical) :=
      if Py.ltb (E_physical state) (Theta_physical (params self))
      then (gamma_physical2d * phase_transition_multiplier_physical (params self), true)
      else (gamma_physical2d, false) in
    let (gamma_base2d, is_critical_base) :=
      if Py.ltb (E_base state) (Theta_base (params self))
      then (gamma_base2d * phase_transition_multiplier_base (params self), true)
      else (gamma_base2d, false) in
    let (gamma_core2d, is_critical_core) :=
      if Py.ltb (E_core state) (Theta_core (params self))
      then (gamma_core2d * phase_transition_multiplier_core (params self), true)
      else (gamma_core2d, false) in
    let (gamma_upper2d, is_critical_upper) :=
      if Py.ltb (E_upper state) (Theta_upper (params self))
      then (gamma_upper2d * phase_transition_multiplier_upper (params self), true)
      else (gamma_upper2d, false) in
    ((gamma_physical2d, gamma_base2d, gamma_core2d, gamma_upper2d),
     {| LeapResult.is_critical_physical := is_critical_physical;
        LeapResult.is_critical_base := is_critical_base;
        LeapResult.is_critical_core := is_critical_core;
        LeapResult.is_critical_upper := is_critical_upper;
        LeapResult.dominant_layer := "NONE";
        LeapResult.leap_type := "NO_LEAP" |})
  else
    ((gamma_physical2d, gamma_base2d, gamma_core2d, gamma_upper2d),
     {| LeapResult.is_critical_physical := false;
        LeapResult.is_critical_base := false;
        LeapResult.is_critical_core := false;
        LeapResult.is_critical_upper := false;
        LeapResult.dominant_layer := "NONE";
        LeapResult.leap_type := "NO_LEAP" |}).


(** *** The step function *)

(** [SSDCoreEngineV5.step].  The numbered comments are those of the source.
    A local [state_f] is the current value of the field [state.f]; the four
    inertias, which are written and read back several times, are put back
    into the state object ([with_kappa]) wherever the source hands the
    object to a helper method.  Every other field is assigned in the record
    built at the end.  Tuples returned by the helpers are taken apart by
    component. *)
Definition step (self : SSDCoreEngineV5) (state : SSDStateV5)
  (p_physical p_base p_core p_upper : Np.ndarray)
  (F_direct : option Np.ndarray)
  (other_states : option (list SSDStateV5))
  (relationships : option (list R))
  (dt : R) : SSDCoreEngineV5 * SSDStateV5 :=
  (* 0. the inputs are stored *)
  let state_p_physical := Np.copy p_physical in
  let state_p_base := Np.copy p_base in
  let state_p_core := Np.copy p_core in
  let state_p_upper := Np.copy p_upper in
  let state_F_direct := store_F_direct state F_direct in
  (* 1. reactions *)
  let state_j_physical := Np.scale (kappa_physical state) state_p_physical in
  let state_j_base := Np.scale (kappa_base state) state_p_base in
  let state_j_core := Np.scale (kappa_core state) state_p_core in
  let state_j_upper := Np.scale (kappa_upper state) state_p_upper in
  let state_j_direct := Np.zeros 3 in
  (* 2. energy production *)
  let E_physical_production :=
    alpha_physical (params self) * Np.norm (Np.sub state_p_physical state_j_physical) in
  let E_base_production :=
    alpha_base (params self) * Np.norm (Np.sub state_p_base state_j_base) in
  let E_core_production :=
    alpha_core (params self) * Np.norm (Np.sub state_p_core state_j_core) in
  let E_upper_production :=
    alpha_upper (params self) * Np.norm (Np.sub state_p_upper state_j_upper) in
  let E_direct_production :=
    match F_direct with
    | Some F => alpha_d (params self) * Np.norm F
    | None => 0.0
    end in
  (* 3. damping of the stored reactions *)
  let state_j_physical := Np.scale (1.0 - rho_physical (params self)) state_j_physical in
  let state_j_base := Np.scale (1.0 - rho_base (params self)) state_j_base in
  let state_j_core := Np.scale (1.0 - rho_core (params self)) state_j_core in
  let state_j_upper := Np.scale (1.0 - rho_upper (params self)) state_j_upper in
  let state_j_direct := Np.scale (1.0 - rho_d (params self)) state_j_direct in
  (* 4. learning of the inertias *)
  let delta_kappa_physical := eta_physical (params self) * Np.norm state_p_physical in
  let state_kappa_physical := kappa_physical state + delta_kappa_physical * dt in
  let delta_kappa_base := eta_base (params self) * Np.norm state_p_base in
  let state_kappa_base := kappa_base state + delta_kappa_base * dt in
  let delta_kappa_core := eta_core (params self) * Np.norm state_p_core in
  let state_kappa_core := kappa_core state + delta_kappa_core * dt in
  let delta_kappa_upper := eta_upper (params self) * Np.norm state_p_upper in
  let state_kappa_upper := kappa_upper state + delta_kappa_upper * dt in
  (* 5. natural decay of the inertias *)
  let state_kappa_physical :=
    state_kappa_physical * (1.0 - lambda_physical (params self) * dt) in
  let state_kappa_base := state_kappa_base * (1.0 - lambda_base (params self) * dt) in
  let state_kappa_core := state_kappa_core * (1.0 - lambda_core (params self) * dt) in
  let state_kappa_upper := state_kappa_upper * (1.0 - lambda_upper (params self) * dt) in
  (* 5.5 social coupling of the inertias, when both lists are given *)
  let social_coupling_kappa :=
    match other_states, relationships with
    | Some other_states, Some relationships =>
        Some (_compute_social_coupling self
                (with_kappa state state_kappa_physical state_kappa_base
                   state_kappa_core state_kappa_upper)
                other_states relationships)
    | _, _ => None
    end in
  let state_kappa_physical :=
    match social_coupling_kappa with
    | Some c => state_kappa_physical + physical_kappa c * dt
    | None => state_kappa_physical
    end in
  let state_kappa_base :=
    match social_coupling_kappa with
    | Some c => state_kappa_base + base_kappa c * dt
    | None => state_kappa_base
    end in
  let state_kappa_core :=
    match social_coupling_kappa with
    | Some c => state_kappa_core + core_kappa c * dt
    | None => state_kappa_core
    end in
  let state_kappa_upper :=
    match social_coupling_kappa with
    | Some c => state_kappa_upper + upper_kappa c * dt
    | None => state_kappa_upper
    end in
  (* floor of the inertias *)
  let state_kappa_physical :=
    Py.max (kappa_min_physical (params self)) state_kappa_physical in
  let state_kappa_base := Py.max (kappa_min_base (params self)) state_kappa_base in
  let state_kappa_core := Py.max (kappa_min_core (params self)) state_kappa_core in
  let state_kappa_upper := Py.max (kappa_min_upper (params self)) state_kappa_upper in
  let state :=
    with_kappa state state_kappa_physical state_kappa_base state_kappa_core
      state_kappa_upper in
  (* 6. leap detection: integrated, or the legacy threshold test *)
  let leap :=
    if use_integrated_leap_detection (params self) then
      let structural_powers :=
        _calculate_structural_powers self state p_physical p_base p_core p_upper in
      let state_structural_powers :=
        [("PHYSICAL"%string, total_power (Powers.PHYSICAL structural_powers));
         ("BASE"%string, total_power (Powers.BASE structural_powers));
         ("CORE"%string, total_power (Powers.CORE structural_powers));
         ("UPPER"%string, total_power (Powers.UPPER structural_powers))] in
      let leap_result := _integrated_leap_detection self state structural_powers in
      (_compute_dynamic_gamma self leap_result state, leap_result, state_structural_powers)
    else
      let legacy := _legacy_phase_transition self state in
      (fst legacy, snd legacy, structural_powers state) in
  let gammas := fst (fst leap) in
  let leap_result := snd (fst leap) in
  let state_structural_powers := snd leap in
  let gamma_physical2d := fst (fst (fst gammas)) in
  let gamma_base2d := snd (fst (fst gammas)) in
  let gamma_core2d := snd (fst gammas) in
  let gamma_upper2d := snd gammas in
  (* 7. conversions between the layers and the direct pool *)
  let conversion_physical2d := gamma_physical2d * E_physical state in
  let conversion_base2d := gamma_base2d * E_base state in
  let conversion_core2d := gamma_core2d * E_core state in
  let conversion_upper2d := gamma_upper2d * E_upper state in
  let conversion_d2physical := gamma_d2physical (params self) * E_direct state in
  let conversion_d2base := gamma_d2base (params self) * E_direct state in
  let conversion_d2core := gamma_d2core (params self) * E_direct state in
  let conversion_d2upper := gamma_d2upper (params self) * E_direct state in
  let interlayer_transfers :=
    if enable_interlayer_transfer (params self)
    then _compute_interlayer_transfers self state
    else no_transfers in
  (* 8. decay *)
  let decay_physical := beta_physical (params self) * E_physical state in
  let decay_base := beta_base (params self) * E_base state in
  let decay_core := beta_core (params self) * E_core state in
  let decay_upper := beta_upper (params self) * E_upper state in
  (* 8.5 social coupling of the energies *)
  let social_coupling :=
    match other_states, relationships with
    | Some other_states, Some relationships =>
        _compute_social_coupling self state other_states relationships
    | _, _ => no_coupling
    end in
  (* 9. the energy differentials *)
  let dE_physical :=
    E_physical_production - conversion_physical2d + conversion_d2physical - decay_physical
    - physical2base interlayer_transfers
    - physical2upper interlayer_transfers
    + physical_energy social_coupling in
  let dE_base :=
    E_base_production - conversion_base2d + conversion_d2base - decay_base
    + upper2base interlayer_transfers
    + core2base interlayer_transfers
    + physical2base interlayer_transfers
    - base2upper interlayer_transfers
    - base2core interlayer_transfers
    + base_energy social_coupling in
  let dE_core :=
    E_core_production - conversion_core2d + conversion_d2core - decay_core
    + upper2core interlayer_transfers
    + base2core interlayer_transfers
    - core2base interlayer_transfers
    - core2upper interlayer_transfers
    + core_energy social_coupling in
  let dE_upper :=
    E_upper_production - conversion_upper2d + conversion_d2upper - decay_upper
    + base2upper interlayer_transfers
    + core2upper interlayer_transfers
    + physical2upper interlayer_transfers
    - upper2base interlayer_transfers
    - upper2core interlayer_transfers
    + upper_energy social_coupling in
  let dE_direct :=
    E_direct_production
    + conversion_physical2d + conversion_base2d
    + conversion_core2d + conversion_upper2d
    - conversion_d2physical - conversion_d2base
    - conversion_d2core - conversion_d2upper in
  (* 10.-11. energy update with the clamp at zero, and the diagnostics *)
  let state' := {|
    E_direct := Py.max 0.0 (E_direct state + dE_direct * dt);
    E_physical := Py.max 0.0 (E_physical state + dE_physical * dt);
    E_base := Py.max 0.0 (E_base state + dE_base * dt);
    E_core := Py.max 0.0 (E_core state + dE_core * dt);
    E_upper := Py.max 0.0 (E_upper state + dE_upper * dt);
    kappa_physical := kappa_physical state;
    kappa_base := kappa_base state;
    kappa_core := kappa_core state;
    kappa_upper := kappa_upper state;
    F_direct := state_F_direct;
    p_physical := state_p_physical;
    p_base := state_p_base;
    p_core := state_p_core;
    p_upper := state_p_upper;
    j_direct := state_j_direct;
    j_physical := state_j_physical;
    j_base := state_j_base;
    j_core := state_j_core;
    j_upper := state_j_upper;
    is_critical_physical := LeapResult.is_critical_physical leap_result;
    is_critical_base := LeapResult.is_critical_base leap_result;
    is_critical_core := LeapResult.is_critical_core leap_result;
    is_critical_upper := LeapResult.is_critical_upper leap_result;
    dominant_leap_layer := LeapResult.dominant_layer leap_result;
    leap_type := LeapResult.leap_type leap_result;
    structural_powers := state_structural_powers;
    E_physical_flow := dE_physical;
    E_base_flow := dE_base;
    E_core_flow := dE_core;
    E_upper_flow := dE_upper;
    E_direct_flow := dE_direct;
    conversion_physical2d := conversion_physical2d;
    conversion_base2d := conversion_base2d;
    conversion_core2d := conversion_core2d;
    conversion_upper2d := conversion_upper2d;
    conversion_d2physical := conversion_d2physical;
    conversion_d2base := conversion_d2base;
    conversion_d2core := conversion_d2core;
    conversion_d2upper := conversion_d2upper;
    transfer_upper2base := upper2base interlayer_transfers;
    transfer_upper2core := upper2core interlayer_transfers;
    transfer_base2upper := base2upper interlayer_transfers;
    transfer_base2core := base2core interlayer_transfers;
    transfer_core2base := core2base interlayer_transfers;
    transfer_core2upper := core2upper interlayer_transfers;
    transfer_physical2base := physical2base interlayer_transfers;
    transfer_physical2upper := physical2upper interlayer_transfers;
    social_coupling_physical := physical_energy social_coupling;
    social_coupling_base := base_energy social_coupling;
    social_coupling_core := core_energy social_coupling;
    social_coupling_upper := upper_energy social_coupling;
    kappa_coupling_physical := physical_kappa social_coupling;
    kappa_coupling_base := base_kappa social_coupling;
    kappa_coupling_core := core_kappa social_coupling;
    kappa_coupling_upper := upper_kappa social_coupling
  |} in
  (* 12. the engine's running totals *)
  let self' := {|
    params := params self;
    total_conversion_physical2d :=
      total_conversion_physical2d self + conversion_physical2d * dt;
    total_conversion_base2d := total_conversion_base2d self + conversion_base2d * dt;
    total_conversion_core2d := total_conversion_core2d self + conversion_core2d * dt;
    total_conversion_upper2d := total_conversion_upper2d self + conversion_upper2d * dt;
    total_conversion_d2physical :=
      total_conversion_d2physical self + conversion_d2physical * dt;
    total_conversion_d2base := total_conversion_d2base self + conversion_d2base * dt;
    total_conversion_d2core := total_conversion_d2core self + conversion_d2core * dt;
    total_conversion_d2upper := total_conversion_d2upper self + conversion_d2upper * dt;
    total_decay_physical := total_decay_physical self + decay_physical * dt;
    total_decay_base := total_decay_base self + decay_base * dt;
    total_decay_core := total_decay_core self + decay_core * dt;
    total_decay_upper := total_decay_upper self + decay_upper * dt;
    time := time self + dt
  |} in
  (self', state').

(** ** The stochastic leap of the werewolf game (v3) *)

Module WerewolfGameV3.

Section Hazard.

(** The firing-rate constants of [check_probabilistic_jump]: the base
    rate [h0], the sensitivity [gamma] and the tick length [dt].  The
    source fixes them to [0.01], [50.0] and [0.1]. *)
Variables (h0 gamma dt : R).

(** The firing intensity [h] (lines 327-333). *)
Definition hazard (Theta_critical E_indirect : R) : R :=
  if Py.ltb E_indirect Theta_critical then
    let delta_E := Theta_critical - E_indirect in
    h0 * exp (delta_E / gamma)
  else
    h0.

(** [jump_probability = 1.0 - np.exp(-h * dt)] (line 337). *)
Definition jump_probability (Theta_critical E_indirect : R) : R :=
  1.0 - exp (- hazard Theta_critical E_indirect * dt).

(** Lines 339-341 on a uniform draw [u] from [[0, 1)]: [Some spontaneous]
    when the jump fires, where [spontaneous] tells whether the energy was
    at or above the threshold; [None] when it does not fire. *)
Definition jump_fires (u Theta_critical E_indirect : R) : option bool :=
  if Py.ltb u (jump_probability Theta_critical E_indirect)
  then Some (Py.geb E_indirect Theta_critical)
  else None.

End Hazard.

(** [check_probabilistic_jump] with the constants of the source. *)
Definition check_probabilistic_jump (u Theta_critical E_indirect : R) : option bool :=
  jump_fires 0.01 50.0 0.1 u Theta_critical E_indirect.

End WerewolfGameV3.


(** ** Further Python built-ins *)

Module PyExt.

(** [a == b] on floats. *)
Definition eqb (a b : R) : bool := if Req_dec_T a b then true else false.

(** [d.get(k, default)] for a dict with string keys. *)
Fixpoint dict_get {A : Type} (d : list (string * A)) (k : string) (default : A) : A :=
  match d with
  | [] => default
  | (k', v) :: d' => if String.eqb k' k then v else dict_get d' k default
  end.

(** [d[k] = v]: an existing key keeps its place, a new key goes last. *)
Fixpoint dict_set {A : Type} (d : list (string * A)) (k : string) (v : A)
  : list (string * A) :=
  match d with
  | [] => [(k, v)]
  | (k', v') :: d' =>
      if String.eqb k' k then (k', v) :: d' else (k', v') :: dict_set d' k v
  end.

(** [del d[k]] behind the guard [if k in d]. *)
Definition dict_remove {A : Type} (d : list (string * A)) (k : string)
  : list (string * A) :=
  filter (fun kv => negb (String.eqb (fst kv) k)) d.

(** [min(iterable, key=...)]'s scan: replace the current best only by a
    strictly smaller key. *)
Fixpoint min_by_from {A : Type} (key : A -> R) (best : A) (l : list A) : A :=
  match l with
  | [] => best
  | x :: l' => min_by_from key (if Py.ltb (key x) (key best) then x else best) l'
  end.

End PyExt.

(** ** Read-out methods of the v5 engine *)

(** [get_total_energy] *)
Definition get_total_energy (self : SSDCoreEngineV5) (state : SSDStateV5) : R :=
  E_direct state + E_physical state + E_base state + E_core state + E_upper state.

(** [get_layer_energy_distribution]: the returned dict, in the order of
    its literal. *)
Definition get_layer_energy_distribution (self : SSDCoreEngineV5) (state : SSDStateV5)
  : list (string * R) :=
  let total := get_total_energy self state in
  if PyExt.eqb total 0 then
    [("PHYSICAL"%string, 0.0); ("BASE"%string, 0.0); ("CORE"%string, 0.0);
     ("UPPER"%string, 0.0); ("DIRECT"%string, 0.0)]
  else
    [("PHYSICAL"%string, E_physical state / total);
     ("BASE"%string, E_base state / total);
     ("CORE"%string, E_core state / total);
     ("UPPER"%string, E_upper state / total);
     ("DIRECT"%string, E_direct state / total)].

(** [get_dominant_frustration_layer]; [None] would be the [ValueError] of
    [max] on an empty sequence. *)
Definition get_dominant_frustration_layer (self : SSDCoreEngineV5) (state : SSDStateV5)
  : option (string * R) :=
  let layers :=
    [("PHYSICAL"%string, E_physical state); ("BASE"%string, E_base state);
     ("CORE"%string, E_core state); ("UPPER"%string, E_upper state)] in
  Py.max_by snd layers.

(** [get_structural_resistance] *)
Definition get_structural_resistance (self : SSDCoreEngineV5) (state : SSDStateV5)
  : list (string * R) :=
  [("PHYSICAL"%string, kappa_physical state * R_values PHYSICAL);
   ("BASE"%string, kappa_base state * R_values BASE);
   ("CORE"%string, kappa_core state * R_values CORE);
   ("UPPER"%string, kappa_upper state * R_values UPPER)].

(** * SSD Core Engine v3.5: the coupled direct/indirect engine

    A shallow embedding of [src/ssd_core_engine_v3_5.py], the engine that
    every player of [WerewolfGameV3] owns.  [step] mutates the state, the
    engine and the engine's parameter object ([gamma_i2d] is rescaled at a
    phase transition); here it returns the updated engine, which carries
    its parameters, and the updated state.  The division by
    [phase_transition_multiplier] raises [ZeroDivisionError] when the
    multiplier is zero; the objects are then returned as they are at that
    point of the call. *)

Module V3_5.

(** [class SSDDomain(Enum)] *)
Inductive SSDDomain : Type := PHYSICS | COMBAT | SOCIAL | COUPLED.

(** [@dataclass class SSDStateV3_5] *)
Record SSDStateV3_5 : Type := Build_SSDStateV3_5 {
  kappa : R;
  F_direct : Np.ndarray;
  p_indirect : Np.ndarray;
  E_direct : R;
  E_indirect : R;
  E_direct_flow : R;
  E_indirect_flow : R;
  conversion_i2d : R;
  conversion_d2i : R;
  decay_rate : R;
  is_critical : bool;
  phase_transition_count : Z
}.

(** [@dataclass class SSDParametersV3_5] *)
Record SSDParametersV3_5 : Type := Build_SSDParametersV3_5 {
  use_direct_action : bool;
  use_indirect_action : bool;
  amplification_factor : R;
  G0 : R;
  g : R;
  alpha : R;
  beta_decay : R;
  gamma_i2d : R;
  gamma_d2i : R;
  Theta_critical : R;
  enable_phase_transition : bool;
  phase_transition_multiplier : R;
  reservoir_capacity : R
}.

(** The defaults of the dataclass. *)
Definition SSDParametersV3_5_default : SSDParametersV3_5 := {|
  use_direct_action := true;
  use_indirect_action := true;
  amplification_factor := 1.0;
  G0 := 0.5;
  g := 0.3;
  alpha := 0.5;
  beta_decay := 0.1;
  gamma_i2d := 0.0;
  gamma_d2i := 0.0;
  Theta_critical := 500.0;
  enable_phase_transition := false;
  phase_transition_multiplier := 10.0;
  reservoir_capacity := 1000000
|}.

(** [self.params.gamma_i2d = x] *)
Definition with_gamma_i2d (P : SSDParametersV3_5) (x : R) : SSDParametersV3_5 := {|
  use_direct_action := use_direct_action P;
  use_indirect_action := use_indirect_action P;
  amplification_factor := amplification_factor P;
  G0 := G0 P;
  g := g P;
  alpha := alpha P;
  beta_decay := beta_decay P;
  gamma_i2d := x;
  gamma_d2i := gamma_d2i P;
  Theta_critical := Theta_critical P;
  enable_phase_transition := enable_phase_transition P;
  phase_transition_multiplier := phase_transition_multiplier P;
  reservoir_capacity := reservoir_capacity P
|}.

(** [class SSDCoreEngineV3_5]: the attributes set by [__init__]. *)
Record SSDCoreEngineV3_5 : Type := Build_SSDCoreEngineV3_5 {
  params : SSDParametersV3_5;
  domain : SSDDomain;
  reservoir_E : R;
  time : R;
  total_conversion_i2d : R;
  total_conversion_d2i : R;
  total_decay : R
}.

(** [SSDCoreEngineV3_5.__init__] *)
Definition __init__ (params : SSDParametersV3_5) : SSDCoreEngineV3_5 := {|
  params := params;
  domain := COUPLED;
  reservoir_E := reservoir_capacity params;
  time := 0.0;
  total_conversion_i2d := 0.0;
  total_conversion_d2i := 0.0;
  total_decay := 0.0
|}.

(** The exception [step] can raise. *)
Inductive Exception : Type := ZeroDivisionError.

(** How a call of [step] ends: it returns the state, or it raises, leaving
    the engine and the state as mutated so far. *)
Inductive Outcome : Type :=
| Returned (self : SSDCoreEngineV3_5) (state : SSDStateV3_5)
| Raised (e : Exception) (self : SSDCoreEngineV3_5) (state : SSDStateV3_5).

(** Step 7 of [step] (lines 182-192), the social-criticality check:
    the new [gamma_i2d], [is_critical] and [phase_transition_count], or
    [None] when the division raises. *)
Definition phase_check (P : SSDParametersV3_5) (state : SSDStateV3_5)
  : option (R * bool * Z) :=
  if enable_phase_transition P then
    if Py.ltb (E_indirect state) (Theta_critical P) && negb (is_critical state) then
      Some (gamma_i2d P * phase_transition_multiplier P, true,
            (phase_transition_count state + 1)%Z)
    else if Py.geb (E_indirect state) (Theta_critical P) && is_critical state then
      if PyExt.eqb (phase_transition_multiplier P) 0 then None
      else Some (gamma_i2d P / phase_transition_multiplier P, false,
                 phase_transition_count state)
    else Some (gamma_i2d P, is_critical state, phase_transition_count state)
  else Some (gamma_i2d P, is_critical state, phase_transition_count state).

(** Step 4 of [step] for the indirect channel (lines 160-173): the
    production and the reservoir level after the amplification. *)
Definition indirect_production (self : SSDCoreEngineV3_5) (state : SSDStateV3_5)
  (G : R) (state_p_indirect : Np.ndarray) : R * R :=
  if use_indirect_action (params self) then
    let p_norm := Np.norm state_p_indirect in
    let j_indirect := G * kappa state * 0.5 in
    let E_indirect_production := alpha (params self) * Py.max 0 (p_norm - j_indirect) in
    if Py.gtb (amplification_factor (params self)) 1.0 then
      let E_amplification :=
        E_indirect_production * (amplification_factor (params self) - 1.0) in
      if Py.geb (reservoir_E self) E_amplification then
        (E_indirect_production + E_amplification, reservoir_E self - E_amplification)
      else (E_indirect_production, reservoir_E self)
    else (E_indirect_production, reservoir_E self)
  else (0.0, reservoir_E self).

(** [SSDCoreEngineV3_5.step] *)
Definition step (self : SSDCoreEngineV3_5) (state : SSDStateV3_5)
  (p_external : Np.ndarray) (dt : R) (contact_pressure : option Np.ndarray) : Outcome :=
  (* 1. direct action *)
  let state_F_direct :=
    if use_direct_action (params self) then
      match contact_pressure with
      | Some c => Np.copy c
      | None => Np.zeros 3
      end
    else Np.zeros 3 in
  (* 2. indirect action *)
  let state_p_indirect :=
    if use_indirect_action (params self)
    then Np.scale (amplification_factor (params self)) p_external
    else Np.zeros 3 in
  (* 3. stiffness *)
  let G := G0 (params self) + g (params self) * kappa state in
  (* 4. production *)
  let E_direct_production :=
    if use_direct_action (params self) then
      let F_norm := Np.norm state_F_direct in
      let j_direct := G * kappa state in
      alpha (params self) * Py.max 0 (F_norm - j_direct)
    else 0.0 in
  let indirect := indirect_production self state G state_p_indirect in
  let E_indirect_production := fst indirect in
  let self_reservoir_E := snd indirect in
  (* 5. coupling terms *)
  let conversion_i2d := gamma_i2d (params self) * E_indirect state in
  let conversion_d2i := gamma_d2i (params self) * E_direct state in
  (* 6. decay *)
  let decay := beta_decay (params self) * E_indirect state in
  (* 7. social criticality *)
  match phase_check (params self) state with
  | None =>
      Raised ZeroDivisionError
        {| params := params self; domain := domain self;
           reservoir_E := self_reservoir_E; time := time self;
           total_conversion_i2d := total_conversion_i2d self;
           total_conversion_d2i := total_conversion_d2i self;
           total_decay := total_decay self |}
        {| kappa := kappa state; F_direct := state_F_direct;
           p_indirect := state_p_indirect;
           E_direct := E_direct state; E_indirect := E_indirect state;
           E_direct_flow := E_direct_flow state;
           E_indirect_flow := E_indirect_flow state;
           conversion_i2d := V3_5.conversion_i2d state;
           conversion_d2i := V3_5.conversion_d2i state;
           decay_rate := decay_rate state;
           is_critical := is_critical state;
           phase_transition_count := phase_transition_count state |}
  | Some phase =>
      (* 8. integration *)
      let dE_direct := E_direct_production + conversion_i2d - conversion_d2i in
      let dE_indirect := E_indirect_production - conversion_i2d + conversion_d2i - decay in
      let state_E_direct := E_direct state + dE_direct * dt in
      let state_E_indirect := E_indirect state + dE_indirect * dt in
      let state_E_direct := Py.max 0.0 state_E_direct in
      let state_E_indirect := Py.max 0.0 state_E_indirect in
      (* 9., 10. records and statistics *)
      Returned
        {| params := with_gamma_i2d (params self) (fst (fst phase));
           domain := domain self;
           reservoir_E := self_reservoir_E;
           time := time self + dt;
           total_conversion_i2d := total_conversion_i2d self + conversion_i2d * dt;
           total_conversion_d2i := total_conversion_d2i self + conversion_d2i * dt;
           total_decay := total_decay self + decay * dt |}
        {| kappa := kappa state; F_direct := state_F_direct;
           p_indirect := state_p_indirect;
           E_direct := state_E_direct; E_indirect := state_E_indirect;
           E_direct_flow := dE_direct;
           E_indirect_flow := dE_indirect;
           conversion_i2d := conversion_i2d;
           conversion_d2i := conversion_d2i;
           decay_rate := decay;
           is_critical := snd (fst phase);
           phase_transition_count := snd phase |}
  end.

(** [get_total_energy] *)
Definition get_total_energy (self : SSDCoreEngineV3_5) (state : SSDStateV3_5) : R :=
  E_direct state + E_indirect state.

(** [get_coupling_strength] *)
Definition get_coupling_strength (self : SSDCoreEngineV3_5) : R :=
  let gamma_total := gamma_i2d (params self) + gamma_d2i (params self) in
  Py.min 1.0 (gamma_total / 10.0).

(** The dict returned by [get_energy_balance]; its nine keys are fixed. *)
Module Balance.
Record t : Type := Build_t {
  E_direct : R;
  E_indirect : R;
  E_total : R;
  reservoir : R;
  conversion_i2d : R;
  conversion_d2i : R;
  decay : R;
  net_flow : R;
  is_critical : bool
}.
End Balance.

(** [get_energy_balance] *)
Definition get_energy_balance (self : SSDCoreEngineV3_5) (state : SSDStateV3_5)
  : Balance.t := {|
  Balance.E_direct := E_direct state;
  Balance.E_indirect := E_indirect state;
  Balance.E_total := get_total_energy self state;
  Balance.reservoir := reservoir_E self;
  Balance.conversion_i2d := conversion_i2d state;
  Balance.conversion_d2i := conversion_d2i state;
  Balance.decay := decay_rate state;
  Balance.net_flow := E_direct_flow state + E_indirect_flow state;
  Balance.is_critical := is_critical state
|}.

(** [reset_statistics] *)
Definition reset_statistics (self : SSDCoreEngineV3_5) : SSDCoreEngineV3_5 := {|
  params := params self;
  domain := domain self;
  reservoir_E := reservoir_E self;
  time := 0.0;
  total_conversion_i2d := 0.0;
  total_conversion_d2i := 0.0;
  total_decay := 0.0
|}.

(** [create_physics_params] *)
Definition create_physics_params : SSDParametersV3_5 := {|
  use_direct_action := true;
  use_indirect_action := false;
  amplification_factor := 1.0;
  G0 := 0.5; g := 0.3; alpha := 0.5;
  beta_decay := 0.0;
  gamma_i2d := 0.0;
  gamma_d2i := 0.0;
  Theta_critical := 500.0;
  enable_phase_transition := false;
  phase_transition_multiplier := 10.0;
  reservoir_capacity := 1000000
|}.

(** [create_revolution_params] *)
Definition create_revolution_params : SSDParametersV3_5 := {|
  use_direct_action := true;
  use_indirect_action := true;
  amplification_factor := 50.0;
  G0 := 0.5; g := 0.3; alpha := 0.5;
  beta_decay := 0.01;
  gamma_i2d := 0.1;
  gamma_d2i := 0.5;
  Theta_critical := 500.0;
  enable_phase_transition := true;
  phase_transition_multiplier := 10.0;
  reservoir_capacity := 1000000
|}.

End V3_5.

(** * The multi-dimensional pressure system

    A shallow embedding of [class MultiDimensionalPressure] of
    [src/ssd_multidimensional_pressure.py] and of the six-dimensional system
    that [create_werewolf_pressure_v3] of [src/ssd_werewolf_game_v3.py]
    builds for every player.  A context is a dict from strings to numbers,
    read with [context.get(key, default)].  A calculator returns [None]
    where the Python function raises; [calculate] catches every exception
    of a calculator and skips that dimension.  The warning printed in that
    case is not modelled. *)

Module Mdp.

Definition Context : Type := list (string * R).

(** [@dataclass class PressureDimension] *)
Record PressureDimension : Type := Build_PressureDimension {
  name : string;
  weight : R;
  calculator : Context -> option R;
  enabled : bool;
  description : string;
  history : list R
}.

(** [class MultiDimensionalPressure]: the attributes set by [__init__];
    [dimensions] is a dict, kept in insertion order. *)
Record MultiDimensionalPressure : Type := Build_MultiDimensionalPressure {
  dimensions : list (string * PressureDimension);
  total_pressure_history : list R
}.

Definition __init__ : MultiDimensionalPressure := {|
  dimensions := [];
  total_pressure_history := []
|}.

(** [register_dimension] *)
Definition register_dimension (self : MultiDimensionalPressure) (name : string)
  (calculator : Context -> option R) (weight : R) (description : string)
  (enabled : bool) : MultiDimensionalPressure :=
  let dimension := {|
    name := name; weight := weight; calculator := calculator;
    enabled := enabled; description := description; history := [] |} in
  {| dimensions := PyExt.dict_set (dimensions self) name dimension;
     total_pressure_history := total_pressure_history self |}.

(** [remove_dimension] *)
Definition remove_dimension (self : MultiDimensionalPressure) (name : string)
  : MultiDimensionalPressure :=
  if Py.contains name (dimensions self) then
    {| dimensions := PyExt.dict_remove (dimensions self) name;
       total_pressure_history := total_pressure_history self |}
  else self.

(** [d[k].field = v]: the entry under key [k] is changed in place. *)
Definition dict_update {A : Type} (d : list (string * A)) (k : string) (f : A -> A)
  : list (string * A) :=
  map (fun kv => if String.eqb (fst kv) k then (fst kv, f (snd kv)) else kv) d.

(** [set_weight] *)
Definition set_weight (self : MultiDimensionalPressure) (name : string) (weight : R)
  : MultiDimensionalPressure :=
  if Py.contains name (dimensions self) then
    {| dimensions :=
         dict_update (dimensions self) name
           (fun dim => {| name := Mdp.name dim; weight := weight;
                          calculator := calculator dim; enabled := enabled dim;
                          description := description dim; history := history dim |});
       total_pressure_history := total_pressure_history self |}
  else self.

(** [enable_dimension] *)
Definition enable_dimension (self : MultiDimensionalPressure) (name : string)
  (enabled : bool) : MultiDimensionalPressure :=
  if Py.contains name (dimensions self) then
    {| dimensions :=
         dict_update (dimensions self) name
           (fun dim => {| name := Mdp.name dim; weight := weight dim;
                          calculator := calculator dim; enabled := enabled;
                          description := description dim; history := history dim |});
       total_pressure_history := total_pressure_history self |}
  else self.

(** One iteration of the loop of [calculate] on the running sums
    [(total_pressure, total_weight)]. *)
Definition accumulate (context : Context) (totals : R * R) (dim : PressureDimension)
  : R * R :=
  if negb (enabled dim) then totals
  else
    match calculator dim context with
    | Some pressure_value =>
        (fst totals + weight dim * pressure_value, snd totals + weight dim)
    | None => totals
    end.

(** The same iteration on the dimension object: its history grows by the
    computed value. *)
Definition record_value (context : Context) (dim : PressureDimension)
  : PressureDimension :=
  if negb (enabled dim) then dim
  else
    match calculator dim context with
    | Some pressure_value =>
        {| name := name dim; weight := weight dim; calculator := calculator dim;
           enabled := enabled dim; description := description dim;
           history := history dim ++ [pressure_value] |}
    | None => dim
    end.

(** [calculate]: the updated system and the returned vector. *)
Definition calculate (self : MultiDimensionalPressure) (context : Context)
  : MultiDimensionalPressure * Np.ndarray :=
  let totals :=
    fold_left (fun totals item => accumulate context totals (snd item))
      (dimensions self) (0.0, 0.0) in
  let total_pressure := fst totals in
  let total_weight := snd totals in
  let normalized_pressure :=
    if Py.gtb total_weight 0 then total_pressure / total_weight else 0.0 in
  ({| dimensions :=
        map (fun item => (fst item, record_value context (snd item))) (dimensions self);
      total_pressure_history := total_pressure_history self ++ [normalized_pressure] |},
   [normalized_pressure; 0.0; 0.0]).

(** ** The pressure system of the werewolf game *)

(** [a / b] on Python numbers: [None] stands for [ZeroDivisionError]. *)
Definition div (a b : R) : option R :=
  if PyExt.eqb b 0 then None else Some (a / b).

(** The six closures of [create_werewolf_pressure_v3]. *)
Definition suspicion_pressure (context : Context) : option R :=
  let suspicion := PyExt.dict_get context "suspicion_level" 0.0 in
  Some (Py.min 1.0 (suspicion / 10.0)).

Definition social_suspicion_pressure (context : Context) : option R :=
  let social := PyExt.dict_get context "social_suspicion" 0.0 in
  Some (Py.min 1.0 (social / 8.0)).

Definition trust_pressure (context : Context) : option R :=
  let trust_count := PyExt.dict_get context "trusted_count" 0 in
  let total := PyExt.dict_get context "alive_count" 1 in
  match div trust_count (Py.max 1 total) with
  | Some q => Some (1.0 - q)
  | None => None
  end.

Definition information_pressure (context : Context) : option R :=
  let unknown_count := PyExt.dict_get context "unknown_roles" 0 in
  let total := PyExt.dict_get context "alive_count" 1 in
  div unknown_count (Py.max 1 total).

Definition time_pressure (context : Context) : option R :=
  let day := PyExt.dict_get context "current_day" 1 in
  let max_days := PyExt.dict_get context "max_days" 5 in
  div day max_days.

Definition survival_pressure (context : Context) : option R :=
  let werewolf_count := PyExt.dict_get context "werewolf_count" 1 in
  let villager_count := PyExt.dict_get context "villager_count" 1 in
  match div werewolf_count (Py.max 1 villager_count) with
  | Some ratio => Some (Py.min 1.0 ratio)
  | None => None
  end.

(** [create_werewolf_pressure_v3] *)
Definition create_werewolf_pressure_v3 : MultiDimensionalPressure :=
  let mdp := __init__ in
  let mdp :=
    register_dimension mdp "suspicion" suspicion_pressure 0.25
      "自分への疑惑からの圧力" true in
  let mdp :=
    register_dimension mdp "social_suspicion" social_suspicion_pressure 0.25
      "他者の発言による疑惑圧力" true in
  let mdp :=
    register_dimension mdp "trust" trust_pressure 0.2
      "信頼できる人の少なさからの圧力" true in
  let mdp :=
    register_dimension mdp "information" information_pressure 0.15
      "未確定情報の多さからの圧力" true in
  let mdp :=
    register_dimension mdp "time" time_pressure 0.1
      "ゲーム進行からの圧力" true in
  let mdp :=
    register_dimension mdp "survival" survival_pressure 0.05
      "人狼との人数バランスからの圧力" true in
  mdp.

End Mdp.

(** * The werewolf game: the deterministic bookkeeping

    A shallow embedding of the parts of [class WerewolfGameV3]
    ([src/ssd_werewolf_game_v3.py]) that draw no random number: the head
    counts, [check_game_end], [learning_phase] and [process_cooperation].
    Players are objects held in [self.players]; a method that mutates
    players returns the list of the updated players, in the same order.
    The event log ([log_event]) is not modelled. *)

Module Game.

(** [class Role(Enum)] *)
Inductive Role : Type := VILLAGER | WEREWOLF | SEER.

Definition Role_eqb (a b : Role) : bool :=
  match a, b with
  | VILLAGER, VILLAGER | WEREWOLF, WEREWOLF | SEER, SEER => true
  | _, _ => false
  end.

(** [@dataclass class Statement] *)
Record Statement : Type := Build_Statement {
  speaker_id : Z;
  target_id : Z;
  intensity : R;
  day : Z
}.

(** [@dataclass class WerewolfPlayerV3] *)
Record WerewolfPlayerV3 : Type := Build_WerewolfPlayerV3 {
  id : Z;
  name : string;
  role : Role;
  state : V3_5.SSDStateV3_5;
  engine : V3_5.SSDCoreEngineV3_5;
  pressure_system : Mdp.MultiDimensionalPressure;
  is_alive : bool;
  suspicion_level : R;
  trust_map : list (Z * R);
  social_suspicion : R;
  known_roles : list (Z * Role);
  has_revealed : bool;
  vote_count : Z;
  voted_for : list Z;
  phase_transition_count : Z;
  total_energy_spent : R;
  statements : list Statement
}.

(** The attributes of [WerewolfGameV3] that the modelled methods read. *)
Record WerewolfGameV3 : Type := Build_WerewolfGameV3 {
  num_players : Z;
  players : list WerewolfPlayerV3;
  current_day : Z;
  max_days : Z
}.

(** Dicts with [int] keys, in insertion order. *)
Fixpoint int_dict_get {A : Type} (d : list (Z * A)) (k : Z) (default : A) : A :=
  match d with
  | [] => default
  | (k', v) :: d' => if Z.eqb k' k then v else int_dict_get d' k default
  end.

Fixpoint int_dict_set {A : Type} (d : list (Z * A)) (k : Z) (v : A) : list (Z * A) :=
  match d with
  | [] => [(k, v)]
  | (k', v') :: d' =>
      if Z.eqb k' k then (k', v) :: d' else (k', v') :: int_dict_set d' k v
  end.

Fixpoint int_dict_lookup {A : Type} (d : list (Z * A)) (k : Z) : option A :=
  match d with
  | [] => None
  | (k', v) :: d' => if Z.eqb k' k then Some v else int_dict_lookup d' k
  end.

(** [x in xs] for a list of ints. *)
Definition int_in (x : Z) (xs : list Z) : bool := existsb (Z.eqb x) xs.

(** [get_alive_players] *)
Definition get_alive_players (self : WerewolfGameV3) : list WerewolfPlayerV3 :=
  filter is_alive (players self).

(** [sum(1 for p in ... if cond)] *)
Definition count_if {A : Type} (cond : A -> bool) (l : list A) : Z :=
  fold_left (fun acc p => if cond p then (acc + 1)%Z else acc) l 0%Z.

(** [get_werewolf_count] *)
Definition get_werewolf_count (self : WerewolfGameV3) : Z :=
  count_if (fun p => Role_eqb (role p) WEREWOLF) (get_alive_players self).

(** [get_villager_count] *)
Definition get_villager_count (self : WerewolfGameV3) : Z :=
  count_if (fun p => negb (Role_eqb (role p) WEREWOLF)) (get_alive_players self).

(** [check_game_end] *)
Definition check_game_end (self : WerewolfGameV3) : option string :=
  let werewolf_count := get_werewolf_count self in
  let villager_count := get_villager_count self in
  if Z.eqb werewolf_count 0 then Some "村人側の勝利"%string
  else if Z.geb werewolf_count villager_count then Some "人狼側の勝利"%string
  else if Z.gtb (current_day self) (max_days self) then
         Some "時間切れ（引き分け）"%string
  else None.

(** [player.state.kappa = x] *)
Definition with_state_kappa (player : WerewolfPlayerV3) (x : R) : WerewolfPlayerV3 := {|
  id := id player; name := name player; role := role player;
  state := {|
    V3_5.kappa := x;
    V3_5.F_direct := V3_5.F_direct (state player);
    V3_5.p_indirect := V3_5.p_indirect (state player);
    V3_5.E_direct := V3_5.E_direct (state player);
    V3_5.E_indirect := V3_5.E_indirect (state player);
    V3_5.E_direct_flow := V3_5.E_direct_flow (state player);
    V3_5.E_indirect_flow := V3_5.E_indirect_flow (state player);
    V3_5.conversion_i2d := V3_5.conversion_i2d (state player);
    V3_5.conversion_d2i := V3_5.conversion_d2i (state player);
    V3_5.decay_rate := V3_5.decay_rate (state player);
    V3_5.is_critical := V3_5.is_critical (state player);
    V3_5.phase_transition_count := V3_5.phase_transition_count (state player) |};
  engine := engine player; pressure_system := pressure_system player;
  is_alive := is_alive player; suspicion_level := suspicion_level player;
  trust_map := trust_map player; social_suspicion := social_suspicion player;
  known_roles := known_roles player; has_revealed := has_revealed player;
  vote_count := vote_count player; voted_for := voted_for player;
  phase_transition_count := phase_transition_count player;
  total_energy_spent := total_energy_spent player;
  statements := statements player
|}.

(** [player.trust_map = m] *)
Definition with_trust_map (player : WerewolfPlayerV3) (m : list (Z * R))
  : WerewolfPlayerV3 := {|
  id := id player; name := name player; role := role player;
  state := state player;
  engine := engine player; pressure_system := pressure_system player;
  is_alive := is_alive player; suspicion_level := suspicion_level player;
  trust_map := m; social_suspicion := social_suspicion player;
  known_roles := known_roles player; has_revealed := has_revealed player;
  vote_count := vote_count player; voted_for := voted_for player;
  phase_transition_count := phase_transition_count player;
  total_energy_spent := total_energy_spent player;
  statements := statements player
|}.

(** The body of the loop of [learning_phase] for one living player. *)
Definition learn (executed : WerewolfPlayerV3) (is_werewolf : bool)
  (player : WerewolfPlayerV3) : WerewolfPlayerV3 :=
  if int_in (id executed) (voted_for player) then
    if is_werewolf then
      let delta_kappa := 0.15 in
      let kappa := V3_5.kappa (state player) + delta_kappa in
      with_state_kappa player (Py.min 2.0 kappa)
    else
      let delta_kappa := - 0.10 in
      let kappa := V3_5.kappa (state player) + delta_kappa in
      with_state_kappa player (Py.max 0.3 kappa)
  else player.

(** [learning_phase]: the loop runs over the living players; the others
    are left as they are.  [votes] is not read. *)
Definition learning_phase (self : WerewolfGameV3) (executed : WerewolfPlayerV3)
  (votes : list (Z * R)) : WerewolfGameV3 :=
  let is_werewolf := Role_eqb (role executed) WEREWOLF in
  {| num_players := num_players self;
     players :=
       map (fun player => if is_alive player then learn executed is_werewolf player
                          else player)
         (players self);
     current_day := current_day self;
     max_days := max_days self |}.

(** The body of the inner loop of [process_cooperation] on the trust map
    of [player_a]. *)
Definition cooperate (voted_targets : list (Z * Z)) (player_a : WerewolfPlayerV3)
  (target_of_a : Z) (trust : list (Z * R)) (player_b : WerewolfPlayerV3)
  : list (Z * R) :=
  if Z.eqb (id player_a) (id player_b) then trust
  else
    match int_dict_lookup voted_targets (id player_b) with
    | None => trust
    | Some target_of_b =>
        if Z.eqb target_of_a target_of_b then
          let old_trust := int_dict_get trust (id player_b) 0.5 in
          int_dict_set trust (id player_b) (Py.min 1.0 (old_trust + 0.15))
        else if Z.eqb target_of_b (id player_a) then
          let old_trust := int_dict_get trust (id player_b) 0.5 in
          int_dict_set trust (id player_b) (Py.max 0.0 (old_trust - 0.3))
        else trust
    end.

(** [process_cooperation]: the players of [alive], updated. *)
Definition process_cooperation (self : WerewolfGameV3) (voted_targets : list (Z * Z))
  (alive : list WerewolfPlayerV3) : list WerewolfPlayerV3 :=
  map (fun player_a =>
         match int_dict_lookup voted_targets (id player_a) with
         | None => player_a
         | Some target_of_a =>
             with_trust_map player_a
               (fold_left (cooperate voted_targets player_a target_of_a) alive
                  (trust_map player_a))
         end)
    alive.

End Game.
(** ** Constructors used in the worked scenarios *)

(** [SSDStateV5(E_direct=..., ..., kappa_upper=...)]: the dataclass
    constructor with the energies and inertias given and every other field
    at its default. *)
Definition SSDStateV5_init
  (E_direct0 E_physical0 E_base0 E_core0 E_upper0
   kappa_physical0 kappa_base0 kappa_core0 kappa_upper0 : R) : SSDStateV5 := {|
  E_direct := E_direct0;
  E_physical := E_physical0;
  E_base := E_base0;
  E_core := E_core0;
  E_upper := E_upper0;
  kappa_physical := kappa_physical0;
  kappa_base := kappa_base0;
  kappa_core := kappa_core0;
  kappa_upper := kappa_upper0;
  F_direct := Np.zeros 3;
  p_physical := Np.zeros 3;
  p_base := Np.zeros 3;
  p_core := Np.zeros 3;
  p_upper := Np.zeros 3;
  j_direct := Np.zeros 3;
  j_physical := Np.zeros 3;
  j_base := Np.zeros 3;
  j_core := Np.zeros 3;
  j_upper := Np.zeros 3;
  is_critical_physical := false;
  is_critical_base := false;
  is_critical_core := false;
  is_critical_upper := false;
  dominant_leap_layer := "NONE"%string;
  leap_type := "NO_LEAP"%string;
  structural_powers := [];
  E_physical_flow := 0.0;
  E_base_flow := 0.0;
  E_core_flow := 0.0;
  E_upper_flow := 0.0;
  E_direct_flow := 0.0;
  conversion_physical2d := 0.0;
  conversion_base2d := 0.0;
  conversion_core2d := 0.0;
  conversion_upper2d := 0.0;
  conversion_d2physical := 0.0;
  conversion_d2base := 0.0;
  conversion_d2core := 0.0;
  conversion_d2upper := 0.0;
  transfer_upper2base := 0.0;
  transfer_upper2core := 0.0;
  transfer_base2upper := 0.0;
  transfer_base2core := 0.0;
  transfer_core2base := 0.0;
  transfer_core2upper := 0.0;
  transfer_physical2base := 0.0;
  transfer_physical2upper := 0.0;
  social_coupling_physical := 0.0;
  social_coupling_base := 0.0;
  social_coupling_core := 0.0;
  social_coupling_upper := 0.0;
  kappa_coupling_physical := 0.0;
  kappa_coupling_base := 0.0;
  kappa_coupling_core := 0.0;
  kappa_coupling_upper := 0.0
|}.

(** [SSDParametersV5(use_integrated_leap_detection=..., gamma_physical2d=...,
    ..., gamma_d2upper=...)]: the dataclass constructor with the leap mode
    and the eight conversion coefficients given and every other field at its
    default. *)
Definition SSDParametersV5_init (use_integrated_leap_detection0 : bool)
  (gamma_physical2d0 gamma_d2physical0 gamma_base2d0 gamma_core2d0 gamma_upper2d0
   gamma_d2base0 gamma_d2core0 gamma_d2upper0 : R) : SSDParametersV5 := {|
  gamma_physical2d := gamma_physical2d0;
  gamma_d2physical := gamma_d2physical0;
  gamma_base2d := gamma_base2d0;
  gamma_core2d := gamma_core2d0;
  gamma_upper2d := gamma_upper2d0;
  gamma_d2base := gamma_d2base0;
  gamma_d2core := gamma_d2core0;
  gamma_d2upper := gamma_d2upper0;
  gamma_upper2base := (-0.04);
  gamma_upper2core := 0.03;
  gamma_base2upper := 0.05;
  gamma_base2core := (-0.02);
  gamma_core2base := 0.04;
  gamma_core2upper := 0.02;
  gamma_physical2base := 0.06;
  gamma_physical2upper := 0.03;
  Theta_physical := 200.0;
  Theta_base := 150.0;
  Theta_core := 100.0;
  Theta_upper := 80.0;
  beta_physical := 0.001;
  beta_base := 0.005;
  beta_core := 0.01;
  beta_upper := 0.02;
  eta_physical := 0.9;
  eta_base := 0.8;
  eta_core := 0.5;
  eta_upper := 0.3;
  alpha_d := 1.0;
  alpha_physical := 1.0;
  alpha_base := 1.0;
  alpha_core := 1.0;
  alpha_upper := 1.0;
  rho_d := 0.1;
  rho_physical := 0.1;
  rho_base := 0.1;
  rho_core := 0.1;
  rho_upper := 0.1;
  lambda_physical := 0.05;
  lambda_base := 0.05;
  lambda_core := 0.05;
  lambda_upper := 0.05;
  kappa_min_physical := 0.9;
  kappa_min_base := 0.8;
  kappa_min_core := 0.5;
  kappa_min_upper := 0.3;
  phase_transition_multiplier_physical := 20.0;
  enable_phase_transition := true;
  phase_transition_multiplier_base := 15.0;
  phase_transition_multiplier_core := 10.0;
  phase_transition_multiplier_upper := 8.0;
  use_integrated_leap_detection := use_integrated_leap_detection0;
  dynamic_theta_sensitivity := 0.3;
  enable_interlayer_transfer := true;
  interlayer_transfer_strength := 1.0;
  enable_social_coupling := true;
  zeta_physical := 0.02;
  zeta_base := 0.08;
  zeta_core := 0.05;
  zeta_upper := 0.03;
  xi_physical := 0.01;
  xi_base := 0.04;
  xi_core := 0.06;
  xi_upper := 0.05;
  omega_physical := (-0.01);
  omega_base := (-0.06);
  omega_core := (-0.03);
  omega_upper := (-0.02);
  social_coupling_strength := 1.0;
  cooperation_threshold := 0.5;
  reservoir_capacity := 1000.0;
  use_direct_action := true;
  use_indirect_action := true
|}.

(** ** Per-layer views of the state and of the parameters

    The source spells every per-layer quantity out four times; the
    following accessors select the copy of a given layer, so that a
    property can be stated once for every layer. *)

(** The value of the enum member ([PHYSICAL = 1], ..., [UPPER = 4]), which
    is also its position in the enumeration order. *)
Definition layer_value (l : SSDLayer) : nat :=
  match l with PHYSICAL => 1 | BASE => 2 | CORE => 3 | UPPER => 4 end.

(** The name of the enum member, used by the engine as dict key. *)
Definition layer_str (l : SSDLayer) : string :=
  match l with
  | PHYSICAL => "PHYSICAL" | BASE => "BASE" | CORE => "CORE" | UPPER => "UPPER"
  end.

Definition layer_eqb (a b : SSDLayer) : bool :=
  Nat.eqb (layer_value a) (layer_value b).

Definition E_of (l : SSDLayer) (s : SSDStateV5) : R :=
  match l with
  | PHYSICAL => E_physical s | BASE => E_base s | CORE => E_core s | UPPER => E_upper s
  end.

Definition kappa_of (l : SSDLayer) (s : SSDStateV5) : R :=
  match l with
  | PHYSICAL => kappa_physical s | BASE => kappa_base s
  | CORE => kappa_core s | UPPER => kappa_upper s
  end.

Definition flow_of (l : SSDLayer) (s : SSDStateV5) : R :=
  match l with
  | PHYSICAL => E_physical_flow s | BASE => E_base_flow s
  | CORE => E_core_flow s | UPPER => E_upper_flow s
  end.

Definition conversion2d_of (l : SSDLayer) (s : SSDStateV5) : R :=
  match l with
  | PHYSICAL => conversion_physical2d s | BASE => conversion_base2d s
  | CORE => conversion_core2d s | UPPER => conversion_upper2d s
  end.

Definition conversion_d2_of (l : SSDLayer) (s : SSDStateV5) : R :=
  match l with
  | PHYSICAL => conversion_d2physical s | BASE => conversion_d2base s
  | CORE => conversion_d2core s | UPPER => conversion_d2upper s
  end.

Definition social_coupling_of (l : SSDLayer) (s : SSDStateV5) : R :=
  match l with
  | PHYSICAL => social_coupling_physical s | BASE => social_coupling_base s
  | CORE => social_coupling_core s | UPPER => social_coupling_upper s
  end.

Definition kappa_coupling_of (l : SSDLayer) (s : SSDStateV5) : R :=
  match l with
  | PHYSICAL => kappa_coupling_physical s | BASE => kappa_coupling_base s
  | CORE => kappa_coupling_core s | UPPER => kappa_coupling_upper s
  end.

Definition is_critical_of (l : SSDLayer) (s : SSDStateV5) : bool :=
  match l with
  | PHYSICAL => is_critical_physical s | BASE => is_critical_base s
  | CORE => is_critical_core s | UPPER => is_critical_upper s
  end.

Definition alpha_of (l : SSDLayer) (P : SSDParametersV5) : R :=
  match l with
  | PHYSICAL => alpha_physical P | BASE => alpha_base P
  | CORE => alpha_core P | UPPER => alpha_upper P
  end.

Definition beta_of (l : SSDLayer) (P : SSDParametersV5) : R :=
  match l with
  | PHYSICAL => beta_physical P | BASE => beta_base P
  | CORE => beta_core P | UPPER => beta_upper P
  end.

Definition eta_of (l : SSDLayer) (P : SSDParametersV5) : R :=
  match l with
  | PHYSICAL => eta_physical P | BASE => eta_base P
  | CORE => eta_core P | UPPER => eta_upper P
  end.

Definition rho_of (l : SSDLayer) (P : SSDParametersV5) : R :=
  match l with
  | PHYSICAL => rho_physical P | BASE => rho_base P
  | CORE => rho_core P | UPPER => rho_upper P
  end.

Definition lambda_of (l : SSDLayer) (P : SSDParametersV5) : R :=
  match l with
  | PHYSICAL => lambda_physical P | BASE => lambda_base P
  | CORE => lambda_core P | UPPER => lambda_upper P
  end.

Definition kappa_min_of (l : SSDLayer) (P : SSDParametersV5) : R :=
  match l with
  | PHYSICAL => kappa_min_physical P | BASE => kappa_min_base P
  | CORE => kappa_min_core P | UPPER => kappa_min_upper P
  end.

Definition Theta_of (l : SSDLayer) (P : SSDParametersV5) : R :=
  match l with
  | PHYSICAL => Theta_physical P | BASE => Theta_base P
  | CORE => Theta_core P | UPPER => Theta_upper P
  end.

Definition coupling_energy_of (l : SSDLayer) (c : Coupling) : R :=
  match l with
  | PHYSICAL => physical_energy c | BASE => base_energy c
  | CORE => core_energy c | UPPER => upper_energy c
  end.

Definition coupling_kappa_of (l : SSDLayer) (c : Coupling) : R :=
  match l with
  | PHYSICAL => physical_kappa c | BASE => base_kappa c
  | CORE => core_kappa c | UPPER => upper_kappa c
  end.

(** The critical flag of layer [l] in the result of leap detection. *)
Definition detected_critical (l : SSDLayer) (r : LeapResult.t) : bool :=
  match l with
  | PHYSICAL => LeapResult.is_critical_physical r
  | BASE => LeapResult.is_critical_base r
  | CORE => LeapResult.is_critical_core r
  | UPPER => LeapResult.is_critical_upper r
  end.

Definition power_of (l : SSDLayer) (w : Powers.t) : R :=
  match l with
  | PHYSICAL => total_power (Powers.PHYSICAL w) | BASE => total_power (Powers.BASE w)
  | CORE => total_power (Powers.CORE w) | UPPER => total_power (Powers.UPPER w)
  end.

(** The four pressure arguments of [step], by layer. *)
Definition pressure_of (l : SSDLayer) (p_physical p_base p_core p_upper : Np.ndarray)
  : Np.ndarray :=
  match l with
  | PHYSICAL => p_physical | BASE => p_base | CORE => p_core | UPPER => p_upper
  end.

(** ** Quantities the properties are stated with *)

(** The eight directed pairs of the interlayer transfer as (source,
    destination, amount recorded for the tick). *)
Definition declared_transfers (s : SSDStateV5) : list (SSDLayer * SSDLayer * R) :=
  [ (UPPER, BASE, transfer_upper2base s);
    (UPPER, CORE, transfer_upper2core s);
    (BASE, UPPER, transfer_base2upper s);
    (BASE, CORE, transfer_base2core s);
    (CORE, BASE, transfer_core2base s);
    (CORE, UPPER, transfer_core2upper s);
    (PHYSICAL, BASE, transfer_physical2base s);
    (PHYSICAL, UPPER, transfer_physical2upper s) ].

(** What one directed pair contributes to the energy differential of layer
    [l]: plus the amount at its destination, minus the amount at its
    source. *)
Definition pair_contribution (l : SSDLayer) (t : SSDLayer * SSDLayer * R) : R :=
  let '(src, dst, amount) := t in
  (if layer_eqb dst l then amount else 0) - (if layer_eqb src l then amount else 0).

(** The interlayer-transfer contribution to layer [l] in one tick. *)
Definition net_transfer_of (l : SSDLayer) (s : SSDStateV5) : R :=
  fold_right (fun t acc => pair_contribution l t + acc) 0 (declared_transfers s).

(** Everything in the energy differential of layer [l] apart from the
    production term: conversions to and from the direct pool, decay,
    interlayer transfer and social coupling, read from the diagnostics of
    the new state [s'] and the energy of the old state [s]. *)
Definition flow_without_production (P : SSDParametersV5) (l : SSDLayer)
  (s s' : SSDStateV5) : R :=
  - conversion2d_of l s' + conversion_d2_of l s' - beta_of l P * E_of l s
  + net_transfer_of l s' + social_coupling_of l s'.

(** The production formula of the specification text:
    [alpha * max(0, |p| - |j|)] with [j = kappa * p]. *)
Definition production_as_specified (alpha kappa : R) (p : Np.ndarray) : R :=
  alpha * Rmax 0 (Np.norm p - Np.norm (Np.scale kappa p)).

(** The inertia law of the specification text:
    [kappa += (eta * (|p| |j| - rho |j|^2) - lambda * (kappa - kappa_min)) * dt],
    then the clamp. *)
Definition inertia_as_specified (eta rho lambda kappa_min kappa : R) (p : Np.ndarray)
  (dt : R) : R :=
  let j := Np.scale kappa p in
  Rmax kappa_min
    (kappa
     + (eta * (Np.norm p * Np.norm j - rho * (Np.norm j * Np.norm j))
        - lambda * (kappa - kappa_min)) * dt).

(** The inertia of layer [l] after learning and natural decay (steps 4 and
    5 of [step]), before social coupling and the floor. *)
Definition kappa_learned (P : SSDParametersV5) (l : SSDLayer) (s : SSDStateV5)
  (p : Np.ndarray) (dt : R) : R :=
  (kappa_of l s + eta_of l P * Np.norm p * dt) * (1.0 - lambda_of l P * dt).

(** The state object as [step] passes it to the first social-coupling
    call. *)
Definition state_learned (P : SSDParametersV5) (s : SSDStateV5)
  (p_physical p_base p_core p_upper : Np.ndarray) (dt : R) : SSDStateV5 :=
  with_kappa s
    (kappa_learned P PHYSICAL s p_physical dt) (kappa_learned P BASE s p_base dt)
    (kappa_learned P CORE s p_core dt) (kappa_learned P UPPER s p_upper dt).

(** The social term added to the inertia of layer [l] in step 5.5. *)
Definition kappa_social_term (self : SSDCoreEngineV5) (l : SSDLayer) (s : SSDStateV5)
  (p_physical p_base p_core p_upper : Np.ndarray)
  (other_states : option (list SSDStateV5)) (relationships : option (list R))
  (dt : R) : R :=
  match other_states, relationships with
  | Some others, Some rels =>
      coupling_kappa_of l
        (_compute_social_coupling self
           (state_learned (params self) s p_physical p_base p_core p_upper dt)
           others rels) * dt
  | _, _ => 0
  end.

(** The state object as [step] passes it to leap detection: the energies
    of the old state with the inertias of the new one. *)
Definition state_at_leap (s s' : SSDStateV5) : SSDStateV5 :=
  with_kappa s (kappa_physical s') (kappa_base s') (kappa_core s') (kappa_upper s').

(** A layer is critical in integrated mode when its energy is below its
    dynamic threshold. *)
Definition critical_in (self : SSDCoreEngineV5) (s : SSDStateV5) (w : Powers.t)
  (l : SSDLayer) : Prop :=
  E_of l s
  < _compute_dynamic_theta self (layer_str l) (Theta_of l (params self))
      (power_of l w) (kappa_of l s) (R_values l).

(** The neutral band of the social coupling. *)
Definition neutral (P : SSDParametersV5) (relation : R) : Prop :=
  relation <= cooperation_threshold P /\ relation >= - cooperation_threshold P.

(** ** Concrete inputs of the worked examples *)

(** [SSDCoreEngineV5()]: default parameters, integrated leap detection. *)
Definition engine_default : SSDCoreEngineV5 := __init__ None.

(** [SSDCoreEngineV5(SSDParametersV5(use_integrated_leap_detection=False))] *)
Definition engine_legacy : SSDCoreEngineV5 :=
  __init__ (Some (SSDParametersV5_init false 0.15 0.01 0.08 0.05 0.03 0.03 0.02 0.04)).

(** Default parameters with the eight conversion coefficients set to zero. *)
Definition engine_no_conversion : SSDCoreEngineV5 :=
  __init__ (Some (SSDParametersV5_init true 0 0 0 0 0 0 0 0)).

Definition zero3 : Np.ndarray := Np.zeros 3.

Definition unit_x : Np.ndarray := [1; 0; 0].

(** Empty energies; BASE inertia 2, respectively 0.5; the others 1. *)
Definition state_inertia_two : SSDStateV5 := SSDStateV5_init 0 0 0 0 0 1 2 1 1.

Definition state_inertia_half : SSDStateV5 := SSDStateV5_init 0 0 0 0 0 1 0.5 1 1.

(** [E_base = 120], every other energy empty, inertias 1. *)
Definition state_base_120 : SSDStateV5 := SSDStateV5_init 0 0 120 0 0 1 1 1 1.

(** [E_direct = 7], every layer empty, inertias 1. *)
Definition state_direct_7 : SSDStateV5 := SSDStateV5_init 7 0 0 0 0 1 1 1 1.

(** One tick of length 1 for a single agent, with a unit pressure on the
    BASE layer, respectively with no pressure at all. *)
Definition after_unit_base_pressure (self : SSDCoreEngineV5) (state : SSDStateV5)
  : SSDStateV5 :=
  snd (step self state zero3 unit_x zero3 zero3 None None None 1).

Definition after_quiet_tick (self : SSDCoreEngineV5) (state : SSDStateV5) : SSDStateV5 :=
  snd (step self state zero3 zero3 zero3 zero3 None None None 1).


(** ** Further per-layer views *)

Definition gamma2d_of (l : SSDLayer) (P : SSDParametersV5) : R :=
  match l with
  | PHYSICAL => gamma_physical2d P | BASE => gamma_base2d P
  | CORE => gamma_core2d P | UPPER => gamma_upper2d P
  end.

Definition multiplier_of (l : SSDLayer) (P : SSDParametersV5) : R :=
  match l with
  | PHYSICAL => phase_transition_multiplier_physical P
  | BASE => phase_transition_multiplier_base P
  | CORE => phase_transition_multiplier_core P
  | UPPER => phase_transition_multiplier_upper P
  end.

Definition zeta_of (l : SSDLayer) (P : SSDParametersV5) : R :=
  match l with
  | PHYSICAL => zeta_physical P | BASE => zeta_base P
  | CORE => zeta_core P | UPPER => zeta_upper P
  end.

Definition xi_of (l : SSDLayer) (P : SSDParametersV5) : R :=
  match l with
  | PHYSICAL => xi_physical P | BASE => xi_base P
  | CORE => xi_core P | UPPER => xi_upper P
  end.

Definition omega_of (l : SSDLayer) (P : SSDParametersV5) : R :=
  match l with
  | PHYSICAL => omega_physical P | BASE => omega_base P
  | CORE => omega_core P | UPPER => omega_upper P
  end.

(** The four conversion rates returned by [_compute_dynamic_gamma] and
    [_legacy_phase_transition], by layer. *)
Definition rate_of (l : SSDLayer) (g : R * R * R * R) : R :=
  match l with
  | PHYSICAL => fst (fst (fst g)) | BASE => snd (fst (fst g))
  | CORE => snd (fst g) | UPPER => snd g
  end.

(** ** Closed forms of the social coupling *)

(** What one pairing adds to the energy entry of layer [l]: attraction
    toward the other agent under cooperation, the other agent's energy
    weighted by [omega] under competition, nothing in the neutral band. *)
Definition pair_energy_term (P : SSDParametersV5) (l : SSDLayer)
  (state other : SSDStateV5) (relation : R) : R :=
  if Py.gtb relation (cooperation_threshold P) then
    (E_of l other - E_of l state) * zeta_of l P * relation * social_coupling_strength P
  else if Py.ltb relation (- cooperation_threshold P) then
    omega_of l P * E_of l other * Rabs relation * social_coupling_strength P
  else 0.

(** What one pairing adds to the inertia entry of layer [l]: only
    cooperation propagates inertia. *)
Definition pair_kappa_term (P : SSDParametersV5) (l : SSDLayer)
  (state other : SSDStateV5) (relation : R) : R :=
  if Py.gtb relation (cooperation_threshold P) then
    (kappa_of l other - kappa_of l state) * xi_of l P * relation
    * social_coupling_strength P
  else 0.

(** The sum of a term over the pairings that [zip] forms. *)
Definition sum_over_pairs (term : SSDStateV5 -> R -> R)
  (other_states : list SSDStateV5) (relationships : list R) : R :=
  fold_right (fun p acc => term (fst p) (snd p) + acc) 0
    (combine other_states relationships).

(** The sum of the values of a dict. *)
Definition sum_values (d : list (string * R)) : R :=
  fold_right (fun kv acc => snd kv + acc) 0 d.

(** ** Views of the v3.5 engine *)

Module V3_5_Views.
Import V3_5.

(** Whether a call ended by raising. *)
Definition raises (o : Outcome) : bool :=
  match o with
  | Returned _ _ => false
  | Raised _ _ _ => true
  end.

(** The engine and the state a call leaves behind. *)
Definition engine_of (o : Outcome) : SSDCoreEngineV3_5 :=
  match o with
  | Returned self _ => self
  | Raised _ self _ => self
  end.

Definition state_of (o : Outcome) : SSDStateV3_5 :=
  match o with
  | Returned _ state => state
  | Raised _ _ state => state
  end.

(** The arguments of one call of [step]: [p_external], [dt],
    [contact_pressure]. *)
Definition Input : Type := Np.ndarray * R * option Np.ndarray.

(** A caller's loop [for ...: state = engine.step(state, ...)]: the calls
    are made in order on the same engine and state objects and the loop
    ends at the first exception. *)
Fixpoint run (self : SSDCoreEngineV3_5) (state : SSDStateV3_5) (inputs : list Input)
  : Outcome :=
  match inputs with
  | [] => Returned self state
  | (p_external, dt, contact_pressure) :: rest =>
      match step self state p_external dt contact_pressure with
      | Returned self' state' => run self' state' rest
      | Raised e self' state' => Raised e self' state'
      end
  end.

(** The sum of the time steps of a list of calls. *)
Definition elapsed (inputs : list Input) : R :=
  fold_right (fun i acc => snd (fst i) + acc) 0 inputs.

(** The conversion rate [gamma_i2d] an engine should carry for a state,
    given the configured rate [gamma0]: amplified while the state is
    critical. *)
Definition gamma_for (gamma0 multiplier : R) (critical : bool) : R :=
  if critical then gamma0 * multiplier else gamma0.

(** The engine's [gamma_i2d] matches the state's critical flag. *)
Definition consistent (gamma0 : R) (self : SSDCoreEngineV3_5) (state : SSDStateV3_5)
  : Prop :=
  gamma_i2d (params self)
  = gamma_for gamma0 (phase_transition_multiplier (params self)) (is_critical state).

(** [SSDStateV3_5(kappa=..., E_direct=..., E_indirect=...)] *)
Definition SSDStateV3_5_init (kappa0 E_direct0 E_indirect0 : R) : SSDStateV3_5 := {|
  kappa := kappa0; F_direct := Np.zeros 3; p_indirect := Np.zeros 3;
  E_direct := E_direct0; E_indirect := E_indirect0;
  E_direct_flow := 0.0; E_indirect_flow := 0.0;
  conversion_i2d := 0.0; conversion_d2i := 0.0; decay_rate := 0.0;
  is_critical := false; phase_transition_count := 0%Z |}.

(** The revolution scenario of the module's self-test: an engine with
    [create_revolution_params] and a state above the threshold. *)
Definition engine_revolution : SSDCoreEngineV3_5 := __init__ create_revolution_params.

Definition state_revolution : SSDStateV3_5 := SSDStateV3_5_init 1.0 0.0 600.0.

(** The same state with [E_indirect] already below the threshold. *)
Definition state_below_threshold : SSDStateV3_5 := SSDStateV3_5_init 1.0 0.0 400.0.

End V3_5_Views.

(** ** Views of the pressure system *)

Module Mdp_Views.
Import Mdp.

(** The value a dimension contributes in a context: [None] when it is
    disabled or its calculator raises. *)
Definition contribution (context : Context) (dim : PressureDimension) : option R :=
  if enabled dim then calculator dim context else None.

(** The weighted sum and the weight sum over the contributing dimensions. *)
Definition weighted_sum (context : Context) (dims : list (string * PressureDimension))
  : R :=
  fold_right
    (fun item acc =>
       match contribution context (snd item) with
       | Some v => weight (snd item) * v + acc
       | None => acc
       end) 0 dims.

Definition weight_sum (context : Context) (dims : list (string * PressureDimension))
  : R :=
  fold_right
    (fun item acc =>
       match contribution context (snd item) with
       | Some _ => weight (snd item) + acc
       | None => acc
       end) 0 dims.

(** Every contributing dimension has a non-negative weight and a value in
    [[lo, hi]]. *)
Definition contributions_within (context : Context) (lo hi : R)
  (dims : list (string * PressureDimension)) : Prop :=
  Forall
    (fun item =>
       match contribution context (snd item) with
       | Some v => 0 <= weight (snd item) /\ lo <= v <= hi
       | None => True
       end) dims.

(** The context dict that [update_player_energy] builds. *)
Definition game_context
  (suspicion_level social_suspicion trusted_count alive_count unknown_roles
   current_day max_days werewolf_count villager_count : R) : Context :=
  [("suspicion_level"%string, suspicion_level);
   ("social_suspicion"%string, social_suspicion);
   ("trusted_count"%string, trusted_count);
   ("alive_count"%string, alive_count);
   ("unknown_roles"%string, unknown_roles);
   ("current_day"%string, current_day);
   ("max_days"%string, max_days);
   ("werewolf_count"%string, werewolf_count);
   ("villager_count"%string, villager_count)].

End Mdp_Views.

(** ** Views of the game *)

Module Game_Views.
Import Game.

(** Two player objects that agree on everything except the inertia of
    their state. *)
Definition same_but_kappa (p q : WerewolfPlayerV3) : Prop :=
  with_state_kappa q (V3_5.kappa (state p)) = p.

(** Every recorded trust value lies in [[0, 1]]. *)
Definition trust_in_range (m : list (Z * R)) : Prop :=
  Forall (fun kv => 0 <= snd kv <= 1) m.

End Game_Views.

(** ** Runs of the v5 engine *)

(** The arguments of one call of [SSDCoreEngineV5.step]. *)
Record StepArgs : Type := Build_StepArgs {
  arg_p_physical : Np.ndarray;
  arg_p_base : Np.ndarray;
  arg_p_core : Np.ndarray;
  arg_p_upper : Np.ndarray;
  arg_F_direct : option Np.ndarray;
  arg_other_states : option (list SSDStateV5);
  arg_relationships : option (list R);
  arg_dt : R
}.

(** [step] on the arguments of a call. *)
Definition step_with (self : SSDCoreEngineV5) (state : SSDStateV5) (c : StepArgs)
  : SSDCoreEngineV5 * SSDStateV5 :=
  step self state (arg_p_physical c) (arg_p_base c) (arg_p_core c) (arg_p_upper c)
    (arg_F_direct c) (arg_other_states c) (arg_relationships c) (arg_dt c).

(** A caller's loop [for ...: state = engine.step(state, ...)] on one
    engine and one state object. *)
Fixpoint run_steps (self : SSDCoreEngineV5) (state : SSDStateV5) (calls : list StepArgs)
  : SSDCoreEngineV5 * SSDStateV5 :=
  match calls with
  | [] => (self, state)
  | c :: rest =>
      run_steps (fst (step_with self state c)) (snd (step_with self state c)) rest
  end.

(** The sum of the time steps of a list of calls. *)
Definition total_dt (calls : list StepArgs) : R :=
  fold_right (fun c acc => arg_dt c + acc) 0 calls.

(** The running decay total of a layer. *)
Definition total_decay_of (l : SSDLayer) (self : SSDCoreEngineV5) : R :=
  match l with
  | PHYSICAL => total_decay_physical self | BASE => total_decay_base self
  | CORE => total_decay_core self | UPPER => total_decay_upper self
  end.
(** * Properties *)

(** ** Comparisons and clamps *)

Lemma ltb_true_iff (a b : R) : Py.ltb a b = true <-> a < b.
Proof.
  unfold Py.ltb; destruct (Rlt_dec a b); split; intros; try congruence; auto.
Qed.

Lemma ltb_false_iff (a b : R) : Py.ltb a b = false <-> b <= a.
Proof.
  unfold Py.ltb; destruct (Rlt_dec a b); split; intros; try congruence; lra.
Qed.

Lemma max_lower_bound (a b : R) : a <= Py.max a b.
Proof. unfold Py.max, Py.ltb; destruct (Rlt_dec a b); lra. Qed.

Lemma max_zero_nonneg (x : R) : 0 <= Py.max 0.0 x.
Proof. unfold Py.max, Py.ltb; destruct (Rlt_dec 0.0 x); lra. Qed.

Lemma max_is_Rmax (a b : R) : Py.max a b = Rmax a b.
Proof.
  unfold Py.max, Py.ltb, Rmax.
  destruct (Rlt_dec a b), (Rle_dec a b); lra.
Qed.

Lemma max_of_ge (a b : R) : b <= a -> Py.max a b = a.
Proof. intros H; unfold Py.max, Py.ltb; destruct (Rlt_dec a b); lra. Qed.

Lemma max_of_lt (a b : R) : a < b -> Py.max a b = b.
Proof. intros H; unfold Py.max, Py.ltb; destruct (Rlt_dec a b); lra. Qed.

(** ** Norms *)

Lemma sum_sq_nonneg (a : Np.ndarray) : 0 <= Np.sum_sq a.
Proof.
  induction a as [|x a IH]; simpl; [lra|].
  pose proof (Rle_0_sqr x) as Hx; unfold Rsqr in Hx; lra.
Qed.

Lemma norm_nonneg (a : Np.ndarray) : 0 <= Np.norm a.
Proof. apply sqrt_pos. Qed.

Lemma sum_sq_scale (k : R) (a : Np.ndarray) :
  Np.sum_sq (Np.scale k a) = k * k * Np.sum_sq a.
Proof.
  induction a as [|x a IH]; [simpl; lra|].
  change (Np.sum_sq (Np.scale k (x :: a)))
    with (k * x * (k * x) + Np.sum_sq (Np.scale k a)).
  change (Np.sum_sq (x :: a)) with (x * x + Np.sum_sq a).
  rewrite IH; ring.
Qed.

Lemma sum_sq_sub_scale (k : R) (a : Np.ndarray) :
  Np.sum_sq (Np.sub a (Np.scale k a)) = (1 - k) * (1 - k) * Np.sum_sq a.
Proof.
  induction a as [|x a IH]; [simpl; lra|].
  change (Np.sum_sq (Np.sub (x :: a) (Np.scale k (x :: a))))
    with ((x - k * x) * (x - k * x) + Np.sum_sq (Np.sub a (Np.scale k a))).
  change (Np.sum_sq (x :: a)) with (x * x + Np.sum_sq a).
  rewrite IH; ring.
Qed.

Lemma sqrt_square_factor (c s : R) : 0 <= s -> sqrt (c * c * s) = Rabs c * sqrt s.
Proof.
  intros Hs.
  rewrite sqrt_mult_alt by (pose proof (Rle_0_sqr c) as H; unfold Rsqr in H; lra).
  f_equal. apply (sqrt_Rsqr_abs c).
Qed.

Lemma norm_scale (k : R) (a : Np.ndarray) :
  Np.norm (Np.scale k a) = Rabs k * Np.norm a.
Proof.
  unfold Np.norm; rewrite sum_sq_scale.
  apply sqrt_square_factor, sum_sq_nonneg.
Qed.

(** The vector [p - kappa * p] has length [|1 - kappa| * |p|]. *)
Lemma norm_sub_scale (k : R) (a : Np.ndarray) :
  Np.norm (Np.sub a (Np.scale k a)) = Rabs (1 - k) * Np.norm a.
Proof.
  unfold Np.norm; rewrite sum_sq_sub_scale.
  apply sqrt_square_factor, sum_sq_nonneg.
Qed.

Lemma norm_zeros (n : nat) : Np.norm (Np.zeros n) = 0.
Proof.
  unfold Np.norm.
  replace (Np.sum_sq (Np.zeros n)) with 0; [apply sqrt_0|].
  induction n as [|n IH]; [reflexivity|].
  change (Np.sum_sq (Np.zeros (S n))) with (0 * 0 + Np.sum_sq (Np.zeros n)).
  rewrite <- IH; ring.
Qed.

Lemma norm_unit_x : Np.norm [1; 0; 0] = 1.
Proof.
  unfold Np.norm; simpl.
  replace (1 * 1 + (0 * 0 + (0 * 0 + 0))) with 1 by ring.
  apply sqrt_1.
Qed.


(** ** Further facts about comparisons *)

Lemma max_of_le (a b : R) : a <= b -> Py.max a b = b.
Proof. intros H; unfold Py.max, Py.ltb; destruct (Rlt_dec a b); lra. Qed.

Lemma max_upper_bound (a b : R) : b <= Py.max a b.
Proof. unfold Py.max, Py.ltb; destruct (Rlt_dec a b); lra. Qed.

Lemma eqb_true_iff (a b : R) : PyExt.eqb a b = true <-> a = b.
Proof.
  unfold PyExt.eqb; destruct (Req_dec_T a b); split; intros; congruence.
Qed.

Lemma eqb_false_iff (a b : R) : PyExt.eqb a b = false <-> a <> b.
Proof.
  unfold PyExt.eqb; destruct (Req_dec_T a b); split; intros; congruence.
Qed.

(** ** The shape of one step *)

Section StepShape.

Variables (self : SSDCoreEngineV5) (state : SSDStateV5).
Variables (p_physical p_base p_core p_upper : Np.ndarray).
Variable F_direct : option Np.ndarray.
Variable other_states : option (list SSDStateV5).
Variable relationships : option (list R).
Variable dt : R.

Let s' : SSDStateV5 :=
  snd (step self state p_physical p_base p_core p_upper F_direct other_states
         relationships dt).

(** The new energy of a layer is its old energy plus the recorded flow
    times [dt], clamped at zero. *)
Lemma step_energy (l : SSDLayer) :
  E_of l s' = Py.max 0.0 (E_of l state + flow_of l s' * dt).
Proof. destruct l; reflexivity. Qed.

Lemma step_energy_direct :
  E_direct s' = Py.max 0.0 (E_direct state + E_direct_flow s' * dt).
Proof. reflexivity. Qed.

(** The recorded flow of the direct pool. *)
Lemma step_flow_direct :
  E_direct_flow s'
  = match F_direct with
    | Some F => alpha_d (params self) * Np.norm F
    | None => 0.0
    end
    + conversion_physical2d s' + conversion_base2d s'
    + conversion_core2d s' + conversion_upper2d s'
    - conversion_d2physical s' - conversion_d2base s'
    - conversion_d2core s' - conversion_d2upper s'.
Proof. reflexivity. Qed.

Lemma net_transfer_unfold (l : SSDLayer) (s : SSDStateV5) :
  net_transfer_of l s
  = match l with
    | PHYSICAL => - transfer_physical2base s - transfer_physical2upper s
    | BASE =>
        transfer_upper2base s + transfer_core2base s + transfer_physical2base s
        - transfer_base2upper s - transfer_base2core s
    | CORE =>
        transfer_upper2core s + transfer_base2core s
        - transfer_core2base s - transfer_core2upper s
    | UPPER =>
        transfer_base2upper s + transfer_core2upper s + transfer_physical2upper s
        - transfer_upper2base s - transfer_upper2core s
    end.
Proof.
  unfold net_transfer_of, declared_transfers, pair_contribution.
  destruct l; cbn [fold_right layer_eqb layer_value Nat.eqb]; ring.
Qed.

(** The recorded flow of a layer: production from the pressure not met by
    the reaction, and the remaining terms as recorded in the diagnostics. *)
Lemma step_flow (l : SSDLayer) :
  flow_of l s'
  = alpha_of l (params self)
    * Np.norm (Np.sub (pressure_of l p_physical p_base p_core p_upper)
                 (Np.scale (kappa_of l state)
                    (pressure_of l p_physical p_base p_core p_upper)))
    + flow_without_production (params self) l state s'.
Proof.
  unfold flow_without_production; rewrite net_transfer_unfold.
  destruct l; cbn [flow_of alpha_of pressure_of kappa_of conversion2d_of
                   conversion_d2_of beta_of E_of social_coupling_of];
    unfold s'; cbv beta delta [step];
    cbn [snd E_physical_flow E_base_flow E_core_flow E_upper_flow
         conversion_physical2d conversion_base2d conversion_core2d
         conversion_upper2d conversion_d2physical conversion_d2base
         conversion_d2core conversion_d2upper
         transfer_upper2base transfer_upper2core transfer_base2upper
         transfer_base2core transfer_core2base transfer_core2upper
         transfer_physical2base transfer_physical2upper
         social_coupling_physical social_coupling_base social_coupling_core
         social_coupling_upper E_physical E_base E_core E_upper with_kappa];
    unfold Np.copy; ring.
Qed.

(** The conversions from the direct pool, and the decay, use the energies
    of the old state. *)
Lemma step_conversion_from_direct :
  conversion_d2physical s' = gamma_d2physical (params self) * E_direct state
  /\ conversion_d2base s' = gamma_d2base (params self) * E_direct state
  /\ conversion_d2core s' = gamma_d2core (params self) * E_direct state
  /\ conversion_d2upper s' = gamma_d2upper (params self) * E_direct state.
Proof. repeat split; reflexivity. Qed.

(** The recorded transfer amounts. *)
Lemma step_transfers :
  enable_interlayer_transfer (params self) = true ->
  let strength := interlayer_transfer_strength (params self) in
  transfer_upper2base s' = gamma_upper2base (params self) * E_upper state * strength
  /\ transfer_upper2core s' = gamma_upper2core (params self) * E_upper state * strength
  /\ transfer_base2upper s' = gamma_base2upper (params self) * E_base state * strength
  /\ transfer_base2core s' = gamma_base2core (params self) * E_base state * strength
  /\ transfer_core2base s' = gamma_core2base (params self) * E_core state * strength
  /\ transfer_core2upper s' = gamma_core2upper (params self) * E_core state * strength
  /\ transfer_physical2base s'
     = gamma_physical2base (params self) * E_physical state * strength
  /\ transfer_physical2upper s'
     = gamma_physical2upper (params self) * E_physical state * strength.
Proof.
  intros Hen strength; unfold s'; cbv beta delta [step];
    cbn [snd transfer_upper2base transfer_upper2core transfer_base2upper
         transfer_base2core transfer_core2base transfer_core2upper
         transfer_physical2base transfer_physical2upper];
    rewrite Hen; repeat split; reflexivity.
Qed.

(** The new inertia of a layer: learning, natural decay, the social term,
    and the floor. *)
Lemma step_kappa (l : SSDLayer) :
  kappa_of l s'
  = Py.max (kappa_min_of l (params self))
      (kappa_learned (params self) l state
         (pressure_of l p_physical p_base p_core p_upper) dt
       + kappa_social_term self l state p_physical p_base p_core p_upper
           other_states relationships dt).
Proof.
  unfold kappa_social_term, s'.
  destruct other_states as [os|], relationships as [rs|]; destruct l;
    cbv beta delta [step];
    cbn [snd kappa_of kappa_physical kappa_base kappa_core kappa_upper with_kappa
         kappa_min_of pressure_of coupling_kappa_of];
    try reflexivity;
    f_equal; unfold kappa_learned, Np.copy;
    cbn [kappa_of eta_of lambda_of]; ring.
Qed.

(** The state object handed to leap detection, to the transfer
    computation and to the second social-coupling call. *)
Lemma step_leap_integrated :
  use_integrated_leap_detection (params self) = true ->
  let st := state_at_leap state s' in
  let r :=
    _integrated_leap_detection self st
      (_calculate_structural_powers self st p_physical p_base p_core p_upper) in
  dominant_leap_layer s' = LeapResult.dominant_layer r
  /\ leap_type s' = LeapResult.leap_type r
  /\ is_critical_physical s' = LeapResult.is_critical_physical r
  /\ is_critical_base s' = LeapResult.is_critical_base r
  /\ is_critical_core s' = LeapResult.is_critical_core r
  /\ is_critical_upper s' = LeapResult.is_critical_upper r.
Proof.
  intros Hmode; unfold s', state_at_leap; cbv beta delta [step];
    cbn [snd dominant_leap_layer leap_type is_critical_physical is_critical_base
         is_critical_core is_critical_upper kappa_physical kappa_base kappa_core
         kappa_upper];
    rewrite Hmode; cbv zeta; cbn [fst snd]; repeat split; reflexivity.
Qed.

(** The conversion rates used in integrated mode. *)
Lemma step_conversion_integrated :
  use_integrated_leap_detection (params self) = true ->
  let st := state_at_leap state s' in
  let g :=
    _compute_dynamic_gamma self
      (_integrated_leap_detection self st
         (_calculate_structural_powers self st p_physical p_base p_core p_upper))
      st in
  conversion_physical2d s' = fst (fst (fst g)) * E_physical state
  /\ conversion_base2d s' = snd (fst (fst g)) * E_base state
  /\ conversion_core2d s' = snd (fst g) * E_core state
  /\ conversion_upper2d s' = snd g * E_upper state.
Proof.
  intros Hmode; unfold s', state_at_leap; cbv beta delta [step];
    cbn [snd conversion_physical2d conversion_base2d conversion_core2d
         conversion_upper2d kappa_physical kappa_base kappa_core kappa_upper];
    rewrite Hmode; cbv zeta; cbn [fst snd]; repeat split; reflexivity.
Qed.

(** The structural power of a layer: pressure magnitude times energy times
    inertia times structural resistance. *)
Lemma structural_power_value (st : SSDStateV5) (l : SSDLayer) :
  power_of l (_calculate_structural_powers self st p_physical p_base p_core p_upper)
  = Np.norm (pressure_of l p_physical p_base p_core p_upper)
    * E_of l st * kappa_of l st * R_values l.
Proof. destruct l; reflexivity. Qed.

End StepShape.

(** ** Bounds kept by every step *)

(** C1.  After any call to [step], whatever the initial state, the
    parameters, the pressure vectors, the other agents and [dt], the five
    energies ([E_direct] and the energy of each of the four layers) are
    non-negative and the inertia of every layer is at least the floor
    [kappa_min] configured for that layer. *)
Theorem step_keeps_energy_and_inertia_bounds :
  forall (self : SSDCoreEngineV5) (state : SSDStateV5)
         (p_physical p_base p_core p_upper : Np.ndarray)
         (F_direct : option Np.ndarray)
         (other_states : option (list SSDStateV5)) (relationships : option (list R))
         (dt : R),
    let s' :=
      snd (step self state p_physical p_base p_core p_upper F_direct other_states
             relationships dt) in
    0 <= E_direct s'
    /\ forall l : SSDLayer,
         0 <= E_of l s' /\ kappa_min_of l (params self) <= kappa_of l s'.
Proof.
  intros self state pp pb pc pu F os rs dt s'; split.
  - unfold s'; rewrite step_energy_direct; apply max_zero_nonneg.
  - intros l; split.
    + unfold s'; rewrite step_energy; apply max_zero_nonneg.
    + unfold s'; rewrite step_kappa; apply max_lower_bound.
Qed.

(** ** Energy production *)

Lemma step_conversion_to_direct :
  forall (self : SSDCoreEngineV5) (state : SSDStateV5)
         (p_physical p_base p_core p_upper : Np.ndarray)
         (F_direct : option Np.ndarray)
         (other_states : option (list SSDStateV5)) (relationships : option (list R))
         (dt : R) (l : SSDLayer),
    exists g : R,
      conversion2d_of l
        (snd (step self state p_physical p_base p_core p_upper F_direct other_states
                relationships dt))
      = g * E_of l state.
Proof. intros; destruct l; eexists; reflexivity. Qed.

(** The production formula of the specification agrees with the length of
    [p - kappa * p] exactly when the inertia lies between 0 and 1. *)
Lemma production_as_specified_unit_interval (alpha kappa : R) (p : Np.ndarray) :
  0 <= kappa <= 1 ->
  production_as_specified alpha kappa p
  = alpha * Np.norm (Np.sub p (Np.scale kappa p)).
Proof.
  intros [H0 H1]; unfold production_as_specified.
  rewrite norm_scale, norm_sub_scale.
  rewrite (Rabs_pos_eq kappa) by lra.
  rewrite (Rabs_pos_eq (1 - kappa)) by lra.
  pose proof (norm_nonneg p) as Hp.
  rewrite Rmax_right by nra.
  ring.
Qed.

(** C2 (as amended).  For every layer and every call to [step], the
    production added to the layer's energy differential is
    [alpha * |p - j|] with the reaction [j = kappa * p] taken at the inertia
    the layer has when the call starts, that is [alpha * |1 - kappa| * |p|].
    It coincides with [alpha * max(0, |p| - |j|)] whenever [0 <= kappa <= 1];
    for an inertia above 1 it is [alpha * (kappa - 1) * |p|] and does not
    vanish although the reaction is at least as large as the pressure. *)
Theorem step_production_term :
  forall (self : SSDCoreEngineV5) (state : SSDStateV5)
         (p_physical p_base p_core p_upper : Np.ndarray)
         (F_direct : option Np.ndarray)
         (other_states : option (list SSDStateV5)) (relationships : option (list R))
         (dt : R) (l : SSDLayer),
    let s' :=
      snd (step self state p_physical p_base p_core p_upper F_direct other_states
             relationships dt) in
    let p := pressure_of l p_physical p_base p_core p_upper in
    let rest := flow_without_production (params self) l state s' in
    flow_of l s'
    = alpha_of l (params self) * (Rabs (1 - kappa_of l state) * Np.norm p) + rest
    /\ (0 <= kappa_of l state <= 1 ->
        flow_of l s'
        = production_as_specified (alpha_of l (params self)) (kappa_of l state) p + rest)
    /\ (1 < kappa_of l state ->
        flow_of l s'
        = alpha_of l (params self) * ((kappa_of l state - 1) * Np.norm p) + rest).
Proof.
  intros self state pp pb pc pu F os rs dt l s' p rest.
  assert (Hflow :
    flow_of l s'
    = alpha_of l (params self) * Np.norm (Np.sub p (Np.scale (kappa_of l state) p)) + rest)
    by apply step_flow.
  repeat split.
  - rewrite Hflow, norm_sub_scale; reflexivity.
  - intros Hk; rewrite Hflow, production_as_specified_unit_interval by exact Hk.
    reflexivity.
  - intros Hk; rewrite Hflow, norm_sub_scale.
    rewrite Rabs_left by lra. f_equal; ring.
Qed.

Lemma step_production_term_witness :
  0 <= kappa_of BASE state_inertia_half <= 1
  /\ flow_of BASE (after_unit_base_pressure engine_default state_inertia_half)
     = production_as_specified (alpha_of BASE (params engine_default))
         (kappa_of BASE state_inertia_half) unit_x
       + flow_without_production (params engine_default) BASE state_inertia_half
           (after_unit_base_pressure engine_default state_inertia_half).
Proof.
  assert (Hk : 0 <= kappa_of BASE state_inertia_half <= 1) by (cbn; lra).
  split; [exact Hk|].
  exact (proj1 (proj2 (step_production_term engine_default state_inertia_half zero3
                         unit_x zero3 zero3 None None None 1 BASE)) Hk).
Defined.

(** C2, the claim as stated fails: with inertia 2 on the BASE layer and a
    unit pressure, the reaction (length 2) exceeds the pressure (length 1),
    the specified formula gives production 0, and [step] adds production 1. *)
Lemma production_claim_counterexample :
  Np.norm unit_x <= Np.norm (Np.scale (kappa_of BASE state_inertia_two) unit_x)
  /\ production_as_specified (alpha_of BASE (params engine_default))
       (kappa_of BASE state_inertia_two) unit_x = 0
  /\ flow_of BASE (after_unit_base_pressure engine_default state_inertia_two)
     = 1 + flow_without_production (params engine_default) BASE state_inertia_two
             (after_unit_base_pressure engine_default state_inertia_two)
  /\ flow_of BASE (after_unit_base_pressure engine_default state_inertia_two)
     <> production_as_specified (alpha_of BASE (params engine_default))
          (kappa_of BASE state_inertia_two) unit_x
        + flow_without_production (params engine_default) BASE state_inertia_two
            (after_unit_base_pressure engine_default state_inertia_two).
Proof.
  set (s' := after_unit_base_pressure engine_default state_inertia_two).
  set (rest := flow_without_production (params engine_default) BASE state_inertia_two s').
  assert (Hn : Np.norm unit_x = 1) by apply norm_unit_x.
  assert (Hj : Np.norm (Np.scale (kappa_of BASE state_inertia_two) unit_x) = 2).
  { rewrite norm_scale, Hn. cbn [kappa_of state_inertia_two SSDStateV5_init kappa_base].
    rewrite Rabs_pos_eq by lra. ring. }
  assert (Hspec :
    production_as_specified (alpha_of BASE (params engine_default))
      (kappa_of BASE state_inertia_two) unit_x = 0).
  { unfold production_as_specified. rewrite Hj, Hn.
    rewrite Rmax_left by lra. ring. }
  assert (Hflow : flow_of BASE s' = 1 + rest).
  { unfold s', rest, after_unit_base_pressure.
    rewrite step_flow, norm_sub_scale.
    cbn [pressure_of]. rewrite Hn.
    cbn [kappa_of alpha_of engine_default __init__ params SSDParametersV5_default
         alpha_base state_inertia_two SSDStateV5_init kappa_base].
    rewrite Rabs_left by lra.
    f_equal. lra. }
  repeat split; [lra | exact Hspec | exact Hflow |].
  rewrite Hflow, Hspec. lra.
Qed.

(** ** Inertia learning *)

(** C3 (as amended).  For every layer and every call to [step], the inertia
    is first raised by [eta * |p| * dt], then multiplied by
    [1 - lambda * dt], then raised by the social term of the layer times
    [dt] when other agents and relationships are both supplied, and finally
    clamped to at least [kappa_min]; neither the reaction nor [rho] enters.
    With zero pressure and no coupling the new inertia is therefore
    [max(kappa_min, kappa * (1 - lambda * dt))]: the decay is geometric
    toward zero and the clamp holds the value at the floor. *)
Theorem step_inertia_update :
  forall (self : SSDCoreEngineV5) (state : SSDStateV5)
         (p_physical p_base p_core p_upper : Np.ndarray)
         (F_direct : option Np.ndarray)
         (other_states : option (list SSDStateV5)) (relationships : option (list R))
         (dt : R) (l : SSDLayer),
    let P := params self in
    let s' :=
      snd (step self state p_physical p_base p_core p_upper F_direct other_states
             relationships dt) in
    let p := pressure_of l p_physical p_base p_core p_upper in
    kappa_of l s'
    = Py.max (kappa_min_of l P)
        ((kappa_of l state + eta_of l P * Np.norm p * dt) * (1.0 - lambda_of l P * dt)
         + kappa_social_term self l state p_physical p_base p_core p_upper
             other_states relationships dt)
    /\ (Np.norm p = 0 ->
        other_states = None \/ relationships = None ->
        kappa_of l s'
        = Py.max (kappa_min_of l P) (kappa_of l state * (1.0 - lambda_of l P * dt))).
Proof.
  intros self state pp pb pc pu F os rs dt l P s' p.
  assert (Hk := step_kappa self state pp pb pc pu F os rs dt l).
  cbv zeta in Hk. fold s' p P in Hk. unfold kappa_learned in Hk.
  split; [exact Hk|].
  intros Hp Hnone. rewrite Hk, Hp. f_equal.
  assert (Hsoc : kappa_social_term self l state pp pb pc pu os rs dt = 0).
  { unfold kappa_social_term. destruct Hnone as [-> | ->]; [reflexivity|].
    destruct os; reflexivity. }
  rewrite Hsoc. ring.
Qed.

Lemma step_inertia_update_witness :
  Np.norm zero3 = 0
  /\ ((@None (list SSDStateV5)) = None \/ (@None (list R)) = None)
  /\ kappa_of BASE (after_quiet_tick engine_default state_inertia_two)
     = Py.max (kappa_min_of BASE (params engine_default))
         (kappa_of BASE state_inertia_two
          * (1.0 - lambda_of BASE (params engine_default) * 1)).
Proof.
  assert (Hp : Np.norm zero3 = 0) by apply norm_zeros.
  assert (Hnone : (@None (list SSDStateV5)) = None \/ (@None (list R)) = None)
    by (left; reflexivity).
  split; [exact Hp|]. split; [exact Hnone|].
  exact (proj2 (step_inertia_update engine_default state_inertia_two zero3 zero3 zero3
                  zero3 None None None 1 BASE) Hp Hnone).
Defined.

(** C3, the claim as stated fails: from inertia 2 on the BASE layer, with
    the default parameters, zero pressure, no coupling and [dt = 1], the
    specified law gives [2 - 0.05 * (2 - 0.8) = 1.94] (relaxation toward the
    floor 0.8) while [step] yields [2 * (1 - 0.05) = 1.9] (decay toward
    zero). *)
Lemma inertia_claim_counterexample :
  kappa_of BASE (after_quiet_tick engine_default state_inertia_two) = 1.9
  /\ inertia_as_specified (eta_of BASE (params engine_default))
       (rho_of BASE (params engine_default)) (lambda_of BASE (params engine_default))
       (kappa_min_of BASE (params engine_default))
       (kappa_of BASE state_inertia_two) zero3 1 = 1.94
  /\ kappa_of BASE (after_quiet_tick engine_default state_inertia_two)
     <> inertia_as_specified (eta_of BASE (params engine_default))
          (rho_of BASE (params engine_default)) (lambda_of BASE (params engine_default))
          (kappa_min_of BASE (params engine_default))
          (kappa_of BASE state_inertia_two) zero3 1.
Proof.
  assert (Hp : Np.norm zero3 = 0) by apply norm_zeros.
  assert (Hcode : kappa_of BASE (after_quiet_tick engine_default state_inertia_two) = 1.9).
  { unfold after_quiet_tick. rewrite step_kappa.
    unfold kappa_learned, kappa_social_term. cbn [pressure_of]. rewrite Hp.
    cbn [kappa_of kappa_min_of eta_of lambda_of engine_default __init__ params
         SSDParametersV5_default kappa_min_base eta_base lambda_base
         state_inertia_two SSDStateV5_init kappa_base].
    rewrite max_of_lt by lra. lra. }
  assert (Hspec :
    inertia_as_specified (eta_of BASE (params engine_default))
      (rho_of BASE (params engine_default)) (lambda_of BASE (params engine_default))
      (kappa_min_of BASE (params engine_default))
      (kappa_of BASE state_inertia_two) zero3 1 = 1.94).
  { unfold inertia_as_specified. cbv zeta. rewrite norm_scale, Hp.
    cbn [kappa_of kappa_min_of eta_of lambda_of rho_of engine_default __init__ params
         SSDParametersV5_default kappa_min_base eta_base lambda_base rho_base
         state_inertia_two SSDStateV5_init kappa_base].
    rewrite Rmax_right by lra. lra. }
  repeat split; [exact Hcode | exact Hspec |].
  rewrite Hcode, Hspec. lra.
Qed.

(** ** The legacy (static) leap mode *)

(** The rate and the flag chosen by [_legacy_phase_transition] for the BASE
    layer, and the two labels it leaves untouched at their reset values. *)
Lemma legacy_base_layer (self : SSDCoreEngineV5) (st : SSDStateV5) :
  enable_phase_transition (params self) = true ->
  let r := _legacy_phase_transition self st in
  snd (fst (fst (fst r)))
  = (if Py.ltb (E_base st) (Theta_base (params self))
     then gamma_base2d (params self) * phase_transition_multiplier_base (params self)
     else gamma_base2d (params self))
  /\ LeapResult.is_critical_base (snd r) = Py.ltb (E_base st) (Theta_base (params self))
  /\ LeapResult.dominant_layer (snd r) = "NONE"%string
  /\ LeapResult.leap_type (snd r) = "NO_LEAP"%string.
Proof.
  intros Hen; unfold _legacy_phase_transition; rewrite Hen; cbv zeta.
  destruct (Py.ltb (E_physical st) (Theta_physical (params self)));
    destruct (Py.ltb (E_base st) (Theta_base (params self)));
    destruct (Py.ltb (E_core st) (Theta_core (params self)));
    destruct (Py.ltb (E_upper st) (Theta_upper (params self)));
    repeat split; reflexivity.
Qed.

(** What [step] records for the BASE layer in legacy mode. *)
Lemma step_legacy_base :
  forall (self : SSDCoreEngineV5) (state : SSDStateV5)
         (p_physical p_base p_core p_upper : Np.ndarray)
         (F_direct : option Np.ndarray)
         (other_states : option (list SSDStateV5)) (relationships : option (list R))
         (dt : R),
    use_integrated_leap_detection (params self) = false ->
    enable_phase_transition (params self) = true ->
    let s' :=
      snd (step self state p_physical p_base p_core p_upper F_direct other_states
             relationships dt) in
    conversion_base2d s'
    = (if Py.ltb (E_base state) (Theta_base (params self))
       then gamma_base2d (params self) * phase_transition_multiplier_base (params self)
       else gamma_base2d (params self)) * E_base state
    /\ is_critical_base s' = Py.ltb (E_base state) (Theta_base (params self))
    /\ dominant_leap_layer s' = "NONE"%string
    /\ leap_type s' = "NO_LEAP"%string.
Proof.
  intros self state pp pb pc pu F os rs dt Hmode Hen s'.
  pose proof (legacy_base_layer self (state_at_leap state s') Hen) as Hleg.
  cbv zeta in Hleg. destruct Hleg as (Hg & Hc & Hd & Ht).
  unfold s' in *; unfold state_at_leap in *; revert Hg Hc Hd Ht.
  cbv beta delta [step];
    cbn [snd conversion_base2d is_critical_base dominant_leap_layer leap_type
         kappa_physical kappa_base kappa_core kappa_upper E_base with_kappa];
    rewrite Hmode; cbv zeta; cbn [fst snd].
  intros Hg Hc Hd Ht. rewrite Hg, Hc, Hd, Ht. repeat split; reflexivity.
Qed.

(** C4 (as amended).  In legacy mode with the phase transition enabled, for
    an agent with [E_base = 120], [Theta_base = 150], [gamma_base2d = 0.08],
    multiplier 15 and zero BASE pressure, one call to [step] records
    [conversion_base2d = 0.08 * 15 * 120 = 144] and marks the BASE layer
    critical; the legacy mode resolves no dominant layer, so the state
    reports ["NONE"] and ["NO_LEAP"]; the BASE flow is the conversion taken
    out, [-144], plus the feedback from the direct pool, minus the decay
    [beta_base * 120], plus the transfer and coupling terms, and the new
    [E_base] is [max(0, 120 + flow * dt)]. *)
Theorem legacy_worked_scenario :
  forall (self : SSDCoreEngineV5) (state : SSDStateV5)
         (p_physical p_base p_core p_upper : Np.ndarray)
         (F_direct : option Np.ndarray)
         (other_states : option (list SSDStateV5)) (relationships : option (list R))
         (dt : R),
    use_integrated_leap_detection (params self) = false ->
    enable_phase_transition (params self) = true ->
    E_base state = 120 ->
    Theta_base (params self) = 150 ->
    gamma_base2d (params self) = 0.08 ->
    phase_transition_multiplier_base (params self) = 15 ->
    Np.norm p_base = 0 ->
    let s' :=
      snd (step self state p_physical p_base p_core p_upper F_direct other_states
             relationships dt) in
    conversion_base2d s' = 144
    /\ is_critical_base s' = true
    /\ dominant_leap_layer s' = "NONE"%string
    /\ leap_type s' = "NO_LEAP"%string
    /\ E_base_flow s'
       = - 144 + conversion_d2base s' - beta_base (params self) * 120
         + net_transfer_of BASE s' + social_coupling_base s'
    /\ E_base s' = Py.max 0.0 (120 + E_base_flow s' * dt).
Proof.
  intros self state pp pb pc pu F os rs dt Hmode Hen HE HT Hg HM Hp s'.
  destruct (step_legacy_base self state pp pb pc pu F os rs dt Hmode Hen)
    as (Hconv & Hcrit & Hdom & Hleap).
  fold s' in Hconv, Hcrit, Hdom, Hleap.
  assert (Hlt : Py.ltb (E_base state) (Theta_base (params self)) = true)
    by (apply ltb_true_iff; lra).
  rewrite Hlt in Hconv, Hcrit.
  assert (H144 : conversion_base2d s' = 144) by (rewrite Hconv, Hg, HM, HE; lra).
  repeat split; try assumption.
  - pose proof (step_flow self state pp pb pc pu F os rs dt BASE) as Hflow.
    cbv zeta in Hflow. fold s' in Hflow.
    cbn [flow_of pressure_of] in Hflow. rewrite Hflow.
    rewrite norm_sub_scale, Hp. unfold flow_without_production.
    cbn [conversion2d_of conversion_d2_of beta_of E_of social_coupling_of].
    rewrite H144, HE. ring.
  - pose proof (step_energy self state pp pb pc pu F os rs dt BASE) as HEn.
    cbv zeta in HEn. fold s' in HEn. cbn [E_of flow_of] in HEn.
    rewrite HEn, HE. reflexivity.
Qed.

Lemma legacy_worked_scenario_witness :
  conversion_base2d (after_quiet_tick engine_legacy state_base_120) = 144
  /\ is_critical_base (after_quiet_tick engine_legacy state_base_120) = true
  /\ dominant_leap_layer (after_quiet_tick engine_legacy state_base_120) = "NONE"%string
  /\ leap_type (after_quiet_tick engine_legacy state_base_120) = "NO_LEAP"%string
  /\ E_base_flow (after_quiet_tick engine_legacy state_base_120)
     = - 144 + conversion_d2base (after_quiet_tick engine_legacy state_base_120)
       - beta_base (params engine_legacy) * 120
       + net_transfer_of BASE (after_quiet_tick engine_legacy state_base_120)
       + social_coupling_base (after_quiet_tick engine_legacy state_base_120)
  /\ E_base (after_quiet_tick engine_legacy state_base_120)
     = Py.max 0.0
         (120 + E_base_flow (after_quiet_tick engine_legacy state_base_120) * 1).
Proof.
  apply (legacy_worked_scenario engine_legacy state_base_120 zero3 zero3 zero3 zero3
           None None None 1).
  - reflexivity.
  - reflexivity.
  - reflexivity.
  - cbn. lra.
  - reflexivity.
  - cbn. lra.
  - apply norm_zeros.
Defined.

(** C4, the claim as stated fails: in the worked scenario run in legacy
    mode the conversion is 144 as claimed, but the dominant layer recorded
    in the state is ["NONE"], not BASE. *)
Lemma legacy_dominant_layer_counterexample :
  conversion_base2d (after_quiet_tick engine_legacy state_base_120) = 144
  /\ dominant_leap_layer (after_quiet_tick engine_legacy state_base_120) = "NONE"%string
  /\ ~ (conversion_base2d (after_quiet_tick engine_legacy state_base_120) = 144
        /\ dominant_leap_layer (after_quiet_tick engine_legacy state_base_120)
           = layer_str BASE).
Proof.
  destruct (step_legacy_base engine_legacy state_base_120 zero3 zero3 zero3 zero3
              None None None 1 eq_refl eq_refl)
    as (Hconv & _ & Hdom & _).
  fold (after_quiet_tick engine_legacy state_base_120) in Hconv, Hdom.
  assert (Hlt : Py.ltb (E_base state_base_120) (Theta_base (params engine_legacy)) = true)
    by (apply ltb_true_iff; cbn; lra).
  rewrite Hlt in Hconv.
  assert (H144 : conversion_base2d (after_quiet_tick engine_legacy state_base_120) = 144)
    by (rewrite Hconv; cbn; lra).
  repeat split; [exact H144 | exact Hdom |].
  intros [_ Hbase]. rewrite Hdom in Hbase. discriminate Hbase.
Qed.

(** The same run in numbers: besides the conversion, the BASE layer loses
    the decay [0.005 * 120] and the transfers to UPPER ([0.05 * 120]) and to
    CORE ([-0.02 * 120]), so the flow is [-148.2] and the energy is clamped
    to zero. *)
Example legacy_scenario_in_numbers :
  E_base_flow (after_quiet_tick engine_legacy state_base_120) = - 148.2
  /\ E_base (after_quiet_tick engine_legacy state_base_120) = 0.
Proof.
  set (s' := after_quiet_tick engine_legacy state_base_120).
  destruct (step_legacy_base engine_legacy state_base_120 zero3 zero3 zero3 zero3
              None None None 1 eq_refl eq_refl) as (Hconv & _).
  destruct (step_transfers engine_legacy state_base_120 zero3 zero3 zero3 zero3
              None None None 1 eq_refl) as (T1 & T2 & T3 & T4 & T5 & T6 & T7 & T8).
  destruct (step_conversion_from_direct engine_legacy state_base_120 zero3 zero3 zero3
              zero3 None None None 1) as (_ & Dbase & _).
  fold (after_quiet_tick engine_legacy state_base_120) in Hconv, T1, T3, T4, T5, T7, Dbase.
  fold s' in Hconv, T1, T3, T4, T5, T7, Dbase.
  assert (Hlt : Py.ltb (E_base state_base_120) (Theta_base (params engine_legacy)) = true)
    by (apply ltb_true_iff; cbn; lra).
  rewrite Hlt in Hconv.
  assert (Hflow : E_base_flow s' = - 148.2).
  { pose proof (step_flow engine_legacy state_base_120 zero3 zero3 zero3 zero3
                  None None None 1 BASE) as Hf.
    cbv zeta in Hf. fold (after_quiet_tick engine_legacy state_base_120) in Hf.
    fold s' in Hf. cbn [flow_of pressure_of] in Hf. rewrite Hf.
    rewrite norm_sub_scale. unfold zero3. rewrite norm_zeros.
    unfold flow_without_production. rewrite net_transfer_unfold.
    cbn [conversion2d_of conversion_d2_of beta_of E_of social_coupling_of].
    rewrite Hconv, Dbase, T1, T3, T4, T5, T7.
    replace (social_coupling_base s') with 0.0 by reflexivity.
    cbn [engine_legacy __init__ params SSDParametersV5_init state_base_120
         SSDStateV5_init E_base E_direct E_upper E_core E_physical
         gamma_base2d phase_transition_multiplier_base gamma_d2base beta_base
         gamma_upper2base gamma_core2base gamma_physical2base gamma_base2upper
         gamma_base2core interlayer_transfer_strength alpha_of alpha_base kappa_of
         kappa_base].
    lra. }
  split; [exact Hflow|].
  pose proof (step_energy engine_legacy state_base_120 zero3 zero3 zero3 zero3
                None None None 1 BASE) as HE.
  cbv zeta in HE. fold (after_quiet_tick engine_legacy state_base_120) in HE.
  fold s' in HE. cbn [E_of flow_of] in HE. rewrite HE, Hflow.
  cbn [state_base_120 SSDStateV5_init E_base].
  rewrite max_of_ge by lra. lra.
Qed.

(** ** Interlayer transfer *)

(** Whatever amount a directed pair carries, what it adds at its
    destination it removes at its source. *)
Lemma pair_contribution_balanced (t : SSDLayer * SSDLayer * R) :
  pair_contribution PHYSICAL t + pair_contribution BASE t
  + pair_contribution CORE t + pair_contribution UPPER t = 0.
Proof.
  destruct t as [[src dst] amount]; unfold pair_contribution.
  destruct src, dst; cbn [layer_eqb layer_value Nat.eqb]; ring.
Qed.

(** C5.  With interlayer transfer enabled, every call to [step] moves, for
    each of the eight declared directed pairs, the amount
    [gamma_pair * E_source * interlayer_transfer_strength]; the energy
    differential of every layer is the sum of its production, conversion,
    decay and coupling terms and of the net transfer into the layer, where
    each pair counts once positively at its destination and once negatively
    at its source; so every pair, and hence the sum of the transfer
    contributions over the four layers, balances to exactly zero before the
    clamp, whatever the other terms are. *)
Theorem interlayer_transfer_is_conservative :
  forall (self : SSDCoreEngineV5) (state : SSDStateV5)
         (p_physical p_base p_core p_upper : Np.ndarray)
         (F_direct : option Np.ndarray)
         (other_states : option (list SSDStateV5)) (relationships : option (list R))
         (dt : R),
    enable_interlayer_transfer (params self) = true ->
    let P := params self in
    let strength := interlayer_transfer_strength P in
    let s' :=
      snd (step self state p_physical p_base p_core p_upper F_direct other_states
             relationships dt) in
    declared_transfers s'
    = [ (UPPER, BASE, gamma_upper2base P * E_upper state * strength);
        (UPPER, CORE, gamma_upper2core P * E_upper state * strength);
        (BASE, UPPER, gamma_base2upper P * E_base state * strength);
        (BASE, CORE, gamma_base2core P * E_base state * strength);
        (CORE, BASE, gamma_core2base P * E_core state * strength);
        (CORE, UPPER, gamma_core2upper P * E_core state * strength);
        (PHYSICAL, BASE, gamma_physical2base P * E_physical state * strength);
        (PHYSICAL, UPPER, gamma_physical2upper P * E_physical state * strength) ]
    /\ (forall l : SSDLayer,
          flow_of l s'
          = (alpha_of l P
             * Np.norm (Np.sub (pressure_of l p_physical p_base p_core p_upper)
                          (Np.scale (kappa_of l state)
                             (pressure_of l p_physical p_base p_core p_upper)))
             - conversion2d_of l s' + conversion_d2_of l s' - beta_of l P * E_of l state
             + social_coupling_of l s')
            + net_transfer_of l s')
    /\ (forall t, In t (declared_transfers s') ->
          pair_contribution PHYSICAL t + pair_contribution BASE t
          + pair_contribution CORE t + pair_contribution UPPER t = 0)
    /\ net_transfer_of PHYSICAL s' + net_transfer_of BASE s'
       + net_transfer_of CORE s' + net_transfer_of UPPER s' = 0.
Proof.
  intros self state pp pb pc pu F os rs dt Hen P strength s'.
  destruct (step_transfers self state pp pb pc pu F os rs dt Hen)
    as (H1 & H2 & H3 & H4 & H5 & H6 & H7 & H8).
  fold s' P in H1, H2, H3, H4, H5, H6, H7, H8.
  repeat split.
  - unfold declared_transfers.
    rewrite H1, H2, H3, H4, H5, H6, H7, H8. reflexivity.
  - intros l.
    pose proof (step_flow self state pp pb pc pu F os rs dt l) as Hflow.
    cbv zeta in Hflow. fold s' P in Hflow. rewrite Hflow.
    unfold flow_without_production. ring.
  - intros t _. apply pair_contribution_balanced.
  - rewrite !net_transfer_unfold. ring.
Qed.

Lemma interlayer_transfer_is_conservative_witness :
  enable_interlayer_transfer (params engine_default) = true
  /\ net_transfer_of PHYSICAL (after_quiet_tick engine_default state_base_120)
     + net_transfer_of BASE (after_quiet_tick engine_default state_base_120)
     + net_transfer_of CORE (after_quiet_tick engine_default state_base_120)
     + net_transfer_of UPPER (after_quiet_tick engine_default state_base_120) = 0.
Proof.
  split; [reflexivity|].
  exact (proj2 (proj2 (proj2
           (interlayer_transfer_is_conservative engine_default state_base_120
              zero3 zero3 zero3 zero3 None None None 1 eq_refl)))).
Defined.

(** ** Dominant layer in integrated mode *)

(** Closes a goal [critical_in ... l] or refutes a hypothesis of that shape
    from the outcomes of the four threshold tests. *)
Ltac critical_by_test :=
  match goal with
  | H : critical_in _ _ _ ?l <-> _ |- critical_in _ _ _ ?l => apply H; reflexivity
  | H : critical_in _ _ _ ?l <-> _, Hl : critical_in _ _ _ ?l |- _ =>
      apply H in Hl; discriminate Hl
  end.

(** Checks that layer [d] is the dominant one in the current case. *)
Ltac dominant_is d :=
  exists d;
  split; [reflexivity|];
  split; [reflexivity|];
  split; [critical_by_test|];
  split;
  [ intros l Hl; destruct l; cbn [power_of]; first [lra | critical_by_test]
  | intros l Hl Heq; destruct l; cbn [power_of layer_value] in *;
    first [lia | critical_by_test | exfalso; lra] ].

Lemma integrated_leap_detection_dominant (self : SSDCoreEngineV5) (st : SSDStateV5)
  (w : Powers.t) :
  let r := _integrated_leap_detection self st w in
  ((forall l, ~ critical_in self st w l) ->
   LeapResult.dominant_layer r = "NONE"%string
   /\ LeapResult.leap_type r = "NO_LEAP"%string)
  /\ ((exists l, critical_in self st w l) ->
      exists d : SSDLayer,
        LeapResult.dominant_layer r = layer_str d
        /\ LeapResult.leap_type r = String.append "LEAP_" (layer_str d)
        /\ critical_in self st w d
        /\ (forall l, critical_in self st w l -> power_of l w <= power_of d w)
        /\ (forall l, critical_in self st w l -> power_of l w = power_of d w ->
            (layer_value d <= layer_value l)%nat))
  /\ (forall l, detected_critical l r = true <-> critical_in self st w l).
Proof.
  assert (HP : critical_in self st w PHYSICAL
               <-> Py.ltb (E_physical st)
                     (_compute_dynamic_theta self "PHYSICAL" (Theta_physical (params self))
                        (total_power (Powers.PHYSICAL w)) (kappa_physical st)
                        (R_values PHYSICAL)) = true)
    by (symmetry; apply ltb_true_iff).
  assert (HB : critical_in self st w BASE
               <-> Py.ltb (E_base st)
                     (_compute_dynamic_theta self "BASE" (Theta_base (params self))
                        (total_power (Powers.BASE w)) (kappa_base st)
                        (R_values BASE)) = true)
    by (symmetry; apply ltb_true_iff).
  assert (HC : critical_in self st w CORE
               <-> Py.ltb (E_core st)
                     (_compute_dynamic_theta self "CORE" (Theta_core (params self))
                        (total_power (Powers.CORE w)) (kappa_core st)
                        (R_values CORE)) = true)
    by (symmetry; apply ltb_true_iff).
  assert (HU : critical_in self st w UPPER
               <-> Py.ltb (E_upper st)
                     (_compute_dynamic_theta self "UPPER" (Theta_upper (params self))
                        (total_power (Powers.UPPER w)) (kappa_upper st)
                        (R_values UPPER)) = true)
    by (symmetry; apply ltb_true_iff).
  unfold _integrated_leap_detection, critical_layers_of; cbv zeta.
  revert HP HB HC HU.
  set (wP := total_power (Powers.PHYSICAL w)).
  set (wB := total_power (Powers.BASE w)).
  set (wC := total_power (Powers.CORE w)).
  set (wU := total_power (Powers.UPPER w)).
  destruct (Py.ltb (E_physical st) _); destruct (Py.ltb (E_base st) _);
    destruct (Py.ltb (E_core st) _); destruct (Py.ltb (E_upper st) _);
    intros HP HB HC HU;
    cbn [app Py.max_by Py.max_by_from fst snd];
    repeat (match goal with
            | |- context [Py.ltb ?a ?b] =>
                is_var a; is_var b;
                let H := fresh "Hcmp" in
                destruct (Py.ltb a b) eqn:H;
                [apply ltb_true_iff in H | apply ltb_false_iff in H]
            end; cbn [fst snd]);
    cbn [LeapResult.dominant_layer LeapResult.leap_type fst];
    subst wP wB wC wU;
    (split; [|split];
     [ intros Hnone;
       first [ split; reflexivity
             | exfalso;
               first [ apply (Hnone PHYSICAL); critical_by_test
                     | apply (Hnone BASE); critical_by_test
                     | apply (Hnone CORE); critical_by_test
                     | apply (Hnone UPPER); critical_by_test ] ]
     | intros Hsome;
       first [ destruct Hsome as [l Hl]; destruct l; critical_by_test
             | first [ dominant_is PHYSICAL | dominant_is BASE
                     | dominant_is CORE | dominant_is UPPER ] ]
     | intros l; destruct l;
       cbv [detected_critical LeapResult.is_critical_physical
            LeapResult.is_critical_base LeapResult.is_critical_core
            LeapResult.is_critical_upper Py.contains existsb fst orb
            String.eqb Ascii.eqb Bool.eqb];
       split; intros Hl; first [reflexivity | critical_by_test | discriminate Hl] ]).
Qed.

(** *** The quiet tick of the default engine, evaluated

    With no pressure every structural power is zero and every dynamic
    threshold equals the static one; from [E_base = 120] and the other
    layers empty, all four layers are critical. *)

Lemma quiet_tick_powers (st : SSDStateV5) (l : SSDLayer) :
  power_of l (_calculate_structural_powers engine_default st zero3 zero3 zero3 zero3) = 0.
Proof.
  rewrite structural_power_value.
  replace (pressure_of l zero3 zero3 zero3 zero3) with zero3 by (destruct l; reflexivity).
  unfold zero3. rewrite norm_zeros. ring.
Qed.

Lemma dynamic_theta_without_power (self : SSDCoreEngineV5) (name : string)
  (base_theta kappa R0 : R) :
  0 <= base_theta ->
  _compute_dynamic_theta self name base_theta 0 kappa R0 = base_theta.
Proof.
  intros Hb. unfold _compute_dynamic_theta, Py.max, Py.min, Py.ltb; cbv zeta.
  replace (0 / (kappa * R0 + 1.0)) with 0 by (unfold Rdiv; ring).
  destruct (Rlt_dec 0 1.0); [|lra].
  destruct (Rlt_dec (base_theta * 0.3) (base_theta * (1.0 - _ * 0))); nra.
Qed.

Lemma quiet_tick_all_critical (kp kb kc ku : R) (l : SSDLayer) :
  critical_in engine_default (with_kappa state_base_120 kp kb kc ku)
    (_calculate_structural_powers engine_default (with_kappa state_base_120 kp kb kc ku)
       zero3 zero3 zero3 zero3) l.
Proof.
  unfold critical_in. rewrite quiet_tick_powers.
  rewrite dynamic_theta_without_power by (destruct l; cbn; lra).
  destruct l; cbn; lra.
Qed.

Lemma quiet_tick_detection (kp kb kc ku : R) :
  _integrated_leap_detection engine_default (with_kappa state_base_120 kp kb kc ku)
    (_calculate_structural_powers engine_default (with_kappa state_base_120 kp kb kc ku)
       zero3 zero3 zero3 zero3)
  = {| LeapResult.is_critical_physical := true;
       LeapResult.is_critical_base := true;
       LeapResult.is_critical_core := true;
       LeapResult.is_critical_upper := true;
       LeapResult.dominant_layer := "PHYSICAL";
       LeapResult.leap_type := "LEAP_PHYSICAL" |}.
Proof.
  set (st := with_kappa state_base_120 kp kb kc ku).
  set (w := _calculate_structural_powers engine_default st zero3 zero3 zero3 zero3).
  pose proof (quiet_tick_all_critical kp kb kc ku PHYSICAL) as CP.
  pose proof (quiet_tick_all_critical kp kb kc ku BASE) as CB.
  pose proof (quiet_tick_all_critical kp kb kc ku CORE) as CC.
  pose proof (quiet_tick_all_critical kp kb kc ku UPPER) as CU.
  fold st w in CP, CB, CC, CU.
  apply ltb_true_iff in CP, CB, CC, CU.
  cbn [E_of layer_str Theta_of power_of kappa_of] in CP, CB, CC, CU.
  pose proof (quiet_tick_powers st PHYSICAL) as WP.
  pose proof (quiet_tick_powers st BASE) as WB.
  pose proof (quiet_tick_powers st CORE) as WC.
  pose proof (quiet_tick_powers st UPPER) as WU.
  fold w in WP, WB, WC, WU. cbn [power_of] in WP, WB, WC, WU.
  unfold _integrated_leap_detection, critical_layers_of; cbv zeta.
  rewrite CP, CB, CC, CU.
  cbn [app Py.max_by Py.max_by_from fst snd].
  rewrite WP, WB, WC, WU.
  assert (H00 : Py.ltb 0 0 = false) by (apply ltb_false_iff; lra).
  repeat (cbn [fst snd]; rewrite H00). reflexivity.
Qed.

(** In integrated mode the worked scenario of the legacy mode comes out
    differently: PHYSICAL wins the tie for the dominant layer and BASE, being
    critical but not dominant, is amplified by [1 + 15 * 0.5] only. *)
Example integrated_scenario_in_numbers :
  dominant_leap_layer (after_quiet_tick engine_default state_base_120)
  = "PHYSICAL"%string
  /\ conversion_base2d (after_quiet_tick engine_default state_base_120) = 81.6.
Proof.
  set (s' := after_quiet_tick engine_default state_base_120).
  destruct (step_leap_integrated engine_default state_base_120 zero3 zero3 zero3 zero3
              None None None 1 eq_refl) as (Hdom & _).
  destruct (step_conversion_integrated engine_default state_base_120 zero3 zero3 zero3
              zero3 None None None 1 eq_refl) as (_ & Hconv & _).
  fold (after_quiet_tick engine_default state_base_120) in Hdom, Hconv.
  fold s' in Hdom, Hconv. unfold state_at_leap in Hdom, Hconv.
  rewrite quiet_tick_detection in Hdom, Hconv.
  split; [exact Hdom|].
  rewrite Hconv. unfold _compute_dynamic_gamma.
  cbn [LeapResult.leap_type LeapResult.dominant_layer LeapResult.is_critical_base
       LeapResult.is_critical_physical LeapResult.is_critical_core
       LeapResult.is_critical_upper String.eqb Ascii.eqb Bool.eqb andb negb
       fst snd engine_default __init__ params SSDParametersV5_default gamma_base2d
       phase_transition_multiplier_base state_base_120 SSDStateV5_init E_base].
  lra.
Qed.

(** C6.  In integrated leap-detection mode, a layer is critical when its
    energy (as it is before the tick's energy update) is below its dynamic
    threshold.  Whenever some layer is critical, the dominant layer recorded
    by [step] is a critical layer whose structural power
    [|p| * E * kappa * R] is maximal among the critical layers and, among
    critical layers of equal power, the first in the order PHYSICAL, BASE,
    CORE, UPPER; the leap type is ["LEAP_"] followed by its name.  Whenever no
    layer is critical, the dominant layer is ["NONE"] and the leap type
    ["NO_LEAP"].  The critical flags recorded in the state are exactly the
    critical layers. *)
Theorem integrated_dominant_layer :
  forall (self : SSDCoreEngineV5) (state : SSDStateV5)
         (p_physical p_base p_core p_upper : Np.ndarray)
         (F_direct : option Np.ndarray)
         (other_states : option (list SSDStateV5)) (relationships : option (list R))
         (dt : R),
    use_integrated_leap_detection (params self) = true ->
    let s' :=
      snd (step self state p_physical p_base p_core p_upper F_direct other_states
             relationships dt) in
    let st := state_at_leap state s' in
    let w := _calculate_structural_powers self st p_physical p_base p_core p_upper in
    (forall l,
        power_of l w
        = Np.norm (pressure_of l p_physical p_base p_core p_upper)
          * E_of l state * kappa_of l s' * R_values l)
    /\ ((forall l, ~ critical_in self st w l) ->
        dominant_leap_layer s' = "NONE"%string /\ leap_type s' = "NO_LEAP"%string)
    /\ ((exists l, critical_in self st w l) ->
        exists d : SSDLayer,
          dominant_leap_layer s' = layer_str d
          /\ leap_type s' = String.append "LEAP_" (layer_str d)
          /\ critical_in self st w d
          /\ (forall l, critical_in self st w l -> power_of l w <= power_of d w)
          /\ (forall l, critical_in self st w l -> power_of l w = power_of d w ->
              (layer_value d <= layer_value l)%nat))
    /\ (forall l, is_critical_of l s' = true <-> critical_in self st w l).
Proof.
  intros self state pp pb pc pu F os rs dt Hmode s' st w.
  destruct (step_leap_integrated self state pp pb pc pu F os rs dt Hmode)
    as (Hdom & Hleap & Hfp & Hfb & Hfc & Hfu).
  fold s' st w in Hdom, Hleap, Hfp, Hfb, Hfc, Hfu.
  destruct (integrated_leap_detection_dominant self st w) as (Hnone & Hsome & Hflag).
  split; [|split; [|split]].
  - intros l. unfold w. rewrite structural_power_value. destruct l; reflexivity.
  - intros H. rewrite Hdom, Hleap. apply Hnone. exact H.
  - intros H. rewrite Hdom, Hleap. apply Hsome. exact H.
  - intros l. rewrite <- Hflag.
    destruct l; cbn [is_critical_of detected_critical];
      [rewrite Hfp | rewrite Hfb | rewrite Hfc | rewrite Hfu]; reflexivity.
Qed.

(** A quiet tick of the default engine: every layer is critical with
    structural power zero, so the tie goes to PHYSICAL. *)
Lemma integrated_dominant_layer_witness :
  use_integrated_leap_detection (params engine_default) = true
  /\ (exists l,
        critical_in engine_default
          (state_at_leap state_base_120 (after_quiet_tick engine_default state_base_120))
          (_calculate_structural_powers engine_default
             (state_at_leap state_base_120
                (after_quiet_tick engine_default state_base_120))
             zero3 zero3 zero3 zero3) l)
  /\ dominant_leap_layer (after_quiet_tick engine_default state_base_120)
     = "PHYSICAL"%string.
Proof.
  pose proof (integrated_dominant_layer engine_default state_base_120 zero3 zero3 zero3
                zero3 None None None 1 eq_refl) as H.
  cbv zeta in H. fold (after_quiet_tick engine_default state_base_120) in H.
  destruct H as (_ & _ & Hsome & _).
  set (s' := after_quiet_tick engine_default state_base_120) in *.
  assert (Hcrit := quiet_tick_all_critical (kappa_physical s') (kappa_base s')
                     (kappa_core s') (kappa_upper s') PHYSICAL).
  fold (state_at_leap state_base_120 s') in Hcrit.
  split; [reflexivity|]. split; [exists PHYSICAL; exact Hcrit|].
  destruct (Hsome (ex_intro _ PHYSICAL Hcrit)) as (d & Hdom & _ & _ & _ & Htie).
  assert (Hd : (layer_value d <= layer_value PHYSICAL)%nat).
  { apply Htie; [exact Hcrit|]. rewrite !quiet_tick_powers. reflexivity. }
  rewrite Hdom. destruct d; cbn [layer_value] in Hd; [reflexivity | lia | lia | lia].
Defined.

(** ** The stochastic leap *)

Section HazardProperties.

Import WerewolfGameV3.

Variables (h0 gamma dt : R).
Hypotheses (Hgamma : 0 < gamma) (Hh0 : 0 < h0) (Hdt : 0 < dt).

Lemma hazard_positive (Theta E : R) : 0 < hazard h0 gamma Theta E.
Proof.
  unfold hazard; destruct (Py.ltb E Theta); [|exact Hh0].
  cbv zeta. apply Rmult_lt_0_compat; [exact Hh0 | apply exp_pos].
Qed.

Lemma hazard_at_threshold (Theta : R) : hazard h0 gamma Theta Theta = h0.
Proof.
  unfold hazard.
  assert (H : Py.ltb Theta Theta = false) by (apply ltb_false_iff; lra).
  rewrite H. reflexivity.
Qed.

Lemma hazard_below_threshold (Theta E : R) :
  E < Theta -> hazard h0 gamma Theta E = h0 * exp ((Theta - E) / gamma).
Proof.
  intros HE; unfold hazard.
  assert (H : Py.ltb E Theta = true) by (apply ltb_true_iff; exact HE).
  rewrite H. reflexivity.
Qed.

Lemma hazard_above_threshold (Theta E : R) :
  Theta <= E -> hazard h0 gamma Theta E = h0.
Proof.
  intros HE; unfold hazard.
  assert (H : Py.ltb E Theta = false) by (apply ltb_false_iff; exact HE).
  rewrite H. reflexivity.
Qed.

(** A larger firing intensity gives a larger jump probability. *)
Lemma one_minus_exp_increasing (a b : R) :
  a < b -> 1.0 - exp (- a * dt) < 1.0 - exp (- b * dt).
Proof.
  intros Hab.
  assert (H : exp (- b * dt) < exp (- a * dt)) by (apply exp_increasing; nra).
  lra.
Qed.

(** For [x >= 0], [x - x^2 <= 1 - exp (-x) <= x]. *)
Lemma one_minus_exp_bounds (x : R) :
  0 <= x -> x - x * x <= 1.0 - exp (- x) <= x.
Proof.
  intros Hx.
  pose proof (exp_ineq1_le (- x)) as Hlow.
  pose proof (exp_ineq1_le x) as Hup.
  pose proof (exp_pos x) as Hpos.
  assert (Hinv : exp (- x) * exp x = 1)
    by (rewrite <- exp_plus; replace (- x + x) with 0 by ring; apply exp_0).
  pose proof (exp_pos (- x)) as Hposn.
  split; [|lra].
  assert (Hle : exp (- x) * (1 + x) <= 1) by nra.
  nra.
Qed.

End HazardProperties.

(** C7.  With a positive sensitivity [gamma], base rate [h0] and tick
    length [dt], the jump probability of the tick is [1 - exp (-h * dt)]
    where [h = h0 * exp ((Theta - E) / gamma)] below the threshold and
    [h = h0] at or above it; it is strictly positive for every energy; just
    below the threshold, at [E = Theta - eps] with [eps > 0], it is strictly
    greater than at [E = Theta], where it equals [1 - exp (-h0 * dt)], a
    value between [h0 * dt - (h0 * dt)^2] and [h0 * dt]. *)
Theorem jump_probability_properties :
  forall (h0 gamma dt Theta E eps : R),
    0 < gamma -> 0 < h0 -> 0 < dt -> 0 < eps ->
    let P := WerewolfGameV3.jump_probability h0 gamma dt Theta in
    (E < Theta -> P E = 1 - exp (- (h0 * exp ((Theta - E) / gamma)) * dt))
    /\ (Theta <= E -> P E = 1 - exp (- h0 * dt))
    /\ 0 < P E
    /\ P Theta < P (Theta - eps)
    /\ P Theta = 1 - exp (- h0 * dt)
    /\ h0 * dt - (h0 * dt) * (h0 * dt) <= P Theta <= h0 * dt.
Proof.
  intros h0 gamma dt Theta E eps Hgamma Hh0 Hdt Heps P.
  unfold P, WerewolfGameV3.jump_probability.
  assert (Hone : 1.0 = 1) by lra.
  split; [|split; [|split; [|split; [|split]]]].
  - intros HE. rewrite hazard_below_threshold by exact HE. rewrite Hone. reflexivity.
  - intros HE. rewrite hazard_above_threshold by exact HE. rewrite Hone. reflexivity.
  - pose proof (hazard_positive h0 gamma Hh0 Theta E) as Hpos.
    assert (H : exp (- WerewolfGameV3.hazard h0 gamma Theta E * dt) < exp 0)
      by (apply exp_increasing; nra).
    rewrite exp_0 in H. lra.
  - apply one_minus_exp_increasing; [exact Hdt|].
    rewrite hazard_at_threshold, hazard_below_threshold by lra.
    replace (Theta - (Theta - eps)) with eps by ring.
    assert (H : exp 0 < exp (eps / gamma)).
    { apply exp_increasing. apply Rdiv_lt_0_compat; assumption. }
    rewrite exp_0 in H. nra.
  - rewrite hazard_at_threshold, Hone. reflexivity.
  - rewrite hazard_at_threshold.
    replace (- h0 * dt) with (- (h0 * dt)) by ring.
    apply one_minus_exp_bounds. nra.
Qed.

(** The constants of [check_probabilistic_jump], at a threshold of 100. *)
Lemma jump_probability_properties_witness :
  (0 < 50.0 /\ 0 < 0.01 /\ 0 < 0.1 /\ 0 < 10)
  /\ 0 < WerewolfGameV3.jump_probability 0.01 50.0 0.1 100 90
  /\ WerewolfGameV3.jump_probability 0.01 50.0 0.1 100 100
     < WerewolfGameV3.jump_probability 0.01 50.0 0.1 100 (100 - 10).
Proof.
  assert (Hgamma : 0 < 50.0) by lra.
  assert (Hh0 : 0 < 0.01) by lra.
  assert (Hdt : 0 < 0.1) by lra.
  assert (Heps : 0 < 10) by lra.
  split; [repeat split; assumption|].
  pose proof (jump_probability_properties 0.01 50.0 0.1 100 90 10 Hgamma Hh0 Hdt Heps)
    as H.
  cbv zeta in H.
  split; [exact (proj1 (proj2 (proj2 H))) | exact (proj1 (proj2 (proj2 (proj2 H))))].
Defined.

(** ** What a step changes on the engine *)

(** The helper methods read the engine only through its parameters. *)
Lemma helpers_depend_on_params (self other : SSDCoreEngineV5) :
  params other = params self ->
  _compute_social_coupling other = _compute_social_coupling self
  /\ _calculate_structural_powers other = _calculate_structural_powers self
  /\ _integrated_leap_detection other = _integrated_leap_detection self
  /\ _compute_dynamic_gamma other = _compute_dynamic_gamma self
  /\ _legacy_phase_transition other = _legacy_phase_transition self
  /\ _compute_interlayer_transfers other = _compute_interlayer_transfers self.
Proof.
  intros Hparams.
  destruct self as [P t1 t2 t3 t4 t5 t6 t7 t8 t9 t10 t11 t12 tm].
  destruct other as [P' u1 u2 u3 u4 u5 u6 u7 u8 u9 u10 u11 u12 um].
  cbn [params] in Hparams. subst P'.
  repeat split; reflexivity.
Qed.

(** The new state is computed from the parameters alone: the running totals
    of the engine do not influence it. *)
Lemma step_state_depends_on_params :
  forall (self other : SSDCoreEngineV5) (state : SSDStateV5)
         (p_physical p_base p_core p_upper : Np.ndarray)
         (F_direct : option Np.ndarray)
         (other_states : option (list SSDStateV5)) (relationships : option (list R))
         (dt : R),
    params other = params self ->
    snd (step other state p_physical p_base p_core p_upper F_direct other_states
           relationships dt)
    = snd (step self state p_physical p_base p_core p_upper F_direct other_states
             relationships dt).
Proof.
  intros self other state pp pb pc pu F os rs dt Hparams.
  destruct (helpers_depend_on_params self other Hparams)
    as (H1 & H2 & H3 & H4 & H5 & H6).
  cbv beta delta [step].
  rewrite Hparams, H1, H2, H3, H4, H5, H6.
  reflexivity.
Qed.

(** C8 (as amended).  [step] is a deterministic function of the engine, the
    state, the pressures, the force, the other agents, the relationships
    and [dt]; the engine owns no random generator and [step] draws no random
    number.  Besides updating the state, a call changes engine-owned data:
    it advances [time] by [dt] and adds to each of the twelve running totals
    the tick's conversion or decay times [dt].  The parameters are left as
    they are, and the new state does not depend on the totals or on
    [time]. *)
Theorem step_engine_effects :
  forall (self : SSDCoreEngineV5) (state : SSDStateV5)
         (p_physical p_base p_core p_upper : Np.ndarray)
         (F_direct : option Np.ndarray)
         (other_states : option (list SSDStateV5)) (relationships : option (list R))
         (dt : R),
    let r :=
      step self state p_physical p_base p_core p_upper F_direct other_states
        relationships dt in
    let self' := fst r in
    let s' := snd r in
    params self' = params self
    /\ time self' = time self + dt
    /\ total_conversion_physical2d self'
       = total_conversion_physical2d self + conversion_physical2d s' * dt
    /\ total_conversion_base2d self'
       = total_conversion_base2d self + conversion_base2d s' * dt
    /\ total_conversion_core2d self'
       = total_conversion_core2d self + conversion_core2d s' * dt
    /\ total_conversion_upper2d self'
       = total_conversion_upper2d self + conversion_upper2d s' * dt
    /\ total_conversion_d2physical self'
       = total_conversion_d2physical self + conversion_d2physical s' * dt
    /\ total_conversion_d2base self'
       = total_conversion_d2base self + conversion_d2base s' * dt
    /\ total_conversion_d2core self'
       = total_conversion_d2core self + conversion_d2core s' * dt
    /\ total_conversion_d2upper self'
       = total_conversion_d2upper self + conversion_d2upper s' * dt
    /\ total_decay_physical self'
       = total_decay_physical self + beta_physical (params self) * E_physical state * dt
    /\ total_decay_base self'
       = total_decay_base self + beta_base (params self) * E_base state * dt
    /\ total_decay_core self'
       = total_decay_core self + beta_core (params self) * E_core state * dt
    /\ total_decay_upper self'
       = total_decay_upper self + beta_upper (params self) * E_upper state * dt
    /\ (forall other : SSDCoreEngineV5,
          params other = params self ->
          snd (step other state p_physical p_base p_core p_upper F_direct other_states
                 relationships dt) = s').
Proof.
  intros self state pp pb pc pu F os rs dt r self' s'.
  do 14 (split; [reflexivity|]).
  intros other Hparams. apply step_state_depends_on_params. exact Hparams.
Qed.

(** Stepping the same state with a fresh engine and with an engine that
    has already run one tick (same parameters, different totals and clock)
    gives the same new state. *)
Lemma step_engine_effects_witness :
  params (fst (step engine_legacy state_base_120 zero3 zero3 zero3 zero3
                 None None None 1))
  = params engine_legacy
  /\ snd (step (fst (step engine_legacy state_base_120 zero3 zero3 zero3 zero3
                       None None None 1))
            state_base_120 zero3 zero3 zero3 zero3 None None None 1)
     = snd (step engine_legacy state_base_120 zero3 zero3 zero3 zero3 None None None 1).
Proof.
  assert (Hparams :
    params (fst (step engine_legacy state_base_120 zero3 zero3 zero3 zero3
                   None None None 1))
    = params engine_legacy) by reflexivity.
  split; [exact Hparams|].
  exact (proj2 (proj2 (proj2 (proj2 (proj2 (proj2 (proj2 (proj2 (proj2 (proj2 (proj2
           (proj2 (proj2 (proj2
           (step_engine_effects engine_legacy state_base_120 zero3 zero3 zero3 zero3
              None None None 1))))))))))))))
           (fst (step engine_legacy state_base_120 zero3 zero3 zero3 zero3
                   None None None 1))
           Hparams).
Defined.

(** C8, the claim as stated fails: one quiet tick of length 1 on a fresh
    engine changes the engine itself (its clock moves from 0 to 1, and the
    BASE decay total from 0 to [0.005 * 120]), although no random generator
    exists to be advanced. *)
Lemma engine_mutation_counterexample :
  time (fst (step engine_default state_base_120 zero3 zero3 zero3 zero3
               None None None 1)) = 1
  /\ total_decay_base (fst (step engine_default state_base_120 zero3 zero3 zero3 zero3
                              None None None 1)) = 0.6
  /\ fst (step engine_default state_base_120 zero3 zero3 zero3 zero3 None None None 1)
     <> engine_default.
Proof.
  assert (Ht : time (fst (step engine_default state_base_120 zero3 zero3 zero3 zero3
                            None None None 1)) = 1).
  { cbv beta delta [step]. cbn [fst time engine_default __init__]. lra. }
  repeat split; [exact Ht | |].
  - cbv beta delta [step].
    cbn [fst total_decay_base engine_default __init__ params SSDParametersV5_default
         beta_base E_base with_kappa state_base_120 SSDStateV5_init]. lra.
  - intros Heq. rewrite Heq in Ht. cbn [time engine_default __init__] in Ht. lra.
Qed.

(** ** Social coupling in the neutral band *)

Lemma combine_app_same_length {A B : Type} (l1 l2 : list A) (r1 r2 : list B) :
  List.length l1 = List.length r1 ->
  combine (l1 ++ l2) (r1 ++ r2) = combine l1 r1 ++ combine l2 r2.
Proof.
  revert r1; induction l1 as [|x l1 IH]; intros [|y r1] Hlen;
    try discriminate Hlen; [reflexivity|].
  cbn [app combine]. f_equal. apply IH. injection Hlen as Hlen. exact Hlen.
Qed.

(** A pairing in the neutral band leaves all eight accumulated entries as
    they are. *)
Lemma couple_one_neutral (self : SSDCoreEngineV5) (state other : SSDStateV5)
  (relation : R) (coupling : Coupling) :
  neutral (params self) relation ->
  couple_one self state coupling (other, relation) = coupling.
Proof.
  intros [Hle Hge]; unfold couple_one, Py.gtb.
  assert (H1 : Py.ltb (cooperation_threshold (params self)) relation = false)
    by (apply ltb_false_iff; lra).
  assert (H2 : Py.ltb relation (- cooperation_threshold (params self)) = false)
    by (apply ltb_false_iff; lra).
  rewrite H1, H2. reflexivity.
Qed.

Lemma couple_all_neutral (self : SSDCoreEngineV5) (state : SSDStateV5)
  (others : list SSDStateV5) (rels : list R) (coupling : Coupling) :
  Forall (neutral (params self)) rels ->
  fold_left (couple_one self state) (combine others rels) coupling = coupling.
Proof.
  revert rels coupling; induction others as [|o others IH];
    intros rels coupling Hall; [reflexivity|].
  destruct rels as [|r rels]; [reflexivity|].
  inversion Hall as [|? ? Hr Hrest]; subst.
  cbn [combine fold_left]. rewrite couple_one_neutral by exact Hr.
  apply IH. exact Hrest.
Qed.

Lemma social_coupling_drop_neutral (self : SSDCoreEngineV5) (state : SSDStateV5)
  (os1 os2 : list SSDStateV5) (rs1 rs2 : list R) (other : SSDStateV5) (relation : R) :
  List.length os1 = List.length rs1 ->
  neutral (params self) relation ->
  _compute_social_coupling self state (os1 ++ other :: os2) (rs1 ++ relation :: rs2)
  = _compute_social_coupling self state (os1 ++ os2) (rs1 ++ rs2).
Proof.
  intros Hlen Hneutral; unfold _compute_social_coupling.
  destruct (enable_social_coupling (params self)); [|reflexivity].
  cbn [negb orb].
  assert (Hfold :
    fold_left (couple_one self state)
      (combine (os1 ++ other :: os2) (rs1 ++ relation :: rs2)) no_coupling
    = fold_left (couple_one self state) (combine (os1 ++ os2) (rs1 ++ rs2)) no_coupling).
  { rewrite !combine_app_same_length by exact Hlen.
    rewrite !fold_left_app. cbn [combine fold_left].
    rewrite couple_one_neutral by exact Hneutral. reflexivity. }
  assert (Hnonempty : Nat.eqb (List.length (os1 ++ other :: os2)) 0 = false)
    by (rewrite length_app; cbn [List.length]; rewrite Nat.add_succ_r; reflexivity).
  rewrite Hnonempty, Hfold.
  destruct (Nat.eqb (List.length (os1 ++ os2)) 0) eqn:Hempty; [|reflexivity].
  apply Nat.eqb_eq in Hempty. apply length_zero_iff_nil in Hempty.
  rewrite Hempty. reflexivity.
Qed.

Lemma no_coupling_entries (l : SSDLayer) :
  coupling_energy_of l no_coupling = 0 /\ coupling_kappa_of l no_coupling = 0.
Proof. destruct l; cbn; split; lra. Qed.

Lemma social_coupling_all_neutral (self : SSDCoreEngineV5) (state : SSDStateV5)
  (others : list SSDStateV5) (rels : list R) :
  Forall (neutral (params self)) rels ->
  _compute_social_coupling self state others rels = no_coupling.
Proof.
  intros Hall; unfold _compute_social_coupling.
  destruct (negb (enable_social_coupling (params self))
            || Nat.eqb (List.length others) 0); [reflexivity|].
  apply couple_all_neutral. exact Hall.
Qed.

(** C9.  A pairing whose relationship lies in the neutral band
    ([-cooperation_threshold <= relation <= cooperation_threshold]) adds
    exactly nothing to any of the eight coupling entries (energy and inertia
    of each layer): the loop body returns the accumulator unchanged, and
    removing the pairing from the lists does not change the result of
    [_compute_social_coupling].  When every relationship is neutral, and in
    particular when the list of other agents is empty, the coupling is zero
    for the energy and the inertia of every layer, and so are the coupling
    terms that [step] applies and records. *)
Theorem neutral_pairing_contributes_nothing :
  forall (self : SSDCoreEngineV5) (state other : SSDStateV5) (relation : R),
    neutral (params self) relation ->
    (forall coupling : Coupling,
        couple_one self state coupling (other, relation) = coupling)
    /\ (forall (os1 os2 : list SSDStateV5) (rs1 rs2 : list R),
          List.length os1 = List.length rs1 ->
          _compute_social_coupling self state (os1 ++ other :: os2)
            (rs1 ++ relation :: rs2)
          = _compute_social_coupling self state (os1 ++ os2) (rs1 ++ rs2))
    /\ (forall (others : list SSDStateV5) (rels : list R) (l : SSDLayer),
          others = [] \/ Forall (neutral (params self)) rels ->
          coupling_energy_of l (_compute_social_coupling self state others rels) = 0
          /\ coupling_kappa_of l (_compute_social_coupling self state others rels) = 0)
    /\ (forall (p_physical p_base p_core p_upper : Np.ndarray)
               (F_direct : option Np.ndarray) (others : list SSDStateV5)
               (rels : list R) (dt : R) (l : SSDLayer),
          others = [] \/ Forall (neutral (params self)) rels ->
          let s' :=
            snd (step self state p_physical p_base p_core p_upper F_direct
                   (Some others) (Some rels) dt) in
          social_coupling_of l s' = 0
          /\ kappa_coupling_of l s' = 0
          /\ kappa_social_term self l state p_physical p_base p_core p_upper
               (Some others) (Some rels) dt = 0).
Proof.
  intros self state other relation Hneutral.
  assert (Hzero : forall (st : SSDStateV5) (others : list SSDStateV5) (rels : list R),
             others = [] \/ Forall (neutral (params self)) rels ->
             _compute_social_coupling self st others rels = no_coupling).
  { intros st others rels [-> | Hall].
    - unfold _compute_social_coupling. cbn [List.length Nat.eqb].
      rewrite orb_true_r. reflexivity.
    - apply social_coupling_all_neutral. exact Hall. }
  split; [|split; [|split]].
  - intros coupling. apply couple_one_neutral. exact Hneutral.
  - intros os1 os2 rs1 rs2 Hlen. apply social_coupling_drop_neutral; assumption.
  - intros others rels l H. rewrite (Hzero state others rels H).
    apply no_coupling_entries.
  - intros pp pb pc pu F others rels dt l H s'.
    destruct (no_coupling_entries l) as [He Hk].
    split; [|split].
    + unfold s'. destruct l; cbv beta delta [step];
        cbn [snd social_coupling_of social_coupling_physical social_coupling_base
             social_coupling_core social_coupling_upper];
        rewrite Hzero by exact H; exact He.
    + unfold s'. destruct l; cbv beta delta [step];
        cbn [snd kappa_coupling_of kappa_coupling_physical kappa_coupling_base
             kappa_coupling_core kappa_coupling_upper];
        rewrite Hzero by exact H; exact Hk.
    + unfold kappa_social_term. rewrite Hzero by exact H. rewrite Hk. ring.
Qed.

Lemma neutral_pairing_contributes_nothing_witness :
  neutral (params engine_default) 0
  /\ couple_one engine_default state_base_120 no_coupling (state_inertia_two, 0)
     = no_coupling.
Proof.
  assert (Hneutral : neutral (params engine_default) 0)
    by (unfold neutral; cbn; lra).
  split; [exact Hneutral|].
  exact (proj1 (neutral_pairing_contributes_nothing engine_default state_base_120
                  state_inertia_two 0 Hneutral) no_coupling).
Defined.

(** ** The direct pool *)

(** A conversion rate that is zero in the parameters stays zero whatever
    amplification the leap mode applies to it. *)
Lemma dynamic_gamma_zero_rate (self : SSDCoreEngineV5) (r : LeapResult.t)
  (st : SSDStateV5) :
  let g := _compute_dynamic_gamma self r st in
  (gamma_physical2d (params self) = 0 -> fst (fst (fst g)) = 0)
  /\ (gamma_base2d (params self) = 0 -> snd (fst (fst g)) = 0)
  /\ (gamma_core2d (params self) = 0 -> snd (fst g) = 0)
  /\ (gamma_upper2d (params self) = 0 -> snd g = 0).
Proof.
  unfold _compute_dynamic_gamma; cbv zeta.
  destruct (String.eqb (LeapResult.leap_type r) "NO_LEAP"); cbn [fst snd];
    repeat split; intros H; rewrite H;
    repeat match goal with
           | |- context [if ?b then _ else _] => destruct b
           end; ring.
Qed.

Lemma legacy_gamma_zero_rate (self : SSDCoreEngineV5) (st : SSDStateV5) :
  let g := fst (_legacy_phase_transition self st) in
  (gamma_physical2d (params self) = 0 -> fst (fst (fst g)) = 0)
  /\ (gamma_base2d (params self) = 0 -> snd (fst (fst g)) = 0)
  /\ (gamma_core2d (params self) = 0 -> snd (fst g) = 0)
  /\ (gamma_upper2d (params self) = 0 -> snd g = 0).
Proof.
  unfold _legacy_phase_transition; cbv zeta.
  destruct (enable_phase_transition (params self));
    [ destruct (Py.ltb (E_physical st) (Theta_physical (params self)));
      destruct (Py.ltb (E_base st) (Theta_base (params self)));
      destruct (Py.ltb (E_core st) (Theta_core (params self)));
      destruct (Py.ltb (E_upper st) (Theta_upper (params self))) | ];
    cbn [fst snd]; repeat split; intros H; rewrite H; ring.
Qed.

Lemma step_conversion_zero_rate :
  forall (self : SSDCoreEngineV5) (state : SSDStateV5)
         (p_physical p_base p_core p_upper : Np.ndarray)
         (F_direct : option Np.ndarray)
         (other_states : option (list SSDStateV5)) (relationships : option (list R))
         (dt : R),
    let s' :=
      snd (step self state p_physical p_base p_core p_upper F_direct other_states
             relationships dt) in
    (gamma_physical2d (params self) = 0 -> conversion_physical2d s' = 0)
    /\ (gamma_base2d (params self) = 0 -> conversion_base2d s' = 0)
    /\ (gamma_core2d (params self) = 0 -> conversion_core2d s' = 0)
    /\ (gamma_upper2d (params self) = 0 -> conversion_upper2d s' = 0).
Proof.
  intros self state pp pb pc pu F os rs dt s'.
  unfold s'; cbv beta delta [step];
    cbn [snd conversion_physical2d conversion_base2d conversion_core2d
         conversion_upper2d].
  destruct (use_integrated_leap_detection (params self)); cbv zeta; cbn [fst snd].
  - match goal with
    | |- context [_compute_dynamic_gamma self ?r ?st] =>
        destruct (dynamic_gamma_zero_rate self r st) as (H1 & H2 & H3 & H4)
    end.
    repeat split; intros H;
      [rewrite (H1 H) | rewrite (H2 H) | rewrite (H3 H) | rewrite (H4 H)]; ring.
  - match goal with
    | |- context [_legacy_phase_transition self ?st] =>
        destruct (legacy_gamma_zero_rate self st) as (H1 & H2 & H3 & H4)
    end.
    repeat split; intros H;
      [rewrite (H1 H) | rewrite (H2 H) | rewrite (H3 H) | rewrite (H4 H)]; ring.
Qed.

(** C10.  In every call to [step] the change of [E_direct] before the clamp
    is the direct production ([alpha_d * |F_direct|], or nothing when no
    force is given) plus the four conversions from the layers minus the four
    conversions to the layers: no decay, transfer or coupling term enters.
    Hence without a force and with the eight conversion coefficients at
    zero the flow is zero and [step] leaves [E_direct] as it is, up to the
    clamp at zero. *)
Theorem direct_pool_balance :
  forall (self : SSDCoreEngineV5) (state : SSDStateV5)
         (p_physical p_base p_core p_upper : Np.ndarray)
         (F_direct : option Np.ndarray)
         (other_states : option (list SSDStateV5)) (relationships : option (list R))
         (dt : R),
    let P := params self in
    let s' :=
      snd (step self state p_physical p_base p_core p_upper F_direct other_states
             relationships dt) in
    E_direct_flow s'
    = match F_direct with
      | Some F => alpha_d P * Np.norm F
      | None => 0
      end
      + (conversion_physical2d s' + conversion_base2d s'
         + conversion_core2d s' + conversion_upper2d s')
      - (conversion_d2physical s' + conversion_d2base s'
         + conversion_d2core s' + conversion_d2upper s')
    /\ E_direct s' = Py.max 0.0 (E_direct state + E_direct_flow s' * dt)
    /\ (F_direct = None ->
        gamma_physical2d P = 0 -> gamma_base2d P = 0 ->
        gamma_core2d P = 0 -> gamma_upper2d P = 0 ->
        gamma_d2physical P = 0 -> gamma_d2base P = 0 ->
        gamma_d2core P = 0 -> gamma_d2upper P = 0 ->
        E_direct_flow s' = 0
        /\ E_direct s' = Py.max 0.0 (E_direct state)
        /\ (0 <= E_direct state -> E_direct s' = E_direct state)).
Proof.
  intros self state pp pb pc pu F os rs dt P s'.
  assert (Hflow := step_flow_direct self state pp pb pc pu F os rs dt).
  cbv zeta in Hflow. fold s' P in Hflow.
  assert (HE : E_direct s' = Py.max 0.0 (E_direct state + E_direct_flow s' * dt))
    by reflexivity.
  split; [|split; [exact HE|]].
  - rewrite Hflow. destruct F; lra.
  - intros HF Hp Hb Hc Hu Hdp Hdb Hdc Hdu.
    destruct (step_conversion_zero_rate self state pp pb pc pu F os rs dt)
      as (Cp & Cb & Cc & Cu).
    destruct (step_conversion_from_direct self state pp pb pc pu F os rs dt)
      as (Dp & Db & Dc & Du).
    fold s' P in Cp, Cb, Cc, Cu, Dp, Db, Dc, Du.
    assert (H0 : E_direct_flow s' = 0).
    { rewrite Hflow, HF, (Cp Hp), (Cb Hb), (Cc Hc), (Cu Hu), Dp, Db, Dc, Du,
        Hdp, Hdb, Hdc, Hdu. lra. }
    assert (H1 : E_direct s' = Py.max 0.0 (E_direct state)).
    { rewrite HE, H0. f_equal. ring. }
    repeat split; [exact H0 | exact H1 |].
    intros Hpos. rewrite H1. unfold Py.max, Py.ltb.
    destruct (Rlt_dec 0.0 (E_direct state)); lra.
Qed.

Lemma direct_pool_balance_witness :
  E_direct_flow (after_quiet_tick engine_no_conversion state_direct_7) = 0
  /\ E_direct (after_quiet_tick engine_no_conversion state_direct_7)
     = Py.max 0.0 (E_direct state_direct_7)
  /\ (0 <= E_direct state_direct_7 ->
      E_direct (after_quiet_tick engine_no_conversion state_direct_7)
      = E_direct state_direct_7).
Proof.
  exact (proj2 (proj2
           (direct_pool_balance engine_no_conversion state_direct_7 zero3 zero3 zero3
              zero3 None None None 1))
           eq_refl eq_refl eq_refl eq_refl eq_refl eq_refl eq_refl eq_refl eq_refl).
Defined.

(** * Further properties of the v5 engine *)

(** ** The dynamic threshold *)

Lemma min_one_of_nonneg (f : R) : 0 <= f -> 0 <= Py.min 1.0 f <= 1.
Proof.
  intros Hf; unfold Py.min, Py.ltb; destruct (Rlt_dec f 1.0); lra.
Qed.

Lemma min_one_monotone (f1 f2 : R) : f1 <= f2 -> Py.min 1.0 f1 <= Py.min 1.0 f2.
Proof.
  intros Hf; unfold Py.min, Py.ltb.
  destruct (Rlt_dec f1 1.0), (Rlt_dec f2 1.0); lra.
Qed.

Lemma influence_nonneg (power resistance : R) :
  0 <= power -> 0 < resistance + 1.0 -> 0 <= power / (resistance + 1.0).
Proof.
  intros Hp Hd. unfold Rdiv. apply Rmult_le_pos; [exact Hp|].
  left. apply Rinv_0_lt_compat. exact Hd.
Qed.

(** X1.  For a non-negative static threshold, a non-negative sensitivity and
    a non-negative structural power (with [kappa * R + 1 > 0]), the dynamic
    threshold lies between [0.3 * Theta] and [Theta]; and as long as the
    sensitivity is at most [0.7] the floor never acts, the threshold being
    exactly [Theta * (1 - sensitivity * min(1, power / (kappa * R + 1)))]. *)
Theorem dynamic_theta_bounds :
  forall (self : SSDCoreEngineV5) (layer_name : string)
         (base_theta structural_power kappa R0 : R),
    0 <= base_theta ->
    0 <= dynamic_theta_sensitivity (params self) ->
    0 <= structural_power ->
    0 < kappa * R0 + 1.0 ->
    let theta :=
      _compute_dynamic_theta self layer_name base_theta structural_power kappa R0 in
    base_theta * 0.3 <= theta <= base_theta
    /\ (dynamic_theta_sensitivity (params self) <= 0.7 ->
        theta
        = base_theta
          * (1.0 - dynamic_theta_sensitivity (params self)
                   * Py.min 1.0 (structural_power / (kappa * R0 + 1.0)))).
Proof.
  intros self name theta0 power kappa R0 Htheta Hs Hp Hd theta.
  pose proof (min_one_of_nonneg _ (influence_nonneg power (kappa * R0) Hp Hd)) as Hm.
  unfold theta, _compute_dynamic_theta; cbv zeta.
  set (m := Py.min 1.0 (power / (kappa * R0 + 1.0))) in *.
  set (s := dynamic_theta_sensitivity (params self)) in *.
  assert (Hsm : 0 <= s * m) by (apply Rmult_le_pos; lra).
  split.
  - unfold Py.max, Py.ltb.
    destruct (Rlt_dec (theta0 * 0.3) (theta0 * (1.0 - s * m))); nra.
  - intros Hs7. apply max_of_le.
    assert (s * m <= 0.7) by nra. nra.
Qed.

Lemma dynamic_theta_bounds_witness :
  (0 <= 150 /\ 0 <= dynamic_theta_sensitivity (params engine_default)
   /\ 0 <= 40 /\ 0 < 1 * 100 + 1.0)
  /\ 150 * 0.3 <= _compute_dynamic_theta engine_default "BASE" 150 40 1 100 <= 150.
Proof.
  assert (H1 : 0 <= 150) by lra.
  assert (H2 : 0 <= dynamic_theta_sensitivity (params engine_default)) by (cbn; lra).
  assert (H3 : 0 <= 40) by lra.
  assert (H4 : 0 < 1 * 100 + 1.0) by lra.
  split; [repeat split; assumption|].
  exact (proj1 (dynamic_theta_bounds engine_default "BASE" 150 40 1 100 H1 H2 H3 H4)).
Defined.

(** X2.  The dynamic threshold never rises with the structural power: for a
    non-negative static threshold and sensitivity (and [kappa * R + 1 > 0]),
    a layer with more structural power has a lower or equal threshold. *)
Theorem dynamic_theta_antitone :
  forall (self : SSDCoreEngineV5) (layer_name : string)
         (base_theta power1 power2 kappa R0 : R),
    0 <= base_theta ->
    0 <= dynamic_theta_sensitivity (params self) ->
    0 < kappa * R0 + 1.0 ->
    power1 <= power2 ->
    _compute_dynamic_theta self layer_name base_theta power2 kappa R0
    <= _compute_dynamic_theta self layer_name base_theta power1 kappa R0.
Proof.
  intros self name theta0 p1 p2 kappa R0 Htheta Hs Hd Hp.
  unfold _compute_dynamic_theta; cbv zeta.
  assert (Hf : p1 / (kappa * R0 + 1.0) <= p2 / (kappa * R0 + 1.0)).
  { unfold Rdiv. apply Rmult_le_compat_r; [|exact Hp].
    left. apply Rinv_0_lt_compat. exact Hd. }
  pose proof (min_one_monotone _ _ Hf) as Hm.
  set (m1 := Py.min 1.0 (p1 / (kappa * R0 + 1.0))) in *.
  set (m2 := Py.min 1.0 (p2 / (kappa * R0 + 1.0))) in *.
  set (s := dynamic_theta_sensitivity (params self)) in *.
  assert (Hsm : s * m1 <= s * m2) by (apply Rmult_le_compat_l; assumption).
  unfold Py.max, Py.ltb.
  destruct (Rlt_dec (theta0 * 0.3) (theta0 * (1.0 - s * m2)));
    destruct (Rlt_dec (theta0 * 0.3) (theta0 * (1.0 - s * m1))); nra.
Qed.

Lemma dynamic_theta_antitone_witness :
  _compute_dynamic_theta engine_default "BASE" 150 80 1 100
  <= _compute_dynamic_theta engine_default "BASE" 150 40 1 100.
Proof.
  apply dynamic_theta_antitone; [lra | cbn; lra | lra | lra].
Defined.

(** ** Amplification of the conversion rates *)

(** The four rates and flags chosen by [_legacy_phase_transition]. *)
Lemma legacy_phase_transition_layers (self : SSDCoreEngineV5) (st : SSDStateV5)
  (l : SSDLayer) :
  let r := _legacy_phase_transition self st in
  let critical :=
    enable_phase_transition (params self)
    && Py.ltb (E_of l st) (Theta_of l (params self)) in
  rate_of l (fst r)
  = (if critical
     then gamma2d_of l (params self) * multiplier_of l (params self)
     else gamma2d_of l (params self))
  /\ detected_critical l (snd r) = critical
  /\ LeapResult.dominant_layer (snd r) = "NONE"%string
  /\ LeapResult.leap_type (snd r) = "NO_LEAP"%string.
Proof.
  unfold _legacy_phase_transition; cbv zeta.
  destruct (enable_phase_transition (params self)); cbn [andb];
    [ destruct (Py.ltb (E_physical st) (Theta_physical (params self))) eqn:HP;
      destruct (Py.ltb (E_base st) (Theta_base (params self))) eqn:HB;
      destruct (Py.ltb (E_core st) (Theta_core (params self))) eqn:HC;
      destruct (Py.ltb (E_upper st) (Theta_upper (params self))) eqn:HU | ];
    destruct l;
    cbn [rate_of detected_critical fst snd E_of Theta_of gamma2d_of multiplier_of
         LeapResult.is_critical_physical LeapResult.is_critical_base
         LeapResult.is_critical_core LeapResult.is_critical_upper
         LeapResult.dominant_layer LeapResult.leap_type];
    rewrite ?HP, ?HB, ?HC, ?HU; repeat split; reflexivity.
Qed.

Lemma E_of_state_at_leap (l : SSDLayer) (s s' : SSDStateV5) :
  E_of l (state_at_leap s s') = E_of l s.
Proof. destruct l; reflexivity. Qed.

(** X3.  In legacy mode the critical flag of every layer is set exactly
    when the phase transition is enabled and the layer's energy at the start
    of the tick is below its static threshold; a critical layer converts to
    the direct pool at [gamma * multiplier], any other layer at [gamma]; no
    dominant layer and no leap type are reported. *)
Theorem legacy_flags_and_rates :
  forall (self : SSDCoreEngineV5) (state : SSDStateV5)
         (p_physical p_base p_core p_upper : Np.ndarray)
         (F_direct : option Np.ndarray)
         (other_states : option (list SSDStateV5)) (relationships : option (list R))
         (dt : R) (l : SSDLayer),
    use_integrated_leap_detection (params self) = false ->
    let P := params self in
    let s' :=
      snd (step self state p_physical p_base p_core p_upper F_direct other_states
             relationships dt) in
    (is_critical_of l s' = true
     <-> enable_phase_transition P = true /\ E_of l state < Theta_of l P)
    /\ conversion2d_of l s'
       = (if is_critical_of l s'
          then gamma2d_of l P * multiplier_of l P
          else gamma2d_of l P) * E_of l state
    /\ dominant_leap_layer s' = "NONE"%string
    /\ leap_type s' = "NO_LEAP"%string.
Proof.
  intros self state pp pb pc pu F os rs dt l Hmode P s'. subst P.
  pose proof (legacy_phase_transition_layers self (state_at_leap state s') l) as Hleg.
  cbv zeta in Hleg. rewrite E_of_state_at_leap in Hleg.
  destruct Hleg as (Hg & Hc & Hd & Ht).
  assert (Hflag : is_critical_of l s'
                  = enable_phase_transition (params self)
                    && Py.ltb (E_of l state) (Theta_of l (params self))).
  { rewrite <- Hc. unfold s', state_at_leap.
    destruct l; cbv beta delta [step];
      cbn [snd is_critical_of is_critical_physical is_critical_base is_critical_core
           is_critical_upper kappa_physical kappa_base kappa_core kappa_upper];
      rewrite Hmode; cbv zeta; cbn [fst snd detected_critical]; reflexivity. }
  assert (Hrate : conversion2d_of l s'
                  = rate_of l (fst (_legacy_phase_transition self (state_at_leap state s')))
                    * E_of l state).
  { unfold s', state_at_leap.
    destruct l; cbv beta delta [step];
      cbn [snd conversion2d_of conversion_physical2d conversion_base2d
           conversion_core2d conversion_upper2d kappa_physical kappa_base kappa_core
           kappa_upper];
      rewrite Hmode; cbv zeta; cbn [fst snd rate_of]; reflexivity. }
  split; [|split; [|split]].
  - rewrite Hflag. rewrite andb_true_iff, ltb_true_iff. reflexivity.
  - rewrite Hrate, Hg, Hflag. reflexivity.
  - rewrite <- Hd. unfold s', state_at_leap. cbv beta delta [step].
    cbn [snd dominant_leap_layer kappa_physical kappa_base kappa_core kappa_upper].
    rewrite Hmode. reflexivity.
  - rewrite <- Ht. unfold s', state_at_leap. cbv beta delta [step].
    cbn [snd leap_type kappa_physical kappa_base kappa_core kappa_upper].
    rewrite Hmode. reflexivity.
Qed.

Lemma legacy_flags_and_rates_witness :
  use_integrated_leap_detection (params engine_legacy) = false
  /\ conversion2d_of CORE (after_quiet_tick engine_legacy state_base_120)
     = (if is_critical_of CORE (after_quiet_tick engine_legacy state_base_120)
        then gamma2d_of CORE (params engine_legacy)
             * multiplier_of CORE (params engine_legacy)
        else gamma2d_of CORE (params engine_legacy))
       * E_of CORE state_base_120.
Proof.
  split; [reflexivity|].
  exact (proj1 (proj2 (legacy_flags_and_rates engine_legacy state_base_120 zero3 zero3
                         zero3 zero3 None None None 1 CORE eq_refl))).
Defined.

(** The rate [_compute_dynamic_gamma] returns for a layer, for a detection
    result that reports no critical layer when it reports no leap. *)
Lemma dynamic_gamma_rates (self : SSDCoreEngineV5) (r : LeapResult.t) (st : SSDStateV5)
  (l : SSDLayer) :
  (LeapResult.leap_type r = "NO_LEAP"%string -> detected_critical l r = false) ->
  rate_of l (_compute_dynamic_gamma self r st)
  = if negb (detected_critical l r) then gamma2d_of l (params self)
    else if String.eqb (LeapResult.dominant_layer r) (layer_str l)
         then gamma2d_of l (params self) * multiplier_of l (params self)
         else gamma2d_of l (params self)
              * (1.0 + multiplier_of l (params self) * 0.5).
Proof.
  intros Hno. unfold _compute_dynamic_gamma; cbv zeta.
  destruct (String.eqb (LeapResult.leap_type r) "NO_LEAP") eqn:Hleap.
  - apply String.eqb_eq in Hleap. rewrite (Hno Hleap).
    destruct l; reflexivity.
  - clear Hno Hleap.
    destruct l; cbn [rate_of fst snd detected_critical layer_str gamma2d_of multiplier_of];
      match goal with
      | |- context [String.eqb (LeapResult.dominant_layer r) ?n] =>
          destruct (String.eqb (LeapResult.dominant_layer r) n)
      end;
      match goal with
      | |- context [negb (?flag r)] => destruct (flag r)
      end; reflexivity.
Qed.

Lemma no_leap_no_critical (self : SSDCoreEngineV5) (st : SSDStateV5) (w : Powers.t)
  (l : SSDLayer) :
  LeapResult.leap_type (_integrated_leap_detection self st w) = "NO_LEAP"%string ->
  detected_critical l (_integrated_leap_detection self st w) = false.
Proof.
  intros Hleap.
  destruct (integrated_leap_detection_dominant self st w) as (_ & Hsome & Hflag).
  destruct (detected_critical l (_integrated_leap_detection self st w)) eqn:Hl;
    [|reflexivity].
  apply Hflag in Hl.
  destruct (Hsome (ex_intro _ l Hl)) as (d & _ & Hd & _).
  rewrite Hleap in Hd. destruct d; discriminate Hd.
Qed.

(** X4.  In integrated mode a layer that is not critical converts to the
    direct pool at its plain rate [gamma]; the dominant layer converts at
    [gamma * multiplier]; a critical layer that is not dominant converts at
    [gamma * (1 + multiplier / 2)]. *)
Theorem integrated_amplification :
  forall (self : SSDCoreEngineV5) (state : SSDStateV5)
         (p_physical p_base p_core p_upper : Np.ndarray)
         (F_direct : option Np.ndarray)
         (other_states : option (list SSDStateV5)) (relationships : option (list R))
         (dt : R) (l : SSDLayer),
    use_integrated_leap_detection (params self) = true ->
    let P := params self in
    let s' :=
      snd (step self state p_physical p_base p_core p_upper F_direct other_states
             relationships dt) in
    conversion2d_of l s'
    = (if negb (is_critical_of l s') then gamma2d_of l P
       else if String.eqb (dominant_leap_layer s') (layer_str l)
            then gamma2d_of l P * multiplier_of l P
            else gamma2d_of l P * (1.0 + multiplier_of l P * 0.5))
      * E_of l state.
Proof.
  intros self state pp pb pc pu F os rs dt l Hmode P s'. subst P.
  destruct (step_leap_integrated self state pp pb pc pu F os rs dt Hmode)
    as (Hdom & _ & Hfp & Hfb & Hfc & Hfu).
  destruct (step_conversion_integrated self state pp pb pc pu F os rs dt Hmode)
    as (Cp & Cb & Cc & Cu).
  fold s' in Hdom, Hfp, Hfb, Hfc, Hfu, Cp, Cb, Cc, Cu.
  set (st := state_at_leap state s') in *.
  set (w := _calculate_structural_powers self st pp pb pc pu) in *.
  pose proof (dynamic_gamma_rates self (_integrated_leap_detection self st w) st l
                (fun H => no_leap_no_critical self st w l H)) as Hrate.
  rewrite Hdom.
  destruct l; cbn [conversion2d_of is_critical_of E_of];
    [rewrite Cp, Hfp | rewrite Cb, Hfb | rewrite Cc, Hfc | rewrite Cu, Hfu];
    cbn [rate_of detected_critical] in Hrate; rewrite Hrate; reflexivity.
Qed.

Lemma integrated_amplification_witness :
  use_integrated_leap_detection (params engine_default) = true
  /\ conversion2d_of BASE (after_quiet_tick engine_default state_base_120)
     = (if negb (is_critical_of BASE (after_quiet_tick engine_default state_base_120))
        then gamma2d_of BASE (params engine_default)
        else if String.eqb
                  (dominant_leap_layer (after_quiet_tick engine_default state_base_120))
                  (layer_str BASE)
             then gamma2d_of BASE (params engine_default)
                  * multiplier_of BASE (params engine_default)
             else gamma2d_of BASE (params engine_default)
                  * (1.0 + multiplier_of BASE (params engine_default) * 0.5))
       * E_of BASE state_base_120.
Proof.
  split; [reflexivity|].
  exact (integrated_amplification engine_default state_base_120 zero3 zero3 zero3 zero3
           None None None 1 BASE eq_refl).
Defined.

(** ** The energy budget of a tick *)

(** X5.  Conversions between the layers and the direct pool and the
    interlayer transfers cancel in the total: the sum of the five recorded
    flows is the production of the direct pool and of the four layers, minus
    the decay of the four layers, plus their social coupling.  The clamp at
    zero can only add energy, so [get_total_energy] after the tick is at
    least the old total plus that sum times [dt], with equality when no
    energy would have gone negative. *)
Theorem total_energy_budget :
  forall (self : SSDCoreEngineV5) (state : SSDStateV5)
         (p_physical p_base p_core p_upper : Np.ndarray)
         (F_direct : option Np.ndarray)
         (other_states : option (list SSDStateV5)) (relationships : option (list R))
         (dt : R),
    let P := params self in
    let s' :=
      snd (step self state p_physical p_base p_core p_upper F_direct other_states
             relationships dt) in
    let net :=
      E_direct_flow s' + flow_of PHYSICAL s' + flow_of BASE s'
      + flow_of CORE s' + flow_of UPPER s' in
    net
    = match F_direct with Some F => alpha_d P * Np.norm F | None => 0 end
      + alpha_physical P * (Rabs (1 - kappa_physical state) * Np.norm p_physical)
      + alpha_base P * (Rabs (1 - kappa_base state) * Np.norm p_base)
      + alpha_core P * (Rabs (1 - kappa_core state) * Np.norm p_core)
      + alpha_upper P * (Rabs (1 - kappa_upper state) * Np.norm p_upper)
      - (beta_physical P * E_physical state + beta_base P * E_base state
         + beta_core P * E_core state + beta_upper P * E_upper state)
      + (social_coupling_physical s' + social_coupling_base s'
         + social_coupling_core s' + social_coupling_upper s')
    /\ get_total_energy self state + net * dt <= get_total_energy self s'
    /\ (0 <= E_direct state + E_direct_flow s' * dt ->
        (forall l, 0 <= E_of l state + flow_of l s' * dt) ->
        get_total_energy self s' = get_total_energy self state + net * dt).
Proof.
  intros self state pp pb pc pu F os rs dt P s' net. subst P.
  pose proof (step_flow self state pp pb pc pu F os rs dt) as Hflow.
  pose proof (step_flow_direct self state pp pb pc pu F os rs dt) as Hdir.
  pose proof (step_energy self state pp pb pc pu F os rs dt) as HE.
  pose proof (step_energy_direct self state pp pb pc pu F os rs dt) as HEd.
  cbv zeta in Hflow, Hdir, HE, HEd. fold s' in Hflow, Hdir, HE, HEd.
  split; [|split].
  - unfold net.
    rewrite (Hflow PHYSICAL), (Hflow BASE), (Hflow CORE), (Hflow UPPER), Hdir.
    unfold flow_without_production. rewrite !net_transfer_unfold, !norm_sub_scale.
    cbn [alpha_of pressure_of kappa_of conversion2d_of conversion_d2_of beta_of E_of
         social_coupling_of].
    destruct F; lra.
  - unfold get_total_energy, net.
    pose proof (HE PHYSICAL) as H1. pose proof (HE BASE) as H2.
    pose proof (HE CORE) as H3. pose proof (HE UPPER) as H4.
    cbn [E_of flow_of] in H1, H2, H3, H4. rewrite HEd, H1, H2, H3, H4.
    pose proof (max_upper_bound 0.0 (E_direct state + E_direct_flow s' * dt)).
    pose proof (max_upper_bound 0.0 (E_physical state + E_physical_flow s' * dt)).
    pose proof (max_upper_bound 0.0 (E_base state + E_base_flow s' * dt)).
    pose proof (max_upper_bound 0.0 (E_core state + E_core_flow s' * dt)).
    pose proof (max_upper_bound 0.0 (E_upper state + E_upper_flow s' * dt)).
    cbn [flow_of]. lra.
  - intros Hd Hl. unfold get_total_energy, net.
    pose proof (HE PHYSICAL) as H1. pose proof (HE BASE) as H2.
    pose proof (HE CORE) as H3. pose proof (HE UPPER) as H4.
    pose proof (Hl PHYSICAL) as L1. pose proof (Hl BASE) as L2.
    pose proof (Hl CORE) as L3. pose proof (Hl UPPER) as L4.
    cbn [E_of flow_of] in H1, H2, H3, H4, L1, L2, L3, L4.
    rewrite HEd, H1, H2, H3, H4.
    rewrite !max_of_le by lra. cbn [flow_of]. lra.
Qed.

(** A quiet tick of the engine without conversions, from [E_direct = 7] and
    empty layers: every flow is zero. *)
Lemma idle_tick_flows :
  E_direct_flow (after_quiet_tick engine_no_conversion state_direct_7) = 0
  /\ forall l, flow_of l (after_quiet_tick engine_no_conversion state_direct_7) = 0.
Proof.
  set (s' := after_quiet_tick engine_no_conversion state_direct_7).
  destruct (step_conversion_zero_rate engine_no_conversion state_direct_7 zero3 zero3
              zero3 zero3 None None None 1) as (Cp & Cb & Cc & Cu).
  destruct (step_conversion_from_direct engine_no_conversion state_direct_7 zero3 zero3
              zero3 zero3 None None None 1) as (Dp & Db & Dc & Du).
  destruct (step_transfers engine_no_conversion state_direct_7 zero3 zero3 zero3 zero3
              None None None 1 eq_refl) as (T1 & T2 & T3 & T4 & T5 & T6 & T7 & T8).
  fold (after_quiet_tick engine_no_conversion state_direct_7)
    in Cp, Cb, Cc, Cu, Dp, Db, Dc, Du, T1, T2, T3, T4, T5, T6, T7, T8.
  fold s' in Cp, Cb, Cc, Cu, Dp, Db, Dc, Du, T1, T2, T3, T4, T5, T6, T7, T8.
  specialize (Cp eq_refl). specialize (Cb eq_refl).
  specialize (Cc eq_refl). specialize (Cu eq_refl).
  cbn [engine_no_conversion __init__ params SSDParametersV5_init state_direct_7
       SSDStateV5_init E_direct E_physical E_base E_core E_upper
       gamma_d2physical gamma_d2base gamma_d2core gamma_d2upper
       gamma_upper2base gamma_upper2core gamma_base2upper gamma_base2core
       gamma_core2base gamma_core2upper gamma_physical2base gamma_physical2upper
       interlayer_transfer_strength]
    in Dp, Db, Dc, Du, T1, T2, T3, T4, T5, T6, T7, T8.
  split.
  - pose proof (step_flow_direct engine_no_conversion state_direct_7 zero3 zero3 zero3
                  zero3 None None None 1) as Hd.
    cbv zeta in Hd. fold (after_quiet_tick engine_no_conversion state_direct_7) in Hd.
    fold s' in Hd. rewrite Hd, Cp, Cb, Cc, Cu, Dp, Db, Dc, Du. lra.
  - intros l.
    pose proof (step_flow engine_no_conversion state_direct_7 zero3 zero3 zero3 zero3
                  None None None 1 l) as Hf.
    cbv zeta in Hf. fold (after_quiet_tick engine_no_conversion state_direct_7) in Hf.
    fold s' in Hf. rewrite Hf, norm_sub_scale.
    replace (pressure_of l zero3 zero3 zero3 zero3) with zero3
      by (destruct l; reflexivity).
    unfold zero3 at 1. rewrite norm_zeros.
    unfold flow_without_production. rewrite net_transfer_unfold.
    replace (social_coupling_of l s') with 0.0 by (destruct l; reflexivity).
    destruct l;
      cbn [conversion2d_of conversion_d2_of beta_of E_of state_direct_7 SSDStateV5_init
           E_physical E_base E_core E_upper];
      rewrite ?Cp, ?Cb, ?Cc, ?Cu, ?Dp, ?Db, ?Dc, ?Du, ?T1, ?T2, ?T3, ?T4, ?T5, ?T6,
        ?T7, ?T8; lra.
Qed.

Lemma total_energy_budget_witness :
  (0 <= E_direct state_direct_7
        + E_direct_flow (after_quiet_tick engine_no_conversion state_direct_7) * 1
   /\ forall l,
        0 <= E_of l state_direct_7
             + flow_of l (after_quiet_tick engine_no_conversion state_direct_7) * 1)
  /\ get_total_energy engine_no_conversion
       (after_quiet_tick engine_no_conversion state_direct_7)
     = get_total_energy engine_no_conversion state_direct_7
       + (E_direct_flow (after_quiet_tick engine_no_conversion state_direct_7)
          + flow_of PHYSICAL (after_quiet_tick engine_no_conversion state_direct_7)
          + flow_of BASE (after_quiet_tick engine_no_conversion state_direct_7)
          + flow_of CORE (after_quiet_tick engine_no_conversion state_direct_7)
          + flow_of UPPER (after_quiet_tick engine_no_conversion state_direct_7)) * 1.
Proof.
  destruct idle_tick_flows as (Hd & Hl).
  assert (H1 : 0 <= E_direct state_direct_7
                    + E_direct_flow (after_quiet_tick engine_no_conversion state_direct_7)
                      * 1)
    by (rewrite Hd; cbn; lra).
  assert (H2 : forall l,
             0 <= E_of l state_direct_7
                  + flow_of l (after_quiet_tick engine_no_conversion state_direct_7) * 1)
    by (intros l; rewrite Hl; destruct l; cbn; lra).
  split; [split; assumption|].
  exact (proj2 (proj2 (total_energy_budget engine_no_conversion state_direct_7 zero3
                         zero3 zero3 zero3 None None None 1)) H1 H2).
Defined.

(** ** Read-out of the energies *)

Lemma share_in_unit_interval (e total : R) :
  0 <= e -> e <= total -> 0 < total -> 0 <= e / total <= 1.
Proof.
  intros He Hle Ht. unfold Rdiv.
  pose proof (Rinv_0_lt_compat total Ht) as Hinv.
  split; [apply Rmult_le_pos; lra|].
  apply (Rmult_le_reg_r total); [exact Ht|].
  rewrite Rmult_assoc, Rinv_l by lra. lra.
Qed.

(** X6.  [get_layer_energy_distribution] always returns the five keys
    PHYSICAL, BASE, CORE, UPPER, DIRECT.  When the total energy is zero all
    five shares are zero (no division takes place); otherwise the shares sum
    to one.  For non-negative energies every share lies between 0 and 1, in
    particular for every state returned by [step]. *)
Theorem energy_distribution_shares :
  forall (self : SSDCoreEngineV5) (state : SSDStateV5),
    let d := get_layer_energy_distribution self state in
    map fst d = ["PHYSICAL"; "BASE"; "CORE"; "UPPER"; "DIRECT"]%string
    /\ (get_total_energy self state = 0 -> Forall (fun kv => snd kv = 0) d)
    /\ (get_total_energy self state <> 0 -> sum_values d = 1)
    /\ (0 <= E_direct state -> (forall l, 0 <= E_of l state) ->
        Forall (fun kv => 0 <= snd kv <= 1) d)
    /\ (forall (p_physical p_base p_core p_upper : Np.ndarray)
               (F_direct : option Np.ndarray)
               (other_states : option (list SSDStateV5))
               (relationships : option (list R)) (dt : R),
          Forall (fun kv => 0 <= snd kv <= 1)
            (get_layer_energy_distribution self
               (snd (step self state p_physical p_base p_core p_upper F_direct
                       other_states relationships dt)))).
Proof.
  intros self state d.
  assert (Hrange : forall st : SSDStateV5,
             0 <= E_direct st -> (forall l, 0 <= E_of l st) ->
             Forall (fun kv => 0 <= snd kv <= 1) (get_layer_energy_distribution self st)).
  { intros st Hd Hl.
    pose proof (Hl PHYSICAL) as HP. pose proof (Hl BASE) as HB.
    pose proof (Hl CORE) as HC. pose proof (Hl UPPER) as HU.
    cbn [E_of] in HP, HB, HC, HU.
    unfold get_layer_energy_distribution; cbv zeta.
    destruct (PyExt.eqb (get_total_energy self st) 0) eqn:Hz.
    - repeat (apply Forall_cons; [cbn [snd]; lra|]). apply Forall_nil.
    - apply eqb_false_iff in Hz.
      assert (Hpos : 0 < get_total_energy self st)
        by (unfold get_total_energy in *; lra).
      repeat (apply Forall_cons; [cbn [snd]; apply share_in_unit_interval;
                                  unfold get_total_energy in *; lra|]).
      apply Forall_nil. }
  split; [|split; [|split; [|split]]].
  - unfold d, get_layer_energy_distribution; cbv zeta.
    destruct (PyExt.eqb (get_total_energy self state) 0); reflexivity.
  - intros Hz. unfold d, get_layer_energy_distribution; cbv zeta.
    rewrite (proj2 (eqb_true_iff _ _) Hz).
    repeat (apply Forall_cons; [cbn [snd]; lra|]). apply Forall_nil.
  - intros Hnz. unfold d, get_layer_energy_distribution; cbv zeta.
    rewrite (proj2 (eqb_false_iff _ _) Hnz).
    unfold sum_values; cbn [fold_right snd].
    unfold get_total_energy in *. field. exact Hnz.
  - apply Hrange.
  - intros pp pb pc pu F os rs dt. apply Hrange.
    + rewrite step_energy_direct. apply max_zero_nonneg.
    + intros l. rewrite step_energy. apply max_zero_nonneg.
Qed.

Lemma energy_distribution_shares_witness :
  get_total_energy engine_default state_base_120 <> 0
  /\ sum_values (get_layer_energy_distribution engine_default state_base_120) = 1.
Proof.
  assert (Hnz : get_total_energy engine_default state_base_120 <> 0)
    by (unfold get_total_energy; cbn; lra).
  split; [exact Hnz|].
  exact (proj1 (proj2 (proj2 (energy_distribution_shares engine_default state_base_120)))
           Hnz).
Defined.

(** X7.  [get_dominant_frustration_layer] never fails: it returns the name
    and the energy of a layer whose energy is the largest of the four, and
    among layers of equal largest energy the first in the order PHYSICAL,
    BASE, CORE, UPPER. *)
Theorem dominant_frustration_layer_is_max :
  forall (self : SSDCoreEngineV5) (state : SSDStateV5),
    exists d : SSDLayer,
      get_dominant_frustration_layer self state = Some (layer_str d, E_of d state)
      /\ (forall l, E_of l state <= E_of d state)
      /\ (forall l, E_of l state = E_of d state ->
          (layer_value d <= layer_value l)%nat).
Proof.
  intros self state. unfold get_dominant_frustration_layer; cbv zeta.
  cbn [Py.max_by Py.max_by_from snd].
  set (eP := E_physical state). set (eB := E_base state).
  set (eC := E_core state). set (eU := E_upper state).
  repeat (match goal with
          | |- context [Py.ltb ?a ?b] =>
              is_var a; is_var b;
              let H := fresh "Hcmp" in
              destruct (Py.ltb a b) eqn:H;
              [apply ltb_true_iff in H | apply ltb_false_iff in H]
          end; cbn [fst snd]);
    subst eP eB eC eU;
    first [ exists PHYSICAL; split; [reflexivity|];
            split; intros l; destruct l; cbn [E_of layer_value] in *;
            first [lra | lia | intros; lia | intros; exfalso; lra]
          | exists BASE; split; [reflexivity|];
            split; intros l; destruct l; cbn [E_of layer_value] in *;
            first [lra | lia | intros; lia | intros; exfalso; lra]
          | exists CORE; split; [reflexivity|];
            split; intros l; destruct l; cbn [E_of layer_value] in *;
            first [lra | lia | intros; lia | intros; exfalso; lra]
          | exists UPPER; split; [reflexivity|];
            split; intros l; destruct l; cbn [E_of layer_value] in *;
            first [lra | lia | intros; lia | intros; exfalso; lra] ].
Qed.

(** ** Social coupling in closed form *)

Lemma couple_one_energy (self : SSDCoreEngineV5) (state : SSDStateV5)
  (c : Coupling) (other : SSDStateV5) (relation : R) (l : SSDLayer) :
  coupling_energy_of l (couple_one self state c (other, relation))
  = coupling_energy_of l c + pair_energy_term (params self) l state other relation.
Proof.
  unfold couple_one, pair_energy_term; cbv zeta.
  destruct (Py.gtb relation (cooperation_threshold (params self)));
    [|destruct (Py.ltb relation (- cooperation_threshold (params self)))];
    destruct l; cbn; ring.
Qed.

Lemma couple_one_kappa (self : SSDCoreEngineV5) (state : SSDStateV5)
  (c : Coupling) (other : SSDStateV5) (relation : R) (l : SSDLayer) :
  coupling_kappa_of l (couple_one self state c (other, relation))
  = coupling_kappa_of l c + pair_kappa_term (params self) l state other relation.
Proof.
  unfold couple_one, pair_kappa_term; cbv zeta.
  destruct (Py.gtb relation (cooperation_threshold (params self)));
    [|destruct (Py.ltb relation (- cooperation_threshold (params self)))];
    destruct l; cbn; ring.
Qed.

Lemma couple_all_energy (self : SSDCoreEngineV5) (state : SSDStateV5) (l : SSDLayer)
  (pairs : list (SSDStateV5 * R)) :
  forall c : Coupling,
    coupling_energy_of l (fold_left (couple_one self state) pairs c)
    = coupling_energy_of l c
      + fold_right (fun p acc =>
                      pair_energy_term (params self) l state (fst p) (snd p) + acc)
          0 pairs.
Proof.
  induction pairs as [|[other relation] pairs IH]; intros c; cbn [fold_left fold_right].
  - ring.
  - rewrite IH, couple_one_energy. cbn [fst snd]. ring.
Qed.

Lemma couple_all_kappa (self : SSDCoreEngineV5) (state : SSDStateV5) (l : SSDLayer)
  (pairs : list (SSDStateV5 * R)) :
  forall c : Coupling,
    coupling_kappa_of l (fold_left (couple_one self state) pairs c)
    = coupling_kappa_of l c
      + fold_right (fun p acc =>
                      pair_kappa_term (params self) l state (fst p) (snd p) + acc)
          0 pairs.
Proof.
  induction pairs as [|[other relation] pairs IH]; intros c; cbn [fold_left fold_right].
  - ring.
  - rewrite IH, couple_one_kappa. cbn [fst snd]. ring.
Qed.

Lemma no_coupling_energy (l : SSDLayer) : coupling_energy_of l no_coupling = 0.
Proof. destruct l; cbn; lra. Qed.

Lemma no_coupling_kappa (l : SSDLayer) : coupling_kappa_of l no_coupling = 0.
Proof. destruct l; cbn; lra. Qed.

Lemma social_coupling_entries (self : SSDCoreEngineV5) (state : SSDStateV5)
  (other_states : list SSDStateV5) (relationships : list R) (l : SSDLayer) :
  let c := _compute_social_coupling self state other_states relationships in
  coupling_energy_of l c
  = (if enable_social_coupling (params self)
     then sum_over_pairs (pair_energy_term (params self) l state)
            other_states relationships
     else 0)
  /\ coupling_kappa_of l c
     = (if enable_social_coupling (params self)
        then sum_over_pairs (pair_kappa_term (params self) l state)
               other_states relationships
        else 0).
Proof.
  intros c. subst c.
  unfold _compute_social_coupling, sum_over_pairs.
  destruct (enable_social_coupling (params self)); cbn [negb orb].
  - destruct other_states as [|o others]; cbn [List.length Nat.eqb combine fold_right].
    + split; [apply no_coupling_energy | apply no_coupling_kappa].
    + destruct relationships as [|r rels]; cbn [combine].
      * cbn [fold_left fold_right].
        split; [apply no_coupling_energy | apply no_coupling_kappa].
      * rewrite couple_all_energy, couple_all_kappa,
          no_coupling_energy, no_coupling_kappa.
        split; ring.
  - split; [apply no_coupling_energy | apply no_coupling_kappa].
Qed.

Lemma coupling_ext (c1 c2 : Coupling) :
  (forall l, coupling_energy_of l c1 = coupling_energy_of l c2) ->
  (forall l, coupling_kappa_of l c1 = coupling_kappa_of l c2) ->
  c1 = c2.
Proof.
  intros He Hk. destruct c1, c2.
  pose proof (He PHYSICAL) as E1. pose proof (He BASE) as E2.
  pose proof (He CORE) as E3. pose proof (He UPPER) as E4.
  pose proof (Hk PHYSICAL) as K1. pose proof (Hk BASE) as K2.
  pose proof (Hk CORE) as K3. pose proof (Hk UPPER) as K4.
  cbn in E1, E2, E3, E4, K1, K2, K3, K4. congruence.
Qed.

Lemma sum_pairs_permutation (term : SSDStateV5 * R -> R)
  (ps qs : list (SSDStateV5 * R)) :
  Permutation ps qs ->
  fold_right (fun p acc => term p + acc) 0 ps
  = fold_right (fun p acc => term p + acc) 0 qs.
Proof.
  induction 1; cbn [fold_right]; try lra.
Qed.

Lemma combine_firstn_min {A B : Type} (xs : list A) :
  forall ys : list B,
    combine (firstn (Nat.min (List.length xs) (List.length ys)) xs)
            (firstn (Nat.min (List.length xs) (List.length ys)) ys)
    = combine xs ys.
Proof.
  induction xs as [|x xs IH]; intros [|y ys]; cbn; try reflexivity.
  f_equal. apply IH.
Qed.

(** X8.  [_compute_social_coupling] is additive over the pairings formed by
    [zip]: with social coupling enabled, each energy entry is the sum over
    the pairings of the pairing's energy term (attraction toward the other
    agent when cooperative, the other agent's energy weighted by [omega]
    when competitive, nothing when neutral), each inertia entry the sum of
    the cooperative inertia terms; with social coupling disabled every
    entry is zero. *)
Theorem social_coupling_is_sum_over_pairs :
  forall (self : SSDCoreEngineV5) (state : SSDStateV5)
         (other_states : list SSDStateV5) (relationships : list R) (l : SSDLayer),
    let c := _compute_social_coupling self state other_states relationships in
    coupling_energy_of l c
    = (if enable_social_coupling (params self)
       then sum_over_pairs (pair_energy_term (params self) l state)
              other_states relationships
       else 0)
    /\ coupling_kappa_of l c
       = (if enable_social_coupling (params self)
          then sum_over_pairs (pair_kappa_term (params self) l state)
                 other_states relationships
          else 0).
Proof.
  intros self state others rels l. exact (social_coupling_entries self state others rels l).
Qed.

(** X9.  Two agents that run engines with the same parameters and see each
    other in a cooperative relation of the same strength exchange energy and
    inertia antisymmetrically: what one receives in a layer the other loses.
    In particular an agent paired with a copy of its own state receives
    nothing. *)
Theorem cooperation_is_antisymmetric :
  forall (self : SSDCoreEngineV5) (a b : SSDStateV5) (relation : R) (l : SSDLayer),
    cooperation_threshold (params self) < relation ->
    coupling_energy_of l (_compute_social_coupling self a [b] [relation])
    + coupling_energy_of l (_compute_social_coupling self b [a] [relation]) = 0
    /\ coupling_kappa_of l (_compute_social_coupling self a [b] [relation])
       + coupling_kappa_of l (_compute_social_coupling self b [a] [relation]) = 0
    /\ coupling_energy_of l (_compute_social_coupling self a [a] [relation]) = 0
    /\ coupling_kappa_of l (_compute_social_coupling self a [a] [relation]) = 0.
Proof.
  intros self a b relation l Hcoop.
  assert (Hgt : Py.gtb relation (cooperation_threshold (params self)) = true)
    by (unfold Py.gtb; apply ltb_true_iff; exact Hcoop).
  pose proof (social_coupling_entries self a [b] [relation] l) as [Eab Kab].
  pose proof (social_coupling_entries self b [a] [relation] l) as [Eba Kba].
  pose proof (social_coupling_entries self a [a] [relation] l) as [Eaa Kaa].
  cbv zeta in *. rewrite Eab, Kab, Eba, Kba, Eaa, Kaa.
  unfold sum_over_pairs, pair_energy_term, pair_kappa_term;
    cbn [combine fold_right fst snd]; rewrite Hgt.
  destruct (enable_social_coupling (params self)); repeat split; ring.
Qed.

Lemma cooperation_is_antisymmetric_witness :
  cooperation_threshold (params engine_default) < 1
  /\ coupling_energy_of BASE
       (_compute_social_coupling engine_default state_base_120 [state_direct_7] [1])
     + coupling_energy_of BASE
         (_compute_social_coupling engine_default state_direct_7 [state_base_120] [1])
     = 0.
Proof.
  assert (H : cooperation_threshold (params engine_default) < 1) by (cbn; lra).
  split; [exact H|].
  exact (proj1 (cooperation_is_antisymmetric engine_default state_base_120
                  state_direct_7 1 BASE H)).
Defined.

(** X10.  A competitive pairing (relation below minus the cooperation
    threshold) never changes an inertia entry, and its energy entry is
    [omega * E_other * |relation| * strength]: it does not depend on the
    agent's own state, and with [omega <= 0], a non-negative energy of the
    other agent and a non-negative coupling strength it is never positive. *)
Theorem competition_only_drains_energy :
  forall (self : SSDCoreEngineV5) (state other : SSDStateV5) (relation : R)
         (l : SSDLayer),
    enable_social_coupling (params self) = true ->
    0 <= cooperation_threshold (params self) ->
    relation < - cooperation_threshold (params self) ->
    let c := _compute_social_coupling self state [other] [relation] in
    coupling_kappa_of l c = 0
    /\ coupling_energy_of l c
       = omega_of l (params self) * E_of l other * - relation
         * social_coupling_strength (params self)
    /\ (forall state2 : SSDStateV5,
          _compute_social_coupling self state2 [other] [relation] = c)
    /\ (omega_of l (params self) <= 0 -> 0 <= E_of l other ->
        0 <= social_coupling_strength (params self) ->
        coupling_energy_of l c <= 0).
Proof.
  intros self state other relation l Hen Hthr Hcomp c.
  assert (Hgt : Py.gtb relation (cooperation_threshold (params self)) = false)
    by (unfold Py.gtb; apply ltb_false_iff; lra).
  assert (Hlt : Py.ltb relation (- cooperation_threshold (params self)) = true)
    by (apply ltb_true_iff; exact Hcomp).
  assert (Habs : Rabs relation = - relation) by (apply Rabs_left; lra).
  assert (Hentries : forall (st : SSDStateV5) (k : SSDLayer),
             coupling_kappa_of k (_compute_social_coupling self st [other] [relation]) = 0
             /\ coupling_energy_of k (_compute_social_coupling self st [other] [relation])
                = omega_of k (params self) * E_of k other * - relation
                  * social_coupling_strength (params self)).
  { intros st k.
    pose proof (social_coupling_entries self st [other] [relation] k) as [E K].
    cbv zeta in E, K. rewrite E, K, Hen.
    unfold sum_over_pairs, pair_energy_term, pair_kappa_term;
      cbn [combine fold_right fst snd]; rewrite Hgt, Hlt, Habs.
    split; ring. }
  destruct (Hentries state l) as [K E]. subst c.
  split; [exact K|]. split; [exact E|]. split.
  - intros state2. apply coupling_ext; intros k.
    + rewrite (proj2 (Hentries state2 k)), (proj2 (Hentries state k)). reflexivity.
    + rewrite (proj1 (Hentries state2 k)), (proj1 (Hentries state k)). reflexivity.
  - intros Hom HE Hs. rewrite E.
    assert (H1 : 0 <= E_of l other * - relation) by (apply Rmult_le_pos; lra).
    assert (H2 : 0 <= E_of l other * - relation * social_coupling_strength (params self))
      by (apply Rmult_le_pos; lra).
    replace (omega_of l (params self) * E_of l other * - relation
             * social_coupling_strength (params self))
      with (omega_of l (params self)
            * (E_of l other * - relation * social_coupling_strength (params self)))
      by ring.
    nra.
Qed.

Lemma competition_only_drains_energy_witness :
  coupling_kappa_of BASE
    (_compute_social_coupling engine_default state_direct_7 [state_base_120] [-1]) = 0
  /\ coupling_energy_of BASE
       (_compute_social_coupling engine_default state_direct_7 [state_base_120] [-1])
     <= 0.
Proof.
  assert (Hen : enable_social_coupling (params engine_default) = true) by reflexivity.
  assert (Hthr : 0 <= cooperation_threshold (params engine_default)) by (cbn; lra).
  assert (Hcomp : -1 < - cooperation_threshold (params engine_default)) by (cbn; lra).
  pose proof (competition_only_drains_energy engine_default state_direct_7
                state_base_120 (-1) BASE Hen Hthr Hcomp) as H.
  cbv zeta in H. destruct H as [K [_ [_ Hneg]]].
  split; [exact K|].
  apply Hneg; cbn; lra.
Defined.

(** X11.  [_compute_social_coupling] depends only on the pairings that
    [zip] forms: entries of the longer list beyond the length of the shorter
    one are ignored, and (in exact arithmetic) the order of the pairings is
    irrelevant. *)
Theorem social_coupling_depends_on_pairings :
  forall (self : SSDCoreEngineV5) (state : SSDStateV5)
         (other_states : list SSDStateV5) (relationships : list R),
    let n := Nat.min (List.length other_states) (List.length relationships) in
    _compute_social_coupling self state (firstn n other_states) (firstn n relationships)
    = _compute_social_coupling self state other_states relationships
    /\ (forall (other_states2 : list SSDStateV5) (relationships2 : list R),
          Permutation (combine other_states relationships)
                      (combine other_states2 relationships2) ->
          _compute_social_coupling self state other_states2 relationships2
          = _compute_social_coupling self state other_states relationships).
Proof.
  intros self state others rels n.
  assert (Hsame : forall (o1 o2 : list SSDStateV5) (r1 r2 : list R),
             Permutation (combine o1 r1) (combine o2 r2) ->
             _compute_social_coupling self state o2 r2
             = _compute_social_coupling self state o1 r1).
  { intros o1 o2 r1 r2 Hperm. apply coupling_ext; intros l.
    - pose proof (social_coupling_entries self state o1 r1 l) as [E1 _].
      pose proof (social_coupling_entries self state o2 r2 l) as [E2 _].
      cbv zeta in E1, E2. rewrite E1, E2.
      destruct (enable_social_coupling (params self)); [|reflexivity].
      unfold sum_over_pairs. symmetry.
      apply (sum_pairs_permutation
               (fun p => pair_energy_term (params self) l state (fst p) (snd p))).
      exact Hperm.
    - pose proof (social_coupling_entries self state o1 r1 l) as [_ K1].
      pose proof (social_coupling_entries self state o2 r2 l) as [_ K2].
      cbv zeta in K1, K2. rewrite K1, K2.
      destruct (enable_social_coupling (params self)); [|reflexivity].
      unfold sum_over_pairs. symmetry.
      apply (sum_pairs_permutation
               (fun p => pair_kappa_term (params self) l state (fst p) (snd p))).
      exact Hperm. }
  split.
  - apply Hsame. subst n. rewrite combine_firstn_min. apply Permutation_refl.
  - intros o2 r2 Hperm. apply Hsame. exact Hperm.
Qed.

(** ** Integrated criticality against the static thresholds *)

Lemma R_values_positive (l : SSDLayer) : 0 < R_values l.
Proof. destruct l; cbn; lra. Qed.

Lemma dynamic_theta_range (self : SSDCoreEngineV5) (name : string)
  (base_theta power kappa R0 : R) :
  0 <= base_theta ->
  0 <= dynamic_theta_sensitivity (params self) ->
  0 <= power ->
  0 < kappa * R0 + 1.0 ->
  base_theta * 0.3 <= _compute_dynamic_theta self name base_theta power kappa R0
  <= base_theta.
Proof.
  intros Htheta Hs Hp Hd.
  pose proof (min_one_of_nonneg _ (influence_nonneg power (kappa * R0) Hp Hd)) as Hm.
  unfold _compute_dynamic_theta; cbv zeta.
  set (m := Py.min 1.0 (power / (kappa * R0 + 1.0))) in *.
  set (s := dynamic_theta_sensitivity (params self)) in *.
  assert (Hsm : 0 <= s * m) by (apply Rmult_le_pos; lra).
  unfold Py.max, Py.ltb.
  destruct (Rlt_dec (base_theta * 0.3) (base_theta * (1.0 - s * m))); nra.
Qed.

Lemma dynamic_theta_insensitive (self : SSDCoreEngineV5) (name : string)
  (base_theta power kappa R0 : R) :
  0 <= base_theta ->
  dynamic_theta_sensitivity (params self) = 0 ->
  _compute_dynamic_theta self name base_theta power kappa R0 = base_theta.
Proof.
  intros Hb Hs. unfold _compute_dynamic_theta; cbv zeta. rewrite Hs.
  rewrite max_of_le by nra. rewrite Rmult_0_l. lra.
Qed.

(** X12.  Integrated leap detection on the structural powers of the same
    state, for a layer with non-negative static threshold, energy and
    inertia and a non-negative sensitivity: a layer flagged critical has its
    energy strictly below the static threshold; a layer whose energy is
    below 30% of the static threshold is always flagged; and when the
    layer's pressure vanishes or the sensitivity is zero, the flag is set
    exactly when the energy is below the static threshold. *)
Theorem integrated_criticality_band :
  forall (self : SSDCoreEngineV5) (st : SSDStateV5)
         (p_physical p_base p_core p_upper : Np.ndarray) (l : SSDLayer),
    0 <= Theta_of l (params self) ->
    0 <= dynamic_theta_sensitivity (params self) ->
    0 <= E_of l st ->
    0 <= kappa_of l st ->
    let w := _calculate_structural_powers self st p_physical p_base p_core p_upper in
    let r := _integrated_leap_detection self st w in
    (detected_critical l r = true -> E_of l st < Theta_of l (params self))
    /\ (E_of l st < Theta_of l (params self) * 0.3 -> detected_critical l r = true)
    /\ (Np.norm (pressure_of l p_physical p_base p_core p_upper) = 0
        \/ dynamic_theta_sensitivity (params self) = 0 ->
        (detected_critical l r = true <-> E_of l st < Theta_of l (params self))).
Proof.
  intros self st pp pb pc pu l Htheta Hs HE Hk w r.
  pose proof (proj2 (proj2 (integrated_leap_detection_dominant self st w)) l) as Hflag.
  cbv zeta in Hflag. fold r in Hflag.
  assert (Hpow : power_of l w
                 = Np.norm (pressure_of l pp pb pc pu) * E_of l st * kappa_of l st
                   * R_values l)
    by (unfold w; apply structural_power_value).
  pose proof (R_values_positive l) as HR.
  pose proof (norm_nonneg (pressure_of l pp pb pc pu)) as Hn.
  assert (Hp : 0 <= power_of l w).
  { rewrite Hpow. repeat apply Rmult_le_pos; lra. }
  assert (Hd : 0 < kappa_of l st * R_values l + 1.0).
  { assert (0 <= kappa_of l st * R_values l) by (apply Rmult_le_pos; lra). lra. }
  pose proof (dynamic_theta_range self (layer_str l) (Theta_of l (params self))
                (power_of l w) (kappa_of l st) (R_values l) Htheta Hs Hp Hd) as Hrange.
  unfold critical_in in Hflag.
  split; [|split].
  - intros Hc. apply Hflag in Hc. lra.
  - intros Hlow. apply Hflag. lra.
  - intros [Hzero | Hzero].
    + assert (Hp0 : power_of l w = 0) by (rewrite Hpow, Hzero; ring).
      rewrite Hp0, dynamic_theta_without_power in Hflag by exact Htheta.
      exact Hflag.
    + rewrite dynamic_theta_insensitive in Hflag by assumption.
      exact Hflag.
Qed.

Lemma integrated_criticality_band_witness :
  E_of BASE state_base_120 < Theta_of BASE (params engine_default)
  /\ detected_critical BASE
       (_integrated_leap_detection engine_default state_base_120
          (_calculate_structural_powers engine_default state_base_120
             zero3 zero3 zero3 zero3)) = true.
Proof.
  assert (H1 : 0 <= Theta_of BASE (params engine_default)) by (cbn; lra).
  assert (H2 : 0 <= dynamic_theta_sensitivity (params engine_default)) by (cbn; lra).
  assert (H3 : 0 <= E_of BASE state_base_120) by (cbn; lra).
  assert (H4 : 0 <= kappa_of BASE state_base_120) by (cbn; lra).
  assert (H5 : E_of BASE state_base_120 < Theta_of BASE (params engine_default))
    by (cbn; lra).
  split; [exact H5|].
  pose proof (integrated_criticality_band engine_default state_base_120
                zero3 zero3 zero3 zero3 BASE H1 H2 H3 H4) as H.
  cbv zeta in H. destruct H as [_ [_ H]].
  apply H; [|exact H5].
  left. cbn [pressure_of]. unfold zero3. apply norm_zeros.
Defined.

(** ** A tick of length zero *)

Lemma engine_ext (a b : SSDCoreEngineV5) :
  params a = params b ->
  total_conversion_physical2d a = total_conversion_physical2d b ->
  total_conversion_base2d a = total_conversion_base2d b ->
  total_conversion_core2d a = total_conversion_core2d b ->
  total_conversion_upper2d a = total_conversion_upper2d b ->
  total_conversion_d2physical a = total_conversion_d2physical b ->
  total_conversion_d2base a = total_conversion_d2base b ->
  total_conversion_d2core a = total_conversion_d2core b ->
  total_conversion_d2upper a = total_conversion_d2upper b ->
  total_decay_physical a = total_decay_physical b ->
  total_decay_base a = total_decay_base b ->
  total_decay_core a = total_decay_core b ->
  total_decay_upper a = total_decay_upper b ->
  time a = time b ->
  a = b.
Proof. destruct a, b; cbn; intros; subst; reflexivity. Qed.

Lemma step_engine_fields (self : SSDCoreEngineV5) (state : SSDStateV5)
  (p_physical p_base p_core p_upper : Np.ndarray) (F_direct : option Np.ndarray)
  (other_states : option (list SSDStateV5)) (relationships : option (list R))
  (dt : R) :
  let r :=
    step self state p_physical p_base p_core p_upper F_direct other_states
      relationships dt in
  params (fst r) = params self
  /\ time (fst r) = time self + dt
  /\ total_conversion_physical2d (fst r)
     = total_conversion_physical2d self + conversion_physical2d (snd r) * dt
  /\ total_conversion_base2d (fst r)
     = total_conversion_base2d self + conversion_base2d (snd r) * dt
  /\ total_conversion_core2d (fst r)
     = total_conversion_core2d self + conversion_core2d (snd r) * dt
  /\ total_conversion_upper2d (fst r)
     = total_conversion_upper2d self + conversion_upper2d (snd r) * dt
  /\ total_conversion_d2physical (fst r)
     = total_conversion_d2physical self + conversion_d2physical (snd r) * dt
  /\ total_conversion_d2base (fst r)
     = total_conversion_d2base self + conversion_d2base (snd r) * dt
  /\ total_conversion_d2core (fst r)
     = total_conversion_d2core self + conversion_d2core (snd r) * dt
  /\ total_conversion_d2upper (fst r)
     = total_conversion_d2upper self + conversion_d2upper (snd r) * dt
  /\ total_decay_physical (fst r)
     = total_decay_physical self + beta_physical (params self) * E_physical state * dt
  /\ total_decay_base (fst r)
     = total_decay_base self + beta_base (params self) * E_base state * dt
  /\ total_decay_core (fst r)
     = total_decay_core self + beta_core (params self) * E_core state * dt
  /\ total_decay_upper (fst r)
     = total_decay_upper self + beta_upper (params self) * E_upper state * dt.
Proof.
  intros r. subst r.
  do 13 (split; [reflexivity|]). reflexivity.
Qed.

(** X13.  A call to [step] with [dt = 0] changes nothing that is
    integrated over time: the engine (clock and running totals) is returned
    as it was, every energy that was non-negative and every inertia that was
    at or above its floor keeps its value, whatever the pressures, the
    force and the other agents. *)
Theorem zero_length_tick :
  forall (self : SSDCoreEngineV5) (state : SSDStateV5)
         (p_physical p_base p_core p_upper : Np.ndarray)
         (F_direct : option Np.ndarray)
         (other_states : option (list SSDStateV5)) (relationships : option (list R)),
    let r :=
      step self state p_physical p_base p_core p_upper F_direct other_states
        relationships 0 in
    fst r = self
    /\ (0 <= E_direct state -> E_direct (snd r) = E_direct state)
    /\ (forall l, 0 <= E_of l state -> E_of l (snd r) = E_of l state)
    /\ (forall l, kappa_min_of l (params self) <= kappa_of l state ->
                  kappa_of l (snd r) = kappa_of l state).
Proof.
  intros self state pp pb pc pu F os rs r.
  split; [|split; [|split]].
  - pose proof (step_engine_fields self state pp pb pc pu F os rs 0) as H.
    cbv zeta in H. fold r in H.
    destruct H as (H0 & H1 & H2 & H3 & H4 & H5 & H6 & H7 & H8 & H9 & H10 & H11
                   & H12 & H13).
    apply engine_ext;
      first [ exact H0
            | rewrite H1; ring | rewrite H2; ring | rewrite H3; ring
            | rewrite H4; ring | rewrite H5; ring | rewrite H6; ring
            | rewrite H7; ring | rewrite H8; ring | rewrite H9; ring
            | rewrite H10; ring | rewrite H11; ring | rewrite H12; ring
            | rewrite H13; ring ].
  - intros HE. subst r. rewrite step_energy_direct.
    rewrite max_of_le by lra. ring.
  - intros l HE. subst r. rewrite step_energy.
    rewrite max_of_le by lra. ring.
  - intros l Hk. subst r. rewrite step_kappa.
    assert (Hs : kappa_social_term self l state pp pb pc pu os rs 0 = 0).
    { unfold kappa_social_term. destruct os, rs; ring. }
    assert (Hl : kappa_learned (params self) l state (pressure_of l pp pb pc pu) 0
                 = kappa_of l state).
    { unfold kappa_learned. rewrite !Rmult_0_r. lra. }
    rewrite Hs, Hl, Rplus_0_r. apply max_of_le. exact Hk.
Qed.

(** * Properties of the v3.5 engine *)

Section V35.
Import V3_5 V3_5_Views.

Lemma geb_true_iff (a b : R) : Py.geb a b = true <-> b <= a.
Proof.
  unfold Py.geb, Py.ltb; destruct (Rlt_dec a b); cbn; split; intros; try lra;
    congruence.
Qed.

Lemma geb_false_iff (a b : R) : Py.geb a b = false <-> a < b.
Proof.
  unfold Py.geb, Py.ltb; destruct (Rlt_dec a b); cbn; split; intros; try lra;
    congruence.
Qed.

Lemma geb_is_not_ltb (a b : R) : Py.geb a b = negb (Py.ltb a b).
Proof. reflexivity. Qed.

(** When the criticality check fails. *)
Lemma phase_check_none (P : SSDParametersV3_5) (state : SSDStateV3_5) :
  phase_check P state = None
  <-> enable_phase_transition P = true
      /\ is_critical state = true
      /\ Theta_critical P <= E_indirect state
      /\ phase_transition_multiplier P = 0.
Proof.
  unfold phase_check.
  destruct (enable_phase_transition P);
    [|split; [discriminate | intros [H _]; discriminate]].
  rewrite geb_is_not_ltb.
  destruct (Py.ltb (E_indirect state) (Theta_critical P)) eqn:Hlt;
    [apply ltb_true_iff in Hlt | apply ltb_false_iff in Hlt];
    destruct (is_critical state); cbn [negb andb];
    try (split; [discriminate | intros (_ & H1 & H2 & _); first [discriminate | lra]]).
  destruct (PyExt.eqb (phase_transition_multiplier P) 0) eqn:Hm;
    [apply eqb_true_iff in Hm | apply eqb_false_iff in Hm].
  - split; [intros _; repeat split; [lra | exact Hm] | reflexivity].
  - split; [discriminate | intros (_ & _ & _ & H); contradiction].
Qed.

Lemma step_raises_phase (self : SSDCoreEngineV3_5) (state : SSDStateV3_5)
  (p_external : Np.ndarray) (dt : R) (contact_pressure : option Np.ndarray) :
  raises (step self state p_external dt contact_pressure) = true
  <-> phase_check (params self) state = None.
Proof.
  unfold step; cbv zeta.
  destruct (phase_check (params self) state); cbn [raises];
    split; intros; first [discriminate | reflexivity].
Qed.



(** ** Field equations of a returning call *)

Section Returning.

Variables (self : SSDCoreEngineV3_5) (state : SSDStateV3_5).
Variables (p_external : Np.ndarray) (dt : R) (contact_pressure : option Np.ndarray).
Variables (self' : SSDCoreEngineV3_5) (s' : SSDStateV3_5).
Hypothesis Hstep : step self state p_external dt contact_pressure = Returned self' s'.

Lemma v35_returned_phase :
  exists phase, phase_check (params self) state = Some phase
    /\ params self' = with_gamma_i2d (params self) (fst (fst phase))
    /\ is_critical s' = snd (fst phase)
    /\ phase_transition_count s' = snd phase.
Proof.
  revert Hstep. unfold step; cbv zeta.
  destruct (phase_check (params self) state) as [phase|]; [|discriminate].
  intros H; injection H as <- <-. exists phase. repeat split; reflexivity.
Qed.

Lemma v35_returned_fields :
  E_direct s' = Py.max 0.0 (E_direct state + E_direct_flow s' * dt)
  /\ E_indirect s' = Py.max 0.0 (E_indirect state + E_indirect_flow s' * dt)
  /\ conversion_i2d s' = gamma_i2d (params self) * E_indirect state
  /\ conversion_d2i s' = gamma_d2i (params self) * E_direct state
  /\ decay_rate s' = beta_decay (params self) * E_indirect state
  /\ kappa s' = kappa state
  /\ time self' = time self + dt
  /\ total_conversion_i2d self' = total_conversion_i2d self + conversion_i2d s' * dt
  /\ total_conversion_d2i self' = total_conversion_d2i self + conversion_d2i s' * dt
  /\ total_decay self' = total_decay self + decay_rate s' * dt
  /\ domain self' = domain self.
Proof.
  revert Hstep. unfold step; cbv zeta.
  destruct (phase_check (params self) state) as [phase|]; [|discriminate].
  intros H; injection H as <- <-. repeat split; reflexivity.
Qed.

Lemma v35_returned_flows :
  E_direct_flow s'
  = (if use_direct_action (params self)
     then alpha (params self)
          * Py.max 0 (Np.norm (F_direct s')
                      - (G0 (params self) + g (params self) * kappa state) * kappa state)
     else 0.0)
    + conversion_i2d s' - conversion_d2i s'
  /\ E_indirect_flow s'
     = fst (indirect_production self state
              (G0 (params self) + g (params self) * kappa state) (p_indirect s'))
       - conversion_i2d s' + conversion_d2i s' - decay_rate s'
  /\ reservoir_E self'
     = snd (indirect_production self state
              (G0 (params self) + g (params self) * kappa state) (p_indirect s'))
  /\ F_direct s'
     = (if use_direct_action (params self)
        then match contact_pressure with Some c => Np.copy c | None => Np.zeros 3 end
        else Np.zeros 3)
  /\ p_indirect s'
     = (if use_indirect_action (params self)
        then Np.scale (amplification_factor (params self)) p_external
        else Np.zeros 3).
Proof.
  revert Hstep. unfold step; cbv zeta.
  destruct (phase_check (params self) state) as [phase|]; [|discriminate].
  intros H; injection H as <- <-. repeat split; reflexivity.
Qed.

End Returning.

Lemma indirect_production_nonneg (self : SSDCoreEngineV3_5) (state : SSDStateV3_5)
  (G : R) (p : Np.ndarray) :
  0 <= alpha (params self) ->
  0 <= fst (indirect_production self state G p)
  /\ snd (indirect_production self state G p) <= reservoir_E self
  /\ (0 <= reservoir_E self -> 0 <= snd (indirect_production self state G p)).
Proof.
  intros Ha. unfold indirect_production; cbv zeta.
  destruct (use_indirect_action (params self)); cbn [fst snd]; [|lra].
  set (prod := alpha (params self) * Py.max 0 (Np.norm p - G * kappa state * 0.5)).
  assert (Hprod : 0 <= prod).
  { unfold prod. apply Rmult_le_pos; [exact Ha | apply max_lower_bound]. }
  unfold Py.gtb.
  destruct (Py.ltb 1.0 (amplification_factor (params self))) eqn:HA;
    [apply ltb_true_iff in HA | cbn [fst snd]; lra].
  assert (Hamp : 0 <= prod * (amplification_factor (params self) - 1.0))
    by (apply Rmult_le_pos; lra).
  destruct (Py.geb (reservoir_E self) (prod * (amplification_factor (params self) - 1.0)))
    eqn:Hres; [apply geb_true_iff in Hres|]; cbn [fst snd]; lra.
Qed.

(** X15.  A returning call of the v3.5 [step] leaves both energies
    non-negative.  The two conversions cancel in the sum of the flows, so
    the ['net_flow'] entry of [get_energy_balance] is production minus
    decay; with [alpha >= 0] the productions are never negative (pressure
    never drains energy), and the total energy is at least the old total
    plus the net flow times [dt], with equality when nothing is clamped. *)
Theorem v35_energy_budget :
  forall (self : SSDCoreEngineV3_5) (state : SSDStateV3_5)
         (p_external : Np.ndarray) (dt : R) (contact_pressure : option Np.ndarray)
         (self' : SSDCoreEngineV3_5) (s' : SSDStateV3_5),
    step self state p_external dt contact_pressure = Returned self' s' ->
    0 <= alpha (params self) ->
    let net := Balance.net_flow (get_energy_balance self' s') in
    0 <= E_direct s' /\ 0 <= E_indirect s'
    /\ conversion_i2d s' - conversion_d2i s' <= E_direct_flow s'
    /\ - conversion_i2d s' + conversion_d2i s' - decay_rate s' <= E_indirect_flow s'
    /\ - decay_rate s' <= net
    /\ get_total_energy self state + net * dt <= get_total_energy self' s'
    /\ (0 <= E_direct state + E_direct_flow s' * dt ->
        0 <= E_indirect state + E_indirect_flow s' * dt ->
        get_total_energy self' s' = get_total_energy self state + net * dt).
Proof.
  intros self state p dt c self' s' Hstep Ha net.
  destruct (v35_returned_fields _ _ _ _ _ _ _ Hstep)
    as (HEd & HEi & _).
  destruct (v35_returned_flows _ _ _ _ _ _ _ Hstep) as (Hfd & Hfi & _).
  pose proof (indirect_production_nonneg self state
                (G0 (params self) + g (params self) * kappa state) (p_indirect s') Ha)
    as (Hip & _).
  assert (Hdp : 0 <= E_direct_flow s' - conversion_i2d s' + conversion_d2i s').
  { rewrite Hfd. destruct (use_direct_action (params self)).
    - match goal with
      | |- 0 <= ?a * ?m + _ - _ - _ + _ =>
          assert (0 <= a * m) by (apply Rmult_le_pos; [exact Ha | apply max_lower_bound])
      end.
      lra.
    - lra. }
  subst net. unfold get_energy_balance, get_total_energy; cbn [Balance.net_flow].
  pose proof (max_lower_bound 0.0 (E_direct state + E_direct_flow s' * dt)) as Hc1.
  pose proof (max_lower_bound 0.0 (E_indirect state + E_indirect_flow s' * dt)) as Hc2.
  pose proof (max_upper_bound 0.0 (E_direct state + E_direct_flow s' * dt)) as Hu1.
  pose proof (max_upper_bound 0.0 (E_indirect state + E_indirect_flow s' * dt)) as Hu2.
  rewrite <- HEd in Hc1, Hu1. rewrite <- HEi in Hc2, Hu2.
  repeat split; try lra.
  intros H1 H2. rewrite HEd, HEi, !max_of_le by lra. ring.
Qed.

Lemma v35_energy_budget_witness :
  0 <= E_direct (state_of (step engine_revolution state_revolution (Np.zeros 3) 0.1 None))
  /\ 0 <= E_indirect
            (state_of (step engine_revolution state_revolution (Np.zeros 3) 0.1 None)).
Proof.
  assert (Ha : 0 <= alpha (params engine_revolution)) by (cbn; lra).
  assert (Hs : step engine_revolution state_revolution (Np.zeros 3) 0.1 None
               = Returned
                   (engine_of (step engine_revolution state_revolution (Np.zeros 3) 0.1 None))
                   (state_of (step engine_revolution state_revolution (Np.zeros 3) 0.1 None))).
  { unfold step; cbv zeta.
    assert (Hp : phase_check (params engine_revolution) state_revolution
                 = Some (gamma_i2d (params engine_revolution), false, 0%Z)).
    { unfold phase_check. cbn [engine_revolution __init__ params create_revolution_params
                                 enable_phase_transition state_revolution SSDStateV3_5_init
                                 E_indirect Theta_critical is_critical negb andb
                                 phase_transition_count gamma_i2d].
      rewrite (proj2 (ltb_false_iff 600.0 500.0)) by lra. cbn [andb].
      rewrite geb_is_not_ltb, (proj2 (ltb_false_iff 600.0 500.0)) by lra.
      reflexivity. }
    rewrite Hp. reflexivity. }
  pose proof (v35_energy_budget _ _ _ _ _ _ _ Hs Ha) as H.
  cbv zeta in H. destruct H as (H1 & H2 & _).
  split; assumption.
Defined.

Lemma phase_check_some (P : SSDParametersV3_5) (state : SSDStateV3_5)
  (phase : R * bool * Z) :
  phase_check P state = Some phase ->
  enable_phase_transition P = true ->
  snd (fst phase) = Py.ltb (E_indirect state) (Theta_critical P)
  /\ snd phase
     = (phase_transition_count state
        + (if negb (is_critical state) && snd (fst phase) then 1 else 0))%Z
  /\ fst (fst phase)
     = (if negb (is_critical state) && snd (fst phase)
        then gamma_i2d P * phase_transition_multiplier P
        else if is_critical state && negb (snd (fst phase))
             then gamma_i2d P / phase_transition_multiplier P
             else gamma_i2d P)
  /\ (negb (snd (fst phase)) && is_critical state = true ->
      phase_transition_multiplier P <> 0).
Proof.
  unfold phase_check. intros Hp Hen. rewrite Hen in Hp.
  rewrite geb_is_not_ltb in Hp.
  destruct (Py.ltb (E_indirect state) (Theta_critical P));
    destruct (is_critical state); cbn [negb andb] in Hp |- *.
  all: try (destruct (PyExt.eqb (phase_transition_multiplier P) 0) eqn:Hm;
            [discriminate | apply eqb_false_iff in Hm]).
  all: injection Hp as <-; cbn [fst snd andb negb];
    repeat split; try reflexivity; try lia; try discriminate;
    try (intros _; exact Hm).
Qed.

Lemma phase_check_disabled (P : SSDParametersV3_5) (state : SSDStateV3_5) :
  enable_phase_transition P = false ->
  phase_check P state
  = Some (gamma_i2d P, is_critical state, phase_transition_count state).
Proof. unfold phase_check. intros ->. reflexivity. Qed.

Lemma with_gamma_i2d_fields (P : SSDParametersV3_5) (x : R) :
  gamma_i2d (with_gamma_i2d P x) = x
  /\ phase_transition_multiplier (with_gamma_i2d P x) = phase_transition_multiplier P
  /\ alpha (with_gamma_i2d P x) = alpha P
  /\ enable_phase_transition (with_gamma_i2d P x) = enable_phase_transition P
  /\ (forall y, with_gamma_i2d (with_gamma_i2d P x) y = with_gamma_i2d P y).
Proof. repeat split; reflexivity. Qed.

Lemma with_gamma_i2d_same (P : SSDParametersV3_5) :
  with_gamma_i2d P (gamma_i2d P) = P.
Proof. destruct P; reflexivity. Qed.

Lemma step_keeps_consistent (self : SSDCoreEngineV3_5) (state : SSDStateV3_5)
  (p_external : Np.ndarray) (dt : R) (contact_pressure : option Np.ndarray)
  (self' : SSDCoreEngineV3_5) (s' : SSDStateV3_5) (gamma0 : R) :
  step self state p_external dt contact_pressure = Returned self' s' ->
  consistent gamma0 self state -> consistent gamma0 self' s'.
Proof.
  intros Hstep Hc.
  destruct (v35_returned_phase _ _ _ _ _ _ _ Hstep) as (phase & Hp & Hpar & Hcrit & _).
  unfold consistent in *. rewrite Hpar, Hcrit. cbn [with_gamma_i2d gamma_i2d
    phase_transition_multiplier].
  destruct (enable_phase_transition (params self)) eqn:Hen.
  - destruct (phase_check_some _ _ _ Hp Hen) as (_ & _ & Hg & Hm).
    rewrite Hg, Hc. unfold gamma_for.
    destruct (is_critical state), (snd (fst phase)); cbn [negb andb] in *;
      try reflexivity.
    field. apply Hm. reflexivity.
  - rewrite (phase_check_disabled _ _ Hen) in Hp. injection Hp as <-.
    cbn [fst snd]. exact Hc.
Qed.

(** X16.  With the phase transition enabled, a returning call sets
    [is_critical] to whether the indirect energy at the start of the call
    was below the threshold, counts a transition exactly when the flag
    turns on, multiplies the engine's [gamma_i2d] by the multiplier when
    the flag turns on and divides it when the flag turns off; the
    conversion of that call still uses the rate the engine had on entry.
    The engine's rate stays matched to the flag: if it was the configured
    rate while not critical and the amplified rate while critical, it
    still is after the call. *)
Theorem v35_phase_transition_hysteresis :
  forall (self : SSDCoreEngineV3_5) (state : SSDStateV3_5)
         (p_external : Np.ndarray) (dt : R) (contact_pressure : option Np.ndarray)
         (self' : SSDCoreEngineV3_5) (s' : SSDStateV3_5),
    step self state p_external dt contact_pressure = Returned self' s' ->
    enable_phase_transition (params self) = true ->
    let turns_on := negb (is_critical state) && is_critical s' in
    let turns_off := is_critical state && negb (is_critical s') in
    is_critical s' = Py.ltb (E_indirect state) (Theta_critical (params self))
    /\ phase_transition_count s'
       = (phase_transition_count state + (if turns_on then 1 else 0))%Z
    /\ gamma_i2d (params self')
       = (if turns_on
          then gamma_i2d (params self) * phase_transition_multiplier (params self)
          else if turns_off
               then gamma_i2d (params self) / phase_transition_multiplier (params self)
               else gamma_i2d (params self))
    /\ with_gamma_i2d (params self') (gamma_i2d (params self)) = params self
    /\ conversion_i2d s' = gamma_i2d (params self) * E_indirect state
    /\ (forall gamma0 : R, consistent gamma0 self state -> consistent gamma0 self' s').
Proof.
  intros self state p dt c self' s' Hstep Hen turns_on turns_off.
  destruct (v35_returned_phase _ _ _ _ _ _ _ Hstep) as (phase & Hp & Hpar & Hcrit & Hcnt).
  destruct (phase_check_some _ _ _ Hp Hen) as (H1 & H2 & H3 & _).
  destruct (v35_returned_fields _ _ _ _ _ _ _ Hstep) as (_ & _ & Hconv & _).
  subst turns_on turns_off. rewrite Hcrit, Hcnt, Hpar.
  split; [exact H1|]. split; [exact H2|]. split; [exact H3|].
  split; [|split; [exact Hconv|]].
  - rewrite (proj2 (proj2 (proj2 (proj2 (with_gamma_i2d_fields _ _))))).
    apply with_gamma_i2d_same.
  - intros gamma0. apply (step_keeps_consistent _ _ _ _ _ _ _ _ Hstep).
Qed.

Lemma outcome_returned (o : Outcome) :
  raises o = false -> o = Returned (engine_of o) (state_of o).
Proof. destruct o; [reflexivity | discriminate]. Qed.

Lemma step_returns (self : SSDCoreEngineV3_5) (state : SSDStateV3_5)
  (p_external : Np.ndarray) (dt : R) (contact_pressure : option Np.ndarray) :
  enable_phase_transition (params self) = false
  \/ phase_transition_multiplier (params self) <> 0 ->
  step self state p_external dt contact_pressure
  = Returned (engine_of (step self state p_external dt contact_pressure))
      (state_of (step self state p_external dt contact_pressure)).
Proof.
  intros Hok. apply outcome_returned.
  destruct (raises (step self state p_external dt contact_pressure)) eqn:Hr;
    [|reflexivity].
  apply step_raises_phase, phase_check_none in Hr.
  destruct Hr as (Hen & _ & _ & Hm). destruct Hok; congruence.
Qed.

Lemma v35_phase_transition_hysteresis_witness :
  is_critical
    (state_of (step engine_revolution state_below_threshold (Np.zeros 3) 0.1 None))
  = true
  /\ gamma_i2d
       (params (engine_of (step engine_revolution state_below_threshold (Np.zeros 3)
                             0.1 None)))
     = 0.1 * 10.0.
Proof.
  assert (Hen : enable_phase_transition (params engine_revolution) = true)
    by reflexivity.
  assert (Hm : phase_transition_multiplier (params engine_revolution) <> 0)
    by (cbn; lra).
  pose proof (step_returns engine_revolution state_below_threshold (Np.zeros 3) 0.1
                None (or_intror Hm)) as Hs.
  pose proof (v35_phase_transition_hysteresis _ _ _ _ _ _ _ Hs Hen) as H.
  cbv zeta in H. destruct H as (Hc & _ & Hg & _).
  assert (Hlt : Py.ltb (E_indirect state_below_threshold)
                  (Theta_critical (params engine_revolution)) = true)
    by (apply ltb_true_iff; cbn; lra).
  rewrite Hlt in Hc. rewrite Hc in Hg. split; [exact Hc|exact Hg].
Defined.

(** ** Runs of the engine *)

Lemma step_preserves (self : SSDCoreEngineV3_5) (state : SSDStateV3_5)
  (p_external : Np.ndarray) (dt : R) (contact_pressure : option Np.ndarray)
  (self' : SSDCoreEngineV3_5) (s' : SSDStateV3_5) :
  step self state p_external dt contact_pressure = Returned self' s' ->
  with_gamma_i2d (params self') (gamma_i2d (params self)) = params self
  /\ phase_transition_multiplier (params self') = phase_transition_multiplier (params self)
  /\ alpha (params self') = alpha (params self)
  /\ enable_phase_transition (params self') = enable_phase_transition (params self)
  /\ kappa s' = kappa state
  /\ time self' = time self + dt
  /\ 0 <= E_direct s' /\ 0 <= E_indirect s'
  /\ (0 <= alpha (params self) ->
      reservoir_E self' <= reservoir_E self
      /\ (0 <= reservoir_E self -> 0 <= reservoir_E self')).
Proof.
  intros Hstep.
  destruct (v35_returned_phase _ _ _ _ _ _ _ Hstep) as (phase & _ & Hpar & _).
  destruct (v35_returned_fields _ _ _ _ _ _ _ Hstep)
    as (HEd & HEi & _ & _ & _ & Hk & Ht & _).
  destruct (v35_returned_flows _ _ _ _ _ _ _ Hstep) as (_ & _ & Hres & _).
  rewrite Hpar, HEd, HEi, Hres.
  split.
  { rewrite (proj2 (proj2 (proj2 (proj2 (with_gamma_i2d_fields _ _))))).
    apply with_gamma_i2d_same. }
  do 5 (split; [first [reflexivity | assumption]|]).
  split; [apply max_zero_nonneg|]. split; [apply max_zero_nonneg|].
  intros Ha. apply (indirect_production_nonneg self state _ _ Ha).
Qed.

(** X17.  Any sequence of calls of the v3.5 [step] on one engine and one
    state, when the phase transition is disabled or the multiplier is not
    zero: no call raises; the engine's [gamma_i2d] stays matched to the
    critical flag and no other parameter ever changes; the inertia [kappa]
    is never changed; the clock advances by the sum of the time steps; and
    with [alpha >= 0] the reservoir never grows and never becomes
    negative. *)
Theorem v35_run_invariants :
  forall (inputs : list Input) (self : SSDCoreEngineV3_5) (state : SSDStateV3_5)
         (gamma0 : R),
    enable_phase_transition (params self) = false
    \/ phase_transition_multiplier (params self) <> 0 ->
    consistent gamma0 self state ->
    let o := run self state inputs in
    raises o = false
    /\ consistent gamma0 (engine_of o) (state_of o)
    /\ with_gamma_i2d (params (engine_of o)) (gamma_i2d (params self)) = params self
    /\ kappa (state_of o) = kappa state
    /\ time (engine_of o) = time self + elapsed inputs
    /\ (inputs <> [] -> 0 <= E_direct (state_of o) /\ 0 <= E_indirect (state_of o))
    /\ (0 <= alpha (params self) ->
        reservoir_E (engine_of o) <= reservoir_E self
        /\ (0 <= reservoir_E self -> 0 <= reservoir_E (engine_of o))).
Proof.
  induction inputs as [|[[p dt] c] rest IH]; intros self state gamma0 Hok Hc o.
  - subst o. cbn [run raises engine_of state_of elapsed fold_right].
    split; [reflexivity|]. split; [exact Hc|].
    split; [apply with_gamma_i2d_same|]. split; [reflexivity|].
    split; [ring|]. split; [intros H; contradiction|]. intros _. split; lra.
  - pose proof (step_returns self state p dt c Hok) as Hs.
    set (self1 := engine_of (step self state p dt c)) in *.
    set (s1 := state_of (step self state p dt c)) in *.
    destruct (step_preserves _ _ _ _ _ _ _ Hs)
      as (Hpar & Hm & Ha & Hen & Hk & Ht & HEd & HEi & Hres).
    assert (Hok1 : enable_phase_transition (params self1) = false
                   \/ phase_transition_multiplier (params self1) <> 0)
      by (rewrite Hen, Hm; exact Hok).
    pose proof (step_keeps_consistent _ _ _ _ _ _ _ gamma0 Hs Hc) as Hc1.
    specialize (IH self1 s1 gamma0 Hok1 Hc1). cbv zeta in IH.
    assert (Ho : o = run self1 s1 rest).
    { subst o. cbn [run]. rewrite Hs. reflexivity. }
    rewrite Ho. clear Ho o.
    destruct IH as (I1 & I2 & I3 & I4 & I5 & I6 & I7).
    split; [exact I1|]. split; [exact I2|].
    split.
    { rewrite <- Hpar.
      rewrite <- I3 at 2.
      rewrite !(proj2 (proj2 (proj2 (proj2 (with_gamma_i2d_fields _ _))))).
      reflexivity. }
    split; [rewrite I4; exact Hk|].
    split; [rewrite I5, Ht; cbn [elapsed fold_right fst snd]; unfold elapsed; ring|].
    split.
    { intros _. destruct rest as [|i rest'].
      - cbn [run state_of]. split; assumption.
      - apply I6. discriminate. }
    intros Halpha. rewrite Ha in I7. specialize (I7 Halpha).
    specialize (Hres Halpha). destruct I7 as [J1 J2]. destruct Hres as [K1 K2].
    split; [lra|]. intros H0. apply J2, K2, H0.
Qed.

Lemma v35_run_invariants_witness :
  raises (run engine_revolution state_revolution
            [(Np.zeros 3, 0.1, None); ([1; 0; 0], 0.1, Some [5; 0; 0])]) = false
  /\ time (engine_of (run engine_revolution state_revolution
                        [(Np.zeros 3, 0.1, None); ([1; 0; 0], 0.1, Some [5; 0; 0])]))
     = time engine_revolution
       + elapsed [(Np.zeros 3, 0.1, None); ([1; 0; 0], 0.1, Some [5; 0; 0])].
Proof.
  assert (Hm : enable_phase_transition (params engine_revolution) = false
               \/ phase_transition_multiplier (params engine_revolution) <> 0)
    by (right; cbn; lra).
  assert (Hc : consistent 0.1 engine_revolution state_revolution) by reflexivity.
  pose proof (v35_run_invariants
                [(Np.zeros 3, 0.1, None); ([1; 0; 0], 0.1, Some [5; 0; 0])]
                engine_revolution state_revolution 0.1 Hm Hc) as H.
  cbv zeta in H. destruct H as (H1 & _ & _ & _ & H5 & _).
  split; [exact H1 | exact H5].
Defined.

(** ** The amplification of the indirect channel *)

(** X18.  With the indirect channel in use and an amplification factor
    [A > 1], the factor enters twice: the external pressure is scaled by
    [A] before the production [alpha * max(0, A*|p| - G*kappa/2)] is
    formed, and when the reservoir holds at least [(A - 1)] times that
    production the production itself is multiplied by [A], the reservoir
    paying the difference.  When the reservoir holds less, nothing is
    drawn and the production is not amplified at all. *)
Theorem v35_amplification_enters_twice :
  forall (self : SSDCoreEngineV3_5) (state : SSDStateV3_5)
         (p_external : Np.ndarray) (dt : R) (contact_pressure : option Np.ndarray)
         (self' : SSDCoreEngineV3_5) (s' : SSDStateV3_5),
    step self state p_external dt contact_pressure = Returned self' s' ->
    use_indirect_action (params self) = true ->
    1 < amplification_factor (params self) ->
    let A := amplification_factor (params self) in
    let G := G0 (params self) + g (params self) * kappa state in
    let base :=
      alpha (params self) * Py.max 0 (A * Np.norm p_external - G * kappa state * 0.5) in
    let production :=
      E_indirect_flow s' + conversion_i2d s' - conversion_d2i s' + decay_rate s' in
    (base * (A - 1) <= reservoir_E self ->
     production = A * base /\ reservoir_E self' = reservoir_E self - base * (A - 1))
    /\ (reservoir_E self < base * (A - 1) ->
        production = base /\ reservoir_E self' = reservoir_E self).
Proof.
  intros self state p dt c self' s' Hstep Hind HA A G base production.
  destruct (v35_returned_flows _ _ _ _ _ _ _ Hstep) as (_ & Hfi & Hres & _ & Hp).
  assert (Hprod : production
                  = fst (indirect_production self state G (p_indirect s')))
    by (subst production; rewrite Hfi; fold G; ring).
  fold G in Hres. rewrite Hprod, Hres, Hp, Hind.
  unfold indirect_production; cbv zeta. rewrite Hind.
  rewrite norm_scale. fold A. rewrite (Rabs_right A) by (subst A; lra).
  fold base.
  assert (Hgt : Py.gtb A 1.0 = true)
    by (unfold Py.gtb; apply ltb_true_iff; subst A; lra).
  rewrite Hgt.
  replace (base * (A - 1.0)) with (base * (A - 1)) by lra.
  split; intros Hreservoir.
  - rewrite (proj2 (geb_true_iff _ _) Hreservoir). cbn [fst snd]. split; ring.
  - rewrite (proj2 (geb_false_iff _ _) Hreservoir). cbn [fst snd]. split; reflexivity.
Qed.

Lemma v35_amplification_enters_twice_witness :
  E_indirect_flow
    (state_of (step engine_revolution state_revolution [1; 0; 0] 0.1 None))
  + conversion_i2d
      (state_of (step engine_revolution state_revolution [1; 0; 0] 0.1 None))
  - conversion_d2i
      (state_of (step engine_revolution state_revolution [1; 0; 0] 0.1 None))
  + decay_rate
      (state_of (step engine_revolution state_revolution [1; 0; 0] 0.1 None))
  = 50.0 * (0.5 * (50.0 * 1 - (0.5 + 0.3 * 1.0) * 1.0 * 0.5)).
Proof.
  assert (Hm : enable_phase_transition (params engine_revolution) = false
               \/ phase_transition_multiplier (params engine_revolution) <> 0)
    by (right; cbn; lra).
  pose proof (step_returns engine_revolution state_revolution [1; 0; 0] 0.1 None Hm)
    as Hs.
  assert (Hind : use_indirect_action (params engine_revolution) = true) by reflexivity.
  assert (HA : 1 < amplification_factor (params engine_revolution)) by (cbn; lra).
  pose proof (v35_amplification_enters_twice _ _ _ _ _ _ _ Hs Hind HA) as H.
  cbv zeta in H. destruct H as [H _].
  assert (Hbase : alpha (params engine_revolution)
                  * Py.max 0
                      (amplification_factor (params engine_revolution)
                       * Np.norm [1; 0; 0]
                       - (G0 (params engine_revolution)
                          + g (params engine_revolution) * kappa state_revolution)
                         * kappa state_revolution * 0.5)
                  = 0.5 * (50.0 * 1 - (0.5 + 0.3 * 1.0) * 1.0 * 0.5)).
  { rewrite norm_unit_x.
    cbn [engine_revolution __init__ params create_revolution_params alpha
         amplification_factor G0 g state_revolution SSDStateV3_5_init kappa].
    rewrite max_of_lt by lra. reflexivity. }
  rewrite Hbase in H.
  destruct H as [H _]; [cbn; lra|].
  rewrite H. reflexivity.
Defined.

(** ** Switched-off channels *)

(** X19.  A channel that is switched off is ignored: with
    [use_indirect_action = False] the result of [step] does not depend on
    the external pressure and the reservoir is not touched; with
    [use_direct_action = False] it does not depend on the contact
    pressure, and no direct energy is produced. *)
Theorem v35_disabled_channels_are_ignored :
  forall (self : SSDCoreEngineV3_5) (state : SSDStateV3_5) (dt : R),
    (use_indirect_action (params self) = false ->
     forall (p1 p2 : Np.ndarray) (c : option Np.ndarray),
       step self state p1 dt c = step self state p2 dt c
       /\ reservoir_E (engine_of (step self state p1 dt c)) = reservoir_E self
       /\ p_indirect (state_of (step self state p1 dt c)) = Np.zeros 3)
    /\ (use_direct_action (params self) = false ->
        forall (p : Np.ndarray) (c1 c2 : option Np.ndarray),
          step self state p dt c1 = step self state p dt c2
          /\ F_direct (state_of (step self state p dt c1)) = Np.zeros 3
          /\ (raises (step self state p dt c1) = false ->
              E_direct_flow (state_of (step self state p dt c1))
              = gamma_i2d (params self) * E_indirect state
                - gamma_d2i (params self) * E_direct state)).
Proof.
  intros self state dt. split.
  - intros Hoff p1 p2 c. unfold step, indirect_production; cbv zeta. rewrite Hoff.
    split; [reflexivity|].
    destruct (phase_check (params self) state); split; reflexivity.
  - intros Hoff p c1 c2. unfold step; cbv zeta. rewrite Hoff.
    split; [reflexivity|].
    destruct (phase_check (params self) state); cbn [state_of raises F_direct E_direct_flow].
    + split; [reflexivity|]. intros _. lra.
    + split; [reflexivity|]. discriminate.
Qed.

Lemma v35_disabled_channels_are_ignored_witness :
  step (__init__ create_physics_params) state_revolution [1; 0; 0] 0.1 None
  = step (__init__ create_physics_params) state_revolution [2; 0; 0] 0.1 None.
Proof.
  assert (Hoff : use_indirect_action (params (__init__ create_physics_params)) = false)
    by reflexivity.
  exact (proj1 (proj1 (v35_disabled_channels_are_ignored
                         (__init__ create_physics_params) state_revolution 0.1)
                  Hoff [1; 0; 0] [2; 0; 0] None)).
Defined.

(** ** The coupling strength *)

(** X20.  [get_coupling_strength] is [min(1, (gamma_i2d + gamma_d2i) / 10)]:
    never above 1, equal to 1 exactly when the two rates sum to 10 or more,
    and non-negative when the rates are.  It reads the engine's current
    [gamma_i2d], so after a call that turns the critical flag on (with both
    rates non-negative and a multiplier of at least 1) it is at least what
    it was before. *)
Theorem v35_coupling_strength :
  forall (self : SSDCoreEngineV3_5),
    get_coupling_strength self <= 1
    /\ (get_coupling_strength self = 1
        <-> 10 <= gamma_i2d (params self) + gamma_d2i (params self))
    /\ (0 <= gamma_i2d (params self) + gamma_d2i (params self) ->
        0 <= get_coupling_strength self)
    /\ (forall (state : SSDStateV3_5) (p_external : Np.ndarray) (dt : R)
               (contact_pressure : option Np.ndarray)
               (self' : SSDCoreEngineV3_5) (s' : SSDStateV3_5),
          step self state p_external dt contact_pressure = Returned self' s' ->
          enable_phase_transition (params self) = true ->
          is_critical state = false -> is_critical s' = true ->
          0 <= gamma_i2d (params self) ->
          1 <= phase_transition_multiplier (params self) ->
          get_coupling_strength self <= get_coupling_strength self').
Proof.
  intros self.
  assert (Hmin : forall x : R, Py.min 1.0 (x / 10.0) <= 1
                               /\ (Py.min 1.0 (x / 10.0) = 1 <-> 10 <= x)
                               /\ (0 <= x -> 0 <= Py.min 1.0 (x / 10.0))).
  { intros x. unfold Py.min, Py.ltb.
    destruct (Rlt_dec (x / 10.0) 1.0); repeat split; intros; lra. }
  assert (Hmono : forall x y : R, x <= y ->
                                  Py.min 1.0 (x / 10.0) <= Py.min 1.0 (y / 10.0)).
  { intros x y Hxy. apply min_one_monotone. lra. }
  unfold get_coupling_strength; cbv zeta.
  destruct (Hmin (gamma_i2d (params self) + gamma_d2i (params self))) as (H1 & H2 & H3).
  split; [exact H1|]. split; [exact H2|]. split; [exact H3|].
  intros state p dt c self' s' Hstep Hen Hoff Hon Hg Hm.
  destruct (v35_returned_phase _ _ _ _ _ _ _ Hstep) as (phase & Hp & Hpar & Hcrit & _).
  destruct (phase_check_some _ _ _ Hp Hen) as (_ & _ & Hgam & _).
  rewrite Hoff, <- Hcrit, Hon in Hgam. cbn [negb andb] in Hgam.
  rewrite Hpar. cbn [with_gamma_i2d gamma_i2d gamma_d2i]. rewrite Hgam.
  apply Hmono. nra.
Qed.

(** ** Calls without contact pressure *)

(** X21.  A call of the v3.5 [step] without contact pressure, as every
    call made by the werewolf game is, sets [F_direct] to the zero vector.
    When the structural reaction [(G0 + g * kappa) * kappa] is not
    negative the direct pool then receives nothing but the net conversion;
    when it is negative (which needs a negative [kappa], or a negative
    stiffness) and the direct channel is on, the direct pool is fed
    [alpha] times the magnitude of the reaction although no force acts. *)
Theorem v35_without_contact_pressure :
  forall (self : SSDCoreEngineV3_5) (state : SSDStateV3_5)
         (p_external : Np.ndarray) (dt : R)
         (self' : SSDCoreEngineV3_5) (s' : SSDStateV3_5),
    step self state p_external dt None = Returned self' s' ->
    let reaction := (G0 (params self) + g (params self) * kappa state) * kappa state in
    F_direct s' = Np.zeros 3
    /\ (0 <= reaction ->
        E_direct_flow s' = conversion_i2d s' - conversion_d2i s')
    /\ (reaction < 0 -> use_direct_action (params self) = true ->
        E_direct_flow s'
        = alpha (params self) * - reaction + conversion_i2d s' - conversion_d2i s').
Proof.
  intros self state p dt self' s' Hstep reaction.
  destruct (v35_returned_flows _ _ _ _ _ _ _ Hstep) as (Hfd & _ & _ & HF & _).
  assert (HF0 : F_direct s' = Np.zeros 3)
    by (rewrite HF; destruct (use_direct_action (params self)); reflexivity).
  split; [exact HF0|].
  rewrite Hfd, HF0, norm_zeros. fold reaction.
  split.
  - intros Hr. destruct (use_direct_action (params self)); [|lra].
    rewrite max_of_ge by lra. lra.
  - intros Hr ->. rewrite max_of_lt by lra. lra.
Qed.

Lemma v35_without_contact_pressure_witness :
  E_direct_flow (state_of (step engine_revolution state_revolution [1; 0; 0] 0.1 None))
  = conversion_i2d
      (state_of (step engine_revolution state_revolution [1; 0; 0] 0.1 None))
    - conversion_d2i
        (state_of (step engine_revolution state_revolution [1; 0; 0] 0.1 None)).
Proof.
  assert (Hm : enable_phase_transition (params engine_revolution) = false
               \/ phase_transition_multiplier (params engine_revolution) <> 0)
    by (right; cbn; lra).
  pose proof (step_returns engine_revolution state_revolution [1; 0; 0] 0.1 None Hm)
    as Hs.
  apply (v35_without_contact_pressure _ _ _ _ _ _ Hs).
  cbn. lra.
Defined.

End V35.

(** * Properties of the pressure system *)

Section MdpProperties.
Import Mdp Mdp_Views.

Lemma accumulate_contribution (context : Context) (totals : R * R)
  (dim : PressureDimension) :
  accumulate context totals dim
  = match contribution context dim with
    | Some v => (fst totals + weight dim * v, snd totals + weight dim)
    | None => totals
    end.
Proof.
  unfold accumulate, contribution. destruct (enabled dim); reflexivity.
Qed.

Lemma fold_accumulate (context : Context) (dims : list (string * PressureDimension)) :
  forall totals : R * R,
    fold_left (fun totals item => accumulate context totals (snd item)) dims totals
    = (fst totals + weighted_sum context dims, snd totals + weight_sum context dims).
Proof.
  induction dims as [|item dims IH]; intros [tp tw];
    cbn [fold_left weighted_sum weight_sum fold_right fst snd].
  - f_equal; ring.
  - rewrite IH, accumulate_contribution.
    fold (weighted_sum context dims). fold (weight_sum context dims).
    destruct (contribution context (snd item)); cbn [fst snd]; f_equal; ring.
Qed.

Lemma weight_sum_nonneg (context : Context) (lo hi : R)
  (dims : list (string * PressureDimension)) :
  contributions_within context lo hi dims ->
  0 <= weight_sum context dims
  /\ lo * weight_sum context dims <= weighted_sum context dims
     <= hi * weight_sum context dims.
Proof.
  induction 1 as [|item dims Hitem _ IH]; cbn [weight_sum weighted_sum fold_right].
  - lra.
  - fold (weighted_sum context dims). fold (weight_sum context dims).
    destruct (contribution context (snd item)) as [v|]; [|exact IH].
    destruct Hitem as [Hw Hv]. destruct IH as [IH1 IH2]. nra.
Qed.

Lemma calculate_value (self : MultiDimensionalPressure) (context : Context) :
  snd (calculate self context)
  = [ (if Py.gtb (0.0 + weight_sum context (dimensions self)) 0
       then (0.0 + weighted_sum context (dimensions self))
            / (0.0 + weight_sum context (dimensions self))
       else 0.0); 0.0; 0.0 ].
Proof.
  unfold calculate; cbv zeta. rewrite fold_accumulate. reflexivity.
Qed.

(** X22.  [MultiDimensionalPressure.calculate] returns the vector
    [[x, 0, 0]] and appends [x] to the total history, where [x] is the
    weighted mean of the values of the dimensions that are enabled and
    whose calculator does not raise, and [0] when their weights do not sum
    to something positive.  With non-negative weights the mean lies within
    any range that contains all contributing values. *)
Theorem mdp_calculate_weighted_mean :
  forall (self : MultiDimensionalPressure) (context : Context),
    let W := weight_sum context (dimensions self) in
    let S := weighted_sum context (dimensions self) in
    exists x : R,
      snd (calculate self context) = [x; 0.0; 0.0]
      /\ total_pressure_history (fst (calculate self context))
         = total_pressure_history self ++ [x]
      /\ (0 < W -> x = S / W)
      /\ (W <= 0 -> x = 0)
      /\ (forall lo hi : R,
            contributions_within context lo hi (dimensions self) ->
            0 < W -> lo <= x <= hi).
Proof.
  intros self context W S.
  exists (if Py.gtb (0.0 + W) 0 then (0.0 + S) / (0.0 + W) else 0.0).
  split; [apply calculate_value|].
  split.
  { unfold calculate; cbv zeta. rewrite fold_accumulate. reflexivity. }
  assert (Hpos : 0 < W -> Py.gtb (0.0 + W) 0 = true)
    by (intros H; unfold Py.gtb; apply ltb_true_iff; lra).
  assert (Hneg : W <= 0 -> Py.gtb (0.0 + W) 0 = false)
    by (intros H; unfold Py.gtb; apply ltb_false_iff; lra).
  split; [|split].
  - intros H. rewrite (Hpos H). f_equal; lra.
  - intros H. rewrite (Hneg H). lra.
  - intros lo hi Hwithin H. rewrite (Hpos H).
    destruct (weight_sum_nonneg context lo hi _ Hwithin) as [_ [Hlo Hhi]].
    fold W in Hlo, Hhi. fold S in Hlo, Hhi.
    replace ((0.0 + S) / (0.0 + W)) with (S / W) by (f_equal; lra).
    split.
    + apply (Rmult_le_reg_r W); [exact H|].
      unfold Rdiv. rewrite Rmult_assoc, Rinv_l by lra. lra.
    + apply (Rmult_le_reg_r W); [exact H|].
      unfold Rdiv. rewrite Rmult_assoc, Rinv_l by lra. lra.
Qed.

(** ** Switching a dimension off *)

Lemma weighted_sum_cons (context : Context) (item : string * PressureDimension)
  (dims : list (string * PressureDimension)) :
  weighted_sum context (item :: dims)
  = match contribution context (snd item) with
    | Some v => weight (snd item) * v + weighted_sum context dims
    | None => weighted_sum context dims
    end.
Proof. reflexivity. Qed.

Lemma weight_sum_cons (context : Context) (item : string * PressureDimension)
  (dims : list (string * PressureDimension)) :
  weight_sum context (item :: dims)
  = match contribution context (snd item) with
    | Some _ => weight (snd item) + weight_sum context dims
    | None => weight_sum context dims
    end.
Proof. reflexivity. Qed.

(** A change of the entry under [k] after which it contributes nothing
    has the effect of deleting the entry. *)
Lemma sums_dict_update_silent (context : Context) (k : string)
  (f : PressureDimension -> PressureDimension)
  (dims : list (string * PressureDimension)) :
  (forall dim, match contribution context (f dim) with
               | Some v => weight (f dim) = 0
               | None => True
               end) ->
  weighted_sum context (dict_update dims k f)
  = weighted_sum context (PyExt.dict_remove dims k)
  /\ weight_sum context (dict_update dims k f)
     = weight_sum context (PyExt.dict_remove dims k).
Proof.
  intros Hsilent.
  induction dims as [|[k' dim] dims [IH1 IH2]];
    cbn [dict_update map PyExt.dict_remove filter fst snd].
  - split; reflexivity.
  - fold (dict_update dims k f). fold (PyExt.dict_remove dims k).
    destruct (String.eqb k' k); cbn [negb];
      rewrite !weighted_sum_cons, !weight_sum_cons; cbn [fst snd].
    + specialize (Hsilent dim).
      destruct (contribution context (f dim)) as [v|].
      * rewrite Hsilent, IH1, IH2. split; ring.
      * split; assumption.
    + rewrite IH1, IH2. split; reflexivity.
Qed.

Lemma dict_remove_absent {A : Type} (k : string) (d : list (string * A)) :
  Py.contains k d = false -> PyExt.dict_remove d k = d.
Proof.
  unfold Py.contains, PyExt.dict_remove.
  induction d as [|[k' v] d IH]; cbn [existsb filter fst]; [reflexivity|].
  intros H. apply orb_false_elim in H. destruct H as [H1 H2].
  rewrite H1. cbn [negb]. f_equal. apply IH, H2.
Qed.

(** X23.  For the vector that [calculate] returns, disabling a dimension
    with [enable_dimension(name, False)], setting its weight to zero with
    [set_weight(name, 0)] and deleting it with [remove_dimension(name)] are
    the same; and each of the three methods leaves the system untouched
    when no dimension has that name. *)
Theorem mdp_disabled_is_as_removed :
  forall (self : MultiDimensionalPressure) (k : string) (context : Context),
    snd (calculate (enable_dimension self k false) context)
    = snd (calculate (remove_dimension self k) context)
    /\ snd (calculate (set_weight self k 0) context)
       = snd (calculate (remove_dimension self k) context)
    /\ (Py.contains k (dimensions self) = false ->
        forall (b : bool) (w : R),
          enable_dimension self k b = self
          /\ set_weight self k w = self
          /\ remove_dimension self k = self).
Proof.
  intros self k context.
  rewrite !calculate_value.
  unfold enable_dimension, set_weight, remove_dimension.
  destruct (Py.contains k (dimensions self)) eqn:Hin; cbn [dimensions].
  - destruct (sums_dict_update_silent context k
                (fun dim => {| name := name dim; weight := weight dim;
                               calculator := calculator dim; enabled := false;
                               description := description dim;
                               history := history dim |})
                (dimensions self)) as [E1 E2]; [intros dim; exact I|].
    destruct (sums_dict_update_silent context k
                (fun dim => {| name := name dim; weight := 0;
                               calculator := calculator dim; enabled := enabled dim;
                               description := description dim;
                               history := history dim |})
                (dimensions self)) as [Z1 Z2].
    { intros dim. destruct (contribution context _); [reflexivity | exact I]. }
    rewrite E1, E2, Z1, Z2.
    repeat split; try reflexivity; try discriminate.
  - repeat split; reflexivity.
Qed.

(** ** What [calculate] leaves behind *)

Lemma record_value_fields (context : Context) (dim : PressureDimension) :
  name (record_value context dim) = name dim
  /\ weight (record_value context dim) = weight dim
  /\ calculator (record_value context dim) = calculator dim
  /\ enabled (record_value context dim) = enabled dim
  /\ description (record_value context dim) = description dim
  /\ history (record_value context dim)
     = history dim ++ match contribution context dim with
                      | Some v => [v]
                      | None => []
                      end.
Proof.
  unfold record_value, contribution.
  destruct (enabled dim) eqn:He; cbn [negb];
    [destruct (calculator dim context)|]; cbn;
    rewrite ?app_nil_r, ?He; repeat split; reflexivity.
Qed.

Lemma contribution_record_value (context context' : Context) (dim : PressureDimension) :
  contribution context' (record_value context dim) = contribution context' dim
  /\ weight (record_value context dim) = weight dim.
Proof.
  destruct (record_value_fields context dim) as (_ & Hw & Hc & He & _).
  unfold contribution. rewrite He, Hc, Hw. split; reflexivity.
Qed.

Lemma sums_record_value (context context' : Context)
  (dims : list (string * PressureDimension)) :
  weighted_sum context'
    (map (fun item => (fst item, record_value context (snd item))) dims)
  = weighted_sum context' dims
  /\ weight_sum context'
       (map (fun item => (fst item, record_value context (snd item))) dims)
     = weight_sum context' dims.
Proof.
  induction dims as [|item dims [IH1 IH2]]; cbn [map]; [split; reflexivity|].
  rewrite !weighted_sum_cons, !weight_sum_cons; cbn [fst snd].
  destruct (contribution_record_value context context' (snd item)) as [Hc Hw].
  rewrite Hc, Hw, IH1, IH2. split; reflexivity.
Qed.

(** X24.  [calculate] changes nothing but histories: the keys and their
    order, and every dimension's name, weight, calculator, enabled flag
    and description stay as they are; the history of a dimension grows by
    its value when it contributes and is untouched otherwise.  The value
    returned by a later [calculate] therefore does not depend on the calls
    made before. *)
Theorem mdp_calculate_only_records :
  forall (self : MultiDimensionalPressure) (context : Context),
    let self' := fst (calculate self context) in
    map fst (dimensions self') = map fst (dimensions self)
    /\ Forall2
         (fun old new =>
            name new = name old /\ weight new = weight old
            /\ calculator new = calculator old /\ enabled new = enabled old
            /\ description new = description old
            /\ history new
               = history old ++ match contribution context old with
                                | Some v => [v]
                                | None => []
                                end)
         (map snd (dimensions self)) (map snd (dimensions self'))
    /\ (forall context' : Context,
          snd (calculate self' context') = snd (calculate self context')).
Proof.
  intros self context self'.
  assert (Hdims : dimensions self'
                  = map (fun item => (fst item, record_value context (snd item)))
                      (dimensions self)) by reflexivity.
  split; [|split].
  - rewrite Hdims, map_map. cbn [fst]. reflexivity.
  - rewrite Hdims, map_map. cbn [snd]. clear Hdims.
    induction (dimensions self) as [|item dims IH]; cbn [map]; constructor.
    + apply record_value_fields.
    + exact IH.
  - intros context'. rewrite !calculate_value, Hdims.
    destruct (sums_record_value context context' (dimensions self)) as [H1 H2].
    rewrite H1, H2. reflexivity.
Qed.

(** ** The pressure of the werewolf game *)

Lemma werewolf_dimensions :
  map (fun item => (fst item, weight (snd item), enabled (snd item)))
    (dimensions create_werewolf_pressure_v3)
  = [("suspicion"%string, 0.25, true); ("social_suspicion"%string, 0.25, true);
     ("trust"%string, 0.2, true); ("information"%string, 0.15, true);
     ("time"%string, 0.1, true); ("survival"%string, 0.05, true)].
Proof. reflexivity. Qed.

Lemma max_one_positive (x : R) : 1 <= Py.max 1 x.
Proof. apply max_lower_bound. Qed.

Lemma div_some (a b : R) : b <> 0 -> div a b = Some (a / b).
Proof. intros H. unfold div. rewrite (proj2 (eqb_false_iff b 0) H). reflexivity. Qed.

Lemma div_none (a : R) : div a 0 = None.
Proof. unfold div. rewrite (proj2 (eqb_true_iff 0 0) eq_refl). reflexivity. Qed.

Lemma min_one_upper (x : R) : Py.min 1.0 x <= 1 /\ (0 <= x -> 0 <= Py.min 1.0 x).
Proof. unfold Py.min, Py.ltb; destruct (Rlt_dec x 1.0); split; intros; lra. Qed.

Section WerewolfPressure.

Variables (suspicion_level social_suspicion trusted_count alive_count unknown_roles
           current_day max_days werewolf_count villager_count : R).

Let context : Context :=
  game_context suspicion_level social_suspicion trusted_count alive_count
    unknown_roles current_day max_days werewolf_count villager_count.

Let part_suspicion : R := Py.min 1.0 (suspicion_level / 10.0).
Let part_social : R := Py.min 1.0 (social_suspicion / 8.0).
Let part_trust : R := 1.0 - trusted_count / Py.max 1 alive_count.
Let part_information : R := unknown_roles / Py.max 1 alive_count.
Let part_survival : R := Py.min 1.0 (werewolf_count / Py.max 1 villager_count).

Lemma werewolf_sums :
  let dims := dimensions create_werewolf_pressure_v3 in
  let rest :=
    0.25 * part_suspicion + 0.25 * part_social + 0.2 * part_trust
    + 0.15 * part_information + 0.05 * part_survival in
  (max_days <> 0 ->
   weighted_sum context dims = rest + 0.1 * (current_day / max_days)
   /\ weight_sum context dims = 1)
  /\ (max_days = 0 ->
      weighted_sum context dims = rest /\ weight_sum context dims = 0.9).
Proof.
  assert (Hn : Py.max 1 alive_count <> 0)
    by (pose proof (max_one_positive alive_count); lra).
  assert (Hv : Py.max 1 villager_count <> 0)
    by (pose proof (max_one_positive villager_count); lra).
  assert (Htrust : trust_pressure context = Some part_trust).
  { unfold trust_pressure; cbv zeta.
    change (PyExt.dict_get context "trusted_count" 0) with trusted_count.
    change (PyExt.dict_get context "alive_count" 1) with alive_count.
    rewrite (div_some _ _ Hn). reflexivity. }
  assert (Hinfo : information_pressure context = Some part_information).
  { unfold information_pressure; cbv zeta.
    change (PyExt.dict_get context "unknown_roles" 0) with unknown_roles.
    change (PyExt.dict_get context "alive_count" 1) with alive_count.
    apply (div_some _ _ Hn). }
  assert (Hsurv : survival_pressure context = Some part_survival).
  { unfold survival_pressure; cbv zeta.
    change (PyExt.dict_get context "werewolf_count" 1) with werewolf_count.
    change (PyExt.dict_get context "villager_count" 1) with villager_count.
    rewrite (div_some _ _ Hv). reflexivity. }
  assert (Htime : time_pressure context = div current_day max_days) by reflexivity.
  assert (Hsusp : suspicion_pressure context = Some part_suspicion) by reflexivity.
  assert (Hsoc : social_suspicion_pressure context = Some part_social) by reflexivity.
  intros dims rest. subst dims.
  change (dimensions create_werewolf_pressure_v3)
    with [("suspicion"%string,
           Build_PressureDimension "suspicion" 0.25 suspicion_pressure true
             "自分への疑惑からの圧力" []);
          ("social_suspicion"%string,
           Build_PressureDimension "social_suspicion" 0.25 social_suspicion_pressure
             true "他者の発言による疑惑圧力" []);
          ("trust"%string,
           Build_PressureDimension "trust" 0.2 trust_pressure true
             "信頼できる人の少なさからの圧力" []);
          ("information"%string,
           Build_PressureDimension "information" 0.15 information_pressure true
             "未確定情報の多さからの圧力" []);
          ("time"%string,
           Build_PressureDimension "time" 0.1 time_pressure true
             "ゲーム進行からの圧力" []);
          ("survival"%string,
           Build_PressureDimension "survival" 0.05 survival_pressure true
             "人狼との人数バランスからの圧力" [])].
  rewrite !weighted_sum_cons, !weight_sum_cons.
  unfold contribution; cbn [snd enabled calculator weight weighted_sum weight_sum
                             fold_right].
  rewrite Hsusp, Hsoc, Htrust, Hinfo, Hsurv, Htime.
  split; intros Hd.
  - rewrite (div_some _ _ Hd). subst rest. split; lra.
  - rewrite Hd, div_none. subst rest. split; lra.
Qed.

(** X25.  The pressure that [create_werewolf_pressure_v3] yields on the
    context of [update_player_energy].  With [max_days] non-zero the six
    weights sum to one and the x component is the plain weighted sum of the
    six values.  With [max_days = 0] the time dimension raises
    [ZeroDivisionError], is skipped, and the other five are renormalised by
    [0.9].  For non-negative suspicion values, [0 <= trusted_count <=
    alive_count], [0 <= unknown_roles <= alive_count], [0 <= current_day <=
    max_days] and non-negative head counts the x component lies in
    [[0, 1]]. *)
Theorem werewolf_pressure_value :
  let result := calculate create_werewolf_pressure_v3 context in
  let rest :=
    0.25 * part_suspicion + 0.25 * part_social + 0.2 * part_trust
    + 0.15 * part_information + 0.05 * part_survival in
  (max_days <> 0 ->
   snd result = [rest + 0.1 * (current_day / max_days); 0.0; 0.0])
  /\ (max_days = 0 -> snd result = [rest / 0.9; 0.0; 0.0])
  /\ (0 <= suspicion_level -> 0 <= social_suspicion ->
      0 <= trusted_count <= alive_count -> 0 <= unknown_roles <= alive_count ->
      0 <= current_day <= max_days -> 0 < max_days ->
      0 <= werewolf_count -> 0 <= villager_count ->
      exists x : R, snd result = [x; 0.0; 0.0] /\ 0 <= x <= 1).
Proof.
  intros result rest. subst result.
  rewrite calculate_value.
  destruct werewolf_sums as [Hnz Hz]. cbv zeta in Hnz, Hz. fold rest in Hnz, Hz.
  split; [|split].
  - intros Hd. destruct (Hnz Hd) as [-> ->].
    unfold Py.gtb. rewrite (proj2 (ltb_true_iff 0 (0.0 + 1))) by lra.
    f_equal. lra.
  - intros Hd. destruct (Hz Hd) as [-> ->].
    unfold Py.gtb. rewrite (proj2 (ltb_true_iff 0 (0.0 + 0.9))) by lra.
    f_equal. lra.
  - intros Hs Hsoc Ht Hu Hday Hmax Hw Hv.
    assert (Hd : max_days <> 0) by lra.
    destruct (Hnz Hd) as [-> ->].
    unfold Py.gtb. rewrite (proj2 (ltb_true_iff 0 (0.0 + 1))) by lra.
    eexists. split; [reflexivity|].
    assert (Hn1 : 1 <= Py.max 1 alive_count) by apply max_one_positive.
    assert (Hn2 : alive_count <= Py.max 1 alive_count) by apply max_upper_bound.
    assert (Hv1 : 1 <= Py.max 1 villager_count) by apply max_one_positive.
    assert (Hfrac : forall a b : R, 0 <= a <= b -> 0 < b -> 0 <= a / b <= 1).
    { intros a b Hab Hb. apply share_in_unit_interval; lra. }
    assert (Ft : 0 <= trusted_count / Py.max 1 alive_count <= 1)
      by (apply Hfrac; lra).
    assert (Fu : 0 <= unknown_roles / Py.max 1 alive_count <= 1)
      by (apply Hfrac; lra).
    assert (Fd : 0 <= current_day / max_days <= 1) by (apply Hfrac; lra).
    assert (Fs : 0 <= suspicion_level / 10.0) by (unfold Rdiv; nra).
    assert (Fo : 0 <= social_suspicion / 8.0) by (unfold Rdiv; nra).
    assert (Fw : 0 <= werewolf_count / Py.max 1 villager_count).
    { unfold Rdiv. apply Rmult_le_pos; [lra|].
      left. apply Rinv_0_lt_compat. lra. }
    destruct (min_one_upper (suspicion_level / 10.0)) as [S1 S2].
    destruct (min_one_upper (social_suspicion / 8.0)) as [O1 O2].
    destruct (min_one_upper (werewolf_count / Py.max 1 villager_count)) as [W1 W2].
    specialize (S2 Fs). specialize (O2 Fo). specialize (W2 Fw).
    subst rest. unfold part_suspicion, part_social, part_trust, part_information,
      part_survival.
    split; lra.
Qed.

End WerewolfPressure.

Lemma werewolf_pressure_value_witness :
  exists x : R,
    snd (calculate create_werewolf_pressure_v3
           (game_context 2 0 1 7 4 1 6 2 5)) = [x; 0.0; 0.0]
    /\ 0 <= x <= 1.
Proof.
  apply (werewolf_pressure_value 2 0 1 7 4 1 6 2 5); lra.
Defined.

End MdpProperties.

(** * Properties of the werewolf game's bookkeeping *)

Section GameProperties.
Import Game Game_Views.

Lemma count_if_from {A : Type} (cond : A -> bool) (l : list A) :
  forall acc : Z,
    fold_left (fun acc p => if cond p then (acc + 1)%Z else acc) l acc
    = (acc + Z.of_nat (List.length (filter cond l)))%Z.
Proof.
  induction l as [|x l IH]; intros acc; cbn [fold_left filter].
  - cbn. lia.
  - rewrite IH. destruct (cond x); cbn [List.length]; lia.
Qed.

Lemma count_if_length {A : Type} (cond : A -> bool) (l : list A) :
  count_if cond l = Z.of_nat (List.length (filter cond l)).
Proof. unfold count_if. rewrite count_if_from. lia. Qed.

Lemma filter_partition_length {A : Type} (cond : A -> bool) (l : list A) :
  (List.length (filter cond l) + List.length (filter (fun x => negb (cond x)) l)
   = List.length l)%nat.
Proof.
  induction l as [|x l IH]; cbn [filter]; [reflexivity|].
  destruct (cond x); cbn [negb List.length]; lia.
Qed.

Lemma head_counts (self : WerewolfGameV3) :
  (0 <= get_werewolf_count self)%Z
  /\ (0 <= get_villager_count self)%Z
  /\ (get_werewolf_count self + get_villager_count self
      = Z.of_nat (List.length (get_alive_players self)))%Z.
Proof.
  unfold get_werewolf_count, get_villager_count.
  rewrite !count_if_length.
  pose proof (filter_partition_length (fun p => Role_eqb (role p) WEREWOLF)
                (get_alive_players self)) as Hsplit.
  cbv beta in Hsplit. lia.
Qed.

(** X26.  The two head counts of the werewolf game are non-negative and
    add up to the number of living players.  [check_game_end] announces
    the villagers' victory exactly when no werewolf is alive (also when
    nobody is alive), the werewolves' victory exactly when at least one
    werewolf is alive and the werewolves are at least as many as the
    others, a draw exactly when neither holds and the day counter has
    passed [max_days], and returns [None] otherwise. *)
Theorem game_end_characterisation :
  forall self : WerewolfGameV3,
    let w := get_werewolf_count self in
    let v := get_villager_count self in
    (0 <= w)%Z /\ (0 <= v)%Z
    /\ (w + v = Z.of_nat (List.length (get_alive_players self)))%Z
    /\ (check_game_end self = Some "村人側の勝利"%string <-> w = 0%Z)
    /\ (check_game_end self = Some "人狼側の勝利"%string <-> (0 < w /\ v <= w)%Z)
    /\ (check_game_end self = Some "時間切れ（引き分け）"%string
        <-> (0 < w < v /\ max_days self < current_day self)%Z)
    /\ (check_game_end self = None
        <-> (0 < w < v /\ current_day self <= max_days self)%Z).
Proof.
  intros self w v.
  destruct (head_counts self) as (Hw & Hv & Hsum). fold w in Hw, Hsum. fold v in Hv, Hsum.
  split; [exact Hw|]. split; [exact Hv|]. split; [exact Hsum|].
  unfold check_game_end; cbv zeta. fold w. fold v.
  destruct (Z.eqb_spec w 0) as [H0|H0].
  { repeat split; intros; try discriminate; try lia; try reflexivity. }
  destruct (Z.geb_spec w v) as [H1|H1].
  { repeat split; intros; try discriminate; try lia; try reflexivity. }
  destruct (Z.gtb_spec (current_day self) (max_days self)) as [H2|H2].
  { repeat split; intros; try discriminate; try lia; try reflexivity. }
  repeat split; intros; try discriminate; try lia; try reflexivity.
Qed.

(** ** Learning *)

Lemma with_state_kappa_same (p : WerewolfPlayerV3) :
  with_state_kappa p (V3_5.kappa (state p)) = p.
Proof. destruct p as [? ? ? [] ? ? ? ? ? ? ? ? ? ? ? ? ?]; reflexivity. Qed.

Lemma learn_effect (executed : WerewolfPlayerV3) (is_werewolf : bool)
  (p : WerewolfPlayerV3) :
  let p' := learn executed is_werewolf p in
  let k := V3_5.kappa (state p) in
  let k' := V3_5.kappa (state p') in
  same_but_kappa p p'
  /\ k' = (if int_in (id executed) (voted_for p)
           then if is_werewolf then Py.min 2.0 (k + 0.15) else Py.max 0.3 (k + - 0.10)
           else k).
Proof.
  unfold learn, same_but_kappa; cbv zeta.
  destruct (int_in (id executed) (voted_for p)); [destruct is_werewolf|].
  - split; [|reflexivity]. destruct p as [? ? ? [] ? ? ? ? ? ? ? ? ? ? ? ? ?]; reflexivity.
  - split; [|reflexivity]. destruct p as [? ? ? [] ? ? ? ? ? ? ? ? ? ? ? ? ?]; reflexivity.
  - split; [apply with_state_kappa_same | reflexivity].
Qed.

(** X27.  [learning_phase] keeps the list of players in place and changes
    nothing but the inertia [kappa] of living players who have the executed
    player's id in [voted_for]: it becomes [min(2.0, kappa + 0.15)] when
    the executed player was a werewolf and [max(0.3, kappa - 0.10)]
    otherwise.  An inertia within [[0.3, 2.0]] stays there, never moves by
    more than [0.15], rises (weakly) after a werewolf's execution and
    falls (weakly) after any other. *)
Theorem learning_phase_effect :
  forall (self : WerewolfGameV3) (executed : WerewolfPlayerV3) (votes : list (Z * R)),
    let self' := learning_phase self executed votes in
    current_day self' = current_day self
    /\ max_days self' = max_days self
    /\ Forall2
         (fun p p' =>
            let k := V3_5.kappa (state p) in
            let k' := V3_5.kappa (state p') in
            let learns := is_alive p && int_in (id executed) (voted_for p) in
            same_but_kappa p p'
            /\ k' = (if learns
                     then if Role_eqb (role executed) WEREWOLF
                          then Py.min 2.0 (k + 0.15)
                          else Py.max 0.3 (k + - 0.10)
                     else k)
            /\ (0.3 <= k <= 2.0 ->
                0.3 <= k' <= 2.0
                /\ Rabs (k' - k) <= 0.15
                /\ (if Role_eqb (role executed) WEREWOLF then k <= k' else k' <= k)))
         (players self) (players self').
Proof.
  intros self executed votes self'.
  split; [reflexivity|]. split; [reflexivity|].
  subst self'. unfold learning_phase; cbv zeta; cbn [players].
  induction (players self) as [|p ps IH]; cbn [map]; constructor; [|exact IH].
  cbv zeta.
  destruct (is_alive p) eqn:Halive; cbn [andb].
  - destruct (learn_effect executed (Role_eqb (role executed) WEREWOLF) p)
      as [Hsame Hk]. cbv zeta in Hk.
    split; [exact Hsame|]. split; [exact Hk|].
    intros Hrange. rewrite Hk.
    destruct (int_in (id executed) (voted_for p));
      destruct (Role_eqb (role executed) WEREWOLF);
      unfold Py.min, Py.max, Py.ltb;
      repeat match goal with
             | |- context [Rlt_dec ?a ?b] => destruct (Rlt_dec a b)
             end;
      repeat split; try lra;
      apply Rabs_le; lra.
  - split; [apply with_state_kappa_same|]. split; [reflexivity|].
    intros Hrange. replace (V3_5.kappa (state p) - V3_5.kappa (state p)) with 0 by ring.
    rewrite Rabs_R0.
    destruct (Role_eqb (role executed) WEREWOLF); repeat split; lra.
Qed.

(** ** Cooperation *)

Lemma int_dict_get_in_range (m : list (Z * R)) (k : Z) :
  trust_in_range m -> 0 <= int_dict_get m k 0.5 <= 1.
Proof.
  induction 1 as [|[k' v] m Hv _ IH]; cbn [int_dict_get]; [lra|].
  destruct (Z.eqb k' k); [exact Hv | exact IH].
Qed.

Lemma int_dict_set_in_range (m : list (Z * R)) (k : Z) (v : R) :
  trust_in_range m -> 0 <= v <= 1 -> trust_in_range (int_dict_set m k v).
Proof.
  intros Hm Hv. induction Hm as [|[k' v'] m Hv' Hm IH]; cbn [int_dict_set].
  - constructor; [exact Hv | constructor].
  - destruct (Z.eqb k' k); constructor; try assumption.
Qed.

Lemma cooperate_in_range (voted_targets : list (Z * Z)) (a : WerewolfPlayerV3)
  (target_of_a : Z) (trust : list (Z * R)) (b : WerewolfPlayerV3) :
  trust_in_range trust ->
  trust_in_range (cooperate voted_targets a target_of_a trust b).
Proof.
  intros Hm. unfold cooperate.
  destruct (Z.eqb (id a) (id b)); [exact Hm|].
  destruct (int_dict_lookup voted_targets (id b)) as [target_of_b|]; [|exact Hm].
  pose proof (int_dict_get_in_range trust (id b) Hm) as Hold.
  destruct (Z.eqb target_of_a target_of_b); cbv zeta.
  - apply int_dict_set_in_range; [exact Hm|].
    unfold Py.min, Py.ltb. destruct (Rlt_dec _ _); lra.
  - destruct (Z.eqb target_of_b (id a)); [|exact Hm].
    apply int_dict_set_in_range; [exact Hm|].
    unfold Py.max, Py.ltb. destruct (Rlt_dec _ _); lra.
Qed.

Lemma cooperate_all_in_range (voted_targets : list (Z * Z)) (a : WerewolfPlayerV3)
  (target_of_a : Z) (alive : list WerewolfPlayerV3) :
  forall trust : list (Z * R),
    trust_in_range trust ->
    trust_in_range (fold_left (cooperate voted_targets a target_of_a) alive trust).
Proof.
  induction alive as [|b alive IH]; intros trust Hm; cbn [fold_left]; [exact Hm|].
  apply IH, cooperate_in_range, Hm.
Qed.

Lemma with_trust_map_same (p : WerewolfPlayerV3) : with_trust_map p (trust_map p) = p.
Proof. destruct p; reflexivity. Qed.

(** X28.  [process_cooperation] keeps the players in place and changes
    nothing but trust maps; a player who did not vote keeps its trust map;
    and trust values stay within [[0, 1]]: if every recorded value of a
    player was in that range, so is every value afterwards (a missing
    entry counts as [0.5]). *)
Theorem process_cooperation_trust_range :
  forall (self : WerewolfGameV3) (voted_targets : list (Z * Z))
         (alive : list WerewolfPlayerV3),
    Forall2
      (fun p p' =>
         with_trust_map p' (trust_map p) = p
         /\ (int_dict_lookup voted_targets (id p) = None -> p' = p)
         /\ (trust_in_range (trust_map p) -> trust_in_range (trust_map p')))
      alive (process_cooperation self voted_targets alive).
Proof.
  intros self voted_targets alive. unfold process_cooperation.
  generalize alive at 2 as everyone.
  induction alive as [|p ps IH]; intros everyone; cbn [map]; constructor;
    [|apply IH].
  destruct (int_dict_lookup voted_targets (id p)) as [target|].
  - split; [destruct p; reflexivity|]. split; [discriminate|].
    cbn [with_trust_map trust_map]. apply cooperate_all_in_range.
  - split; [apply with_trust_map_same|]. split; [reflexivity|]. intros H; exact H.
Qed.

End GameProperties.

(** ** Runs of the v5 engine *)

Lemma step_with_fields (self : SSDCoreEngineV5) (state : SSDStateV5) (c : StepArgs) :
  params (fst (step_with self state c)) = params self
  /\ time (fst (step_with self state c)) = time self + arg_dt c
  /\ (forall l, total_decay_of l (fst (step_with self state c))
                = total_decay_of l self + beta_of l (params self) * E_of l state * arg_dt c)
  /\ 0 <= E_direct (snd (step_with self state c))
  /\ (forall l, 0 <= E_of l (snd (step_with self state c)))
  /\ (forall l, kappa_min_of l (params self) <= kappa_of l (snd (step_with self state c))).
Proof.
  unfold step_with.
  pose proof (step_engine_fields self state (arg_p_physical c) (arg_p_base c)
                (arg_p_core c) (arg_p_upper c) (arg_F_direct c) (arg_other_states c)
                (arg_relationships c) (arg_dt c)) as H.
  cbv zeta in H.
  destruct H as (H0 & H1 & _ & _ & _ & _ & _ & _ & _ & _ & D1 & D2 & D3 & D4).
  split; [exact H0|]. split; [exact H1|].
  split; [intros l; destruct l; cbn [total_decay_of beta_of E_of]; assumption|].
  split; [rewrite step_energy_direct; apply max_zero_nonneg|].
  split.
  - intros l. rewrite step_energy. apply max_zero_nonneg.
  - intros l. rewrite step_kappa. apply max_lower_bound.
Qed.

Lemma run_steps_keeps (calls : list StepArgs) :
  forall (self : SSDCoreEngineV5) (state : SSDStateV5),
    0 <= E_direct state ->
    (forall l, 0 <= E_of l state) ->
    (forall l, kappa_min_of l (params self) <= kappa_of l state) ->
    let r := run_steps self state calls in
    params (fst r) = params self
    /\ time (fst r) = time self + total_dt calls
    /\ 0 <= E_direct (snd r)
    /\ (forall l, 0 <= E_of l (snd r))
    /\ (forall l, kappa_min_of l (params self) <= kappa_of l (snd r))
    /\ (Forall (fun c => 0 <= arg_dt c) calls ->
        (forall l, 0 <= beta_of l (params self)) ->
        forall l, total_decay_of l self <= total_decay_of l (fst r)).
Proof.
  induction calls as [|c rest IH]; intros self state HEd HE Hk r; subst r;
    cbn [run_steps fst snd total_dt fold_right].
  - split; [reflexivity|]. split; [ring|]. split; [exact HEd|].
    split; [exact HE|]. split; [exact Hk|]. intros _ _ l. lra.
  - destruct (step_with_fields self state c) as (P1 & T1 & D1 & Ed1 & E1 & K1).
    rewrite <- P1 in K1.
    specialize (IH _ _ Ed1 E1 K1). cbv zeta in IH.
    destruct IH as (P2 & T2 & Ed2 & E2 & K2 & D2).
    rewrite P1 in P2, K2, D2.
    split; [exact P2|].
    split; [rewrite T2, T1; fold (total_dt rest); ring|].
    split; [exact Ed2|]. split; [exact E2|]. split; [exact K2|].
    intros Hdt Hbeta l. inversion Hdt as [|? ? Hc Hrest]; subst.
    specialize (D2 Hrest Hbeta l). rewrite D1 in D2.
    assert (0 <= beta_of l (params self) * E_of l state * arg_dt c).
    { apply Rmult_le_pos; [apply Rmult_le_pos|]; auto. }
    lra.
Qed.

(** X29.  Any sequence of calls of [step] on one engine and one state:
    the parameters are never changed and the clock advances by the sum of
    the time steps; after at least one call every energy is non-negative
    and every inertia is at or above its floor, whatever the state was
    before; and when the energies start non-negative, the decay rates
    [beta] are non-negative and no [dt] is negative, the running decay
    totals never decrease. *)
Theorem v5_run_invariants :
  forall (calls : list StepArgs) (self : SSDCoreEngineV5) (state : SSDStateV5),
    let r := run_steps self state calls in
    params (fst r) = params self
    /\ time (fst r) = time self + total_dt calls
    /\ (calls <> [] ->
        0 <= E_direct (snd r)
        /\ (forall l, 0 <= E_of l (snd r))
        /\ (forall l, kappa_min_of l (params self) <= kappa_of l (snd r)))
    /\ (Forall (fun c => 0 <= arg_dt c) calls ->
        (forall l, 0 <= beta_of l (params self)) ->
        (forall l, 0 <= E_of l state) ->
        forall l, total_decay_of l self <= total_decay_of l (fst r)).
Proof.
  intros calls self state r. subst r.
  destruct calls as [|c rest].
  - cbn [run_steps fst snd total_dt fold_right].
    split; [reflexivity|]. split; [ring|]. split; [intros H; contradiction|].
    intros _ _ _ l. lra.
  - cbn [run_steps].
    destruct (step_with_fields self state c) as (P1 & T1 & D1 & Ed1 & E1 & K1).
    rewrite <- P1 in K1.
    destruct (run_steps_keeps rest _ _ Ed1 E1 K1) as (P2 & T2 & Ed2 & E2 & K2 & D2).
    rewrite P1 in P2, K2, D2.
    split; [exact P2|].
    split; [rewrite T2, T1; cbn [total_dt fold_right]; fold (total_dt rest); ring|].
    split; [intros _; split; [exact Ed2 | split; [exact E2 | exact K2]]|].
    intros Hdt Hbeta HE l. inversion Hdt as [|? ? Hc Hrest]; subst.
    specialize (D2 Hrest Hbeta l). rewrite D1 in D2.
    assert (0 <= beta_of l (params self) * E_of l state * arg_dt c).
    { apply Rmult_le_pos; [apply Rmult_le_pos|]; auto. }
    lra.
Qed.
